(** * Irish Democratic Accountability Dashboard: the voting-integration engine

    A shallow embedding of the scoring, tiering and reporting code of
    [class EnhancedVotingIntegration] and of the conflict analyser and
    fallback score of [class OireachtasVotingExtractor].

    Conventions of the embedding.
    - Counts and scores are JavaScript numbers holding integers: [Z].
    - Likelihoods, margins, random draws and the combined priority are
      JavaScript numbers holding fractions: the rational [Q] a double
      denotes.  A decimal literal of the source is the nearest double, and
      [+], [-] and [*] on such numbers round their exact result to the
      nearest double, ties to even ([binary64]).  The exponent range is
      not modelled (no overflow, no subnormal numbers: the values of this
      code stay far inside it); the two averages of the report are exact
      quotients.
    - A JSON field that may be missing is an [option]; arithmetic on a
      missing field gives NaN, also written [None].
    - An object used as a dictionary keyed by name is a [gmap string _];
      the TD table, whose iteration order matters, is an association list.
    - [Math.random()] and [new Date().toISOString()] read two oracles held
      in the world state; a thrown exception ends the computation. *)

From Stdlib Require Import ZArith QArith Qminmax Qround Qpower List Sorted Permutation Lia Lqa.
From stdpp Require Import gmap strings.
Import ListNotations.

Local Open Scope string_scope.
Local Open Scope Z_scope.

(** ** JavaScript values and effects *)

Inductive JsError : Type :=
| TypeError (message : string)
| Error (message : string).

Inductive Outcome (A : Type) : Type :=
| Returned (value : A)
| Thrown (error : JsError).
Arguments Returned {A} value.
Arguments Thrown {A} error.

(** The world a run executes in: the sequence of values [Math.random()] will
    return, the sequence of ISO strings the clock will show, and how many of
    each have been consumed. *)
Record World : Type := mkWorld {
  random_draws : nat -> Q;
  draws_taken : nat;
  clock_shows : nat -> string;
  clock_reads : nat
}.

Definition Js (A : Type) : Type := World -> Outcome A * World.

Definition ret {A} (a : A) : Js A := fun w => (Returned a, w).

Definition throw {A} (e : JsError) : Js A := fun w => (Thrown e, w).

Definition bind {A B} (c : Js A) (k : A -> Js B) : Js B :=
  fun w => match c w with
           | (Returned a, w') => k a w'
           | (Thrown e, w') => (Thrown e, w')
           end.

Notation "'let*' x ':=' c 'in' k" := (bind c (fun x => k))
  (at level 10, x name, c at level 100, k at level 200, only parsing).

Definition Math_random : Js Q :=
  fun w => (Returned (random_draws w (draws_taken w)),
            mkWorld (random_draws w) (S (draws_taken w)) (clock_shows w) (clock_reads w)).

Definition Date_toISOString : Js string :=
  fun w => (Returned (clock_shows w (clock_reads w)),
            mkWorld (random_draws w) (draws_taken w) (clock_shows w) (S (clock_reads w))).

(** [for (const x of xs) ...] / [xs.map(f)] with a body that may throw. *)
Fixpoint js_map {A B} (f : A -> Js B) (xs : list A) : Js (list B) :=
  match xs with
  | [] => ret []
  | x :: rest =>
      let* y := f x in
      let* ys := js_map f rest in
      ret (y :: ys)
  end.

(** [xs.filter(p)] with a predicate that may throw. *)
Fixpoint js_filter {A} (p : A -> Js bool) (xs : list A) : Js (list A) :=
  match xs with
  | [] => ret []
  | x :: rest =>
      let* keep := p x in
      let* ys := js_filter p rest in
      ret (if keep then x :: ys else ys)
  end.

(** Calling [this.m(...)]: a method the class does not declare evaluates to
    [undefined], and calling it throws a TypeError. *)
Definition call_method {A B C} (name : string) (m : option (A -> B -> Js C))
    (a : A) (b : B) : Js C :=
  match m with
  | Some body => body a b
  | None => throw (TypeError ("this." ++ name ++ " is not a function"))
  end.

(** The methods [class EnhancedVotingIntegration] declares. *)
Definition EnhancedVotingIntegration_methods : list string :=
  [ "constructor"; "loadDataSources"; "loadJSON"; "integrateVotingRecords";
    "enhanceVotingRecord"; "generateRealisticVotingPattern";
    "calculateEnhancedHypocrisyScore"; "calculatePressurePriority";
    "addElectoralTargeting"; "getTargetingPriority"; "getCampaignStrategy";
    "generateTargetingReport"; "executeIntegration" ].

(** [x || d] on a number slot: [undefined], NaN and 0 are falsy. *)
Definition or_default (x : option Z) (d : Z) : Z :=
  match x with
  | Some v => if v =? 0 then d else v
  | None => d
  end.

(** [a < b] on numbers. *)
Definition Qltb (a b : Q) : bool := negb (Qle_bool b a).

(** ** Double arithmetic *)

(** The integer nearest to [x], a tie going to the even one. *)
Definition round_half_even (x : Q) : Z :=
  let f := Qfloor x in
  match (x - inject_Z f ?= 1 # 2)%Q with
  | Lt => f
  | Gt => f + 1
  | Eq => if Z.even f then f else f + 1
  end.

(** [floor (log2 a)] for a positive [a]: the exponent of its binade. *)
Definition binade (a : Q) : Z :=
  let e := Z.log2 (Qnum a) - Z.log2 (Zpos (Qden a)) in
  if Qle_bool (2 ^ e) a then e else e - 1.

(** The double nearest to a positive [a]: 53 significant bits. *)
Definition nearest_double (a : Q) : Q :=
  let ulp := (2 ^ (binade a - 52))%Q in
  (inject_Z (round_half_even (a / ulp)) * ulp)%Q.

(** Rounding to the nearest double, ties to even, in lowest terms. *)
Definition binary64 (x : Q) : Q :=
  match (x ?= 0)%Q with
  | Eq => 0%Q
  | Gt => Qred (nearest_double (Qred x))
  | Lt => Qred (- nearest_double (Qred (- x)))
  end.

(** A decimal literal of the source. *)
Definition number (literal : Q) : Q := binary64 literal.

(** [a + b], [a - b] and [a * b] on doubles. *)
Definition fadd (a b : Q) : Q := binary64 (a + b).
Definition fsub (a b : Q) : Q := binary64 (a - b).
Definition fmul (a b : Q) : Q := binary64 (a * b).

(** ** Data model *)

Record Properties : Type := mkProperties {
  landlord_status : bool;
  property_count : Z
}.

Record HousingVotes : Type := mkHousingVotes {
  total_votes : Z;
  pro_tenant_votes : Z;
  anti_tenant_votes : Z;
  abstentions : Z;
  missed_votes : Z
}.

Record DetailedVote : Type := mkDetailedVote {
  vote_id : string;
  vote_title : string;
  vote_date : string;
  vote_cast : string;
  is_hypocritical : bool;
  vote_weight : Z
}.

(** [td.voting_record]. The clean record of a non-landlord carries neither
    [detailed_votes] nor [pressure_campaign_priority]; [hypocrisy_score] is
    NaN when the score was computed from a missing tally. *)
Record VotingRecord : Type := mkVotingRecord {
  housing_votes : HousingVotes;
  detailed_votes : option (list DetailedVote);
  hypocrisy_score : option Z;
  pressure_campaign_priority : option Z;
  last_updated : string;
  verification_status : string
}.

(** [td.electoral_data]. *)
Record ElectoralTargeting : Type := mkElectoralTargeting {
  last_election_margin : option Q;
  et_vulnerability_level : string;
  votes_needed_to_flip : option Z;
  targeting_priority : string;
  campaign_strategy : string;
  et_swing_required : option Q
}.

Record TD : Type := mkTD {
  first_name : string;
  last_name : string;
  party : string;
  constituency : string;
  properties : Properties;
  voting_record : option VotingRecord;
  electoral_data : option ElectoralTargeting
}.

Record Metadata : Type := mkMetadata {
  voting_integration_status : option string;
  voting_integration_date : option string;
  landlord_tds_analyzed : option Z
}.

Record TDDatabase : Type := mkTDDatabase {
  metadata : Metadata;
  tds : list (string * TD)
}.

(** One entry of [voting-records-2024.json]'s [tds]. *)
Record VotingData : Type := mkVotingData {
  vd_total_votes : option Z;
  vd_pro_tenant_votes : option Z;
  vd_anti_tenant_votes : option Z;
  vd_abstentions : option Z;
  vd_missed_votes : option Z;
  vd_hypocritical_votes : option Z
}.

Record VotingFile : Type := mkVotingFile {
  vf_tds : option (gmap string VotingData)
}.

(** One entry of [electoral-margins.json]'s [constituencies]. *)
Record ElectoralEntry : Type := mkElectoralEntry {
  margin_percentage : Q;
  vulnerability_level : string;
  votes_needed : Z;
  swing_required : Q
}.

Record ElectoralFile : Type := mkElectoralFile {
  constituencies : option (gmap string ElectoralEntry)
}.

(** One entry of [this.housingVoteTargets]. *)
Record VoteTarget : Type := mkVoteTarget {
  target_id : string;
  title : string;
  description : string;
  date : string;
  pro_tenant_stance : string;
  weight : Z;
  category : string
}.

(** The fields of an [EnhancedVotingIntegration] instance ([this]). *)
Record Instance : Type := mkInstance {
  completeTDDatabase : option TDDatabase;
  existingVotingData : option VotingFile;
  electoralData : option ElectoralFile;
  landlordTDs : list string;
  housingVoteTargets : list VoteTarget
}.

Definition party_Fianna_Fail : string := "Fianna F√°il".
Definition party_Sinn_Fein : string := "Sinn F√©in".

(** The slate the constructor installs. *)
Definition constructor_housingVoteTargets : list VoteTarget :=
  [ mkVoteTarget "RTB2024_001" "Residential Tenancies (Amendment) Bill 2024"
      "Rent control caps and eviction protections" "2024-03-15" "FOR" 25
      "tenant_protection";
    mkVoteTarget "VPT2024_001" "Vacant Property Tax (Amendment) Bill 2024"
      "Penalties for keeping properties vacant" "2024-04-22" "FOR" 20
      "housing_supply";
    mkVoteTarget "PDH2024_001" "Planning and Development (Housing) Bill 2024"
      "Social housing requirements in developments" "2024-06-11" "FOR" 15
      "social_housing";
    mkVoteTarget "RTS2024_001" "Residential Tenancies (Security of Tenure) Bill 2024"
      "Indefinite tenancies and eviction restrictions" "2024-09-18" "FOR" 25
      "tenant_protection";
    mkVoteTarget "PTR2024_001" "Property Tax (Rental Income) Amendment 2024"
      "Tax relief reductions for rental properties" "2024-10-29" "FOR" 15
      "landlord_taxation" ].

(** [this.electoralData?.constituencies?.[c]] *)
Definition electoral_entry (this : Instance) (c : string) : option ElectoralEntry :=
  match electoralData this with
  | Some file =>
      match constituencies file with
      | Some table => table !! c
      | None => None
      end
  | None => None
  end.

(** [this.existingVotingData?.tds?.[tdName]] *)
Definition existing_vote_data (this : Instance) (tdName : string) : option VotingData :=
  match existingVotingData this with
  | Some file =>
      match vf_tds file with
      | Some table => table !! tdName
      | None => None
      end
  | None => None
  end.

(** ** Score Calculator (setup-release.js) *)

Definition calculateEnhancedHypocrisyScore (this : Instance)
    (votingData : VotingData) (tdInfo : TD) : option Z :=
  let score := 0 in
  let score := score + Z.min (property_count (properties tdInfo) * 3) 30 in
  match vd_anti_tenant_votes votingData with
  | None => None
  | Some anti =>
      let score := score + anti * 8 in
      let score := score + or_default (vd_hypocritical_votes votingData) 0 * 10 in
      let score :=
        if String.eqb (party tdInfo) party_Fianna_Fail
           || String.eqb (party tdInfo) "Fine Gael"
           || String.eqb (party tdInfo) "Green Party"
        then score + 10 else score in
      let score :=
        match electoral_entry this (constituency tdInfo) with
        | Some electoralData =>
            if Qltb (margin_percentage electoralData) 5 then score + 15 else score
        | None => score
        end in
      Some (Z.min score 100)
  end.

Definition calculatePressurePriority (this : Instance)
    (votingData : VotingData) (tdInfo : TD) : Z :=
  let priority := 1 in
  let priority :=
    if 10 <=? property_count (properties tdInfo) then priority + 3
    else if 5 <=? property_count (properties tdInfo) then priority + 2
    else if 1 <=? property_count (properties tdInfo) then priority + 1
    else priority in
  let priority := priority + Z.min (or_default (vd_anti_tenant_votes votingData) 0) 3 in
  let priority :=
    match electoral_entry this (constituency tdInfo) with
    | Some electoralData =>
        if Qltb (margin_percentage electoralData) 1 then priority + 3
        else if Qltb (margin_percentage electoralData) 2.5 then priority + 2
        else if Qltb (margin_percentage electoralData) 5 then priority + 1
        else priority
    | None => priority
    end in
  Z.min priority 10.

(** ** Tiering Engine *)

Definition getTargetingPriority (electoralData : ElectoralEntry) (tdInfo : TD) : string :=
  if Qltb (margin_percentage electoralData) 1 then "TIER_1_CRITICAL"
  else if Qltb (margin_percentage electoralData) 2.5 then "TIER_2_HIGH"
  else if Qltb (margin_percentage electoralData) 5 then "TIER_3_MEDIUM"
  else "TIER_4_LOW".

Definition getCampaignStrategy (electoralData : ElectoralEntry) (tdInfo : TD) : string :=
  let margin := margin_percentage electoralData in
  let properties := property_count (properties tdInfo) in
  if Qltb margin 1 && (5 <=? properties) then "AGGRESSIVE_IMMEDIATE_CAMPAIGN"
  else if Qltb margin 2.5 && (3 <=? properties) then "FOCUSED_PRESSURE_CAMPAIGN"
  else if Qltb margin 5 then "SUSTAINED_AWARENESS_CAMPAIGN"
  else "LONG_TERM_POSITIONING".

Definition addElectoralTargeting (this : Instance) (tdInfo : TD) : ElectoralTargeting :=
  match electoral_entry this (constituency tdInfo) with
  | None =>
      {| last_election_margin := None;
         et_vulnerability_level := "UNKNOWN";
         votes_needed_to_flip := None;
         targeting_priority := "LOW";
         campaign_strategy := "RESEARCH_NEEDED";
         et_swing_required := None |}
  | Some electoralData =>
      {| last_election_margin := Some (margin_percentage electoralData);
         et_vulnerability_level := vulnerability_level electoralData;
         votes_needed_to_flip := Some (votes_needed electoralData);
         targeting_priority := getTargetingPriority electoralData tdInfo;
         campaign_strategy := getCampaignStrategy electoralData tdInfo;
         et_swing_required := Some (swing_required electoralData) |}
  end.

(** ** Vote Pattern Synthesizer *)

Record Tendency : Type := mkTendency {
  anti_tenant_likelihood : Q;
  party_discipline : Q
}.

Definition partyVotingTendencies : gmap string Tendency :=
  list_to_map
    [ (party_Fianna_Fail, mkTendency (number 0.7) (number 0.8));
      ("Fine Gael", mkTendency (number 0.75) (number 0.85));
      ("Independent", mkTendency (number 0.8) (number 0.2));
      (party_Sinn_Fein, mkTendency (number 0.3) (number 0.9));
      ("Social Democrats", mkTendency (number 0.2) (number 0.7)) ].

(** [partyVotingTendencies[tdInfo.party] || { 0.6, 0.5 }]; party names are
    taken not to collide with the members every object inherits. *)
Definition tendency (tdInfo : TD) : Tendency :=
  match partyVotingTendencies !! party tdInfo with
  | Some t => t
  | None => mkTendency (number 0.6) (number 0.5)
  end.

Definition propertyInfluence (tdInfo : TD) : Q :=
  Qmin (fmul (inject_Z (property_count (properties tdInfo))) (number 0.1)) (number 0.3).

Definition adjustedAntiTenantLikelihood (tdInfo : TD) : Q :=
  Qmin (fadd (anti_tenant_likelihood (tendency tdInfo)) (propertyInfluence tdInfo))
       (number 0.95).

(** The loop state: [votes], [antiTenantVotes], [proTenantVotes]. *)
Record Tally : Type := mkTally {
  votes : list DetailedVote;
  antiTenantVotes : Z;
  proTenantVotes : Z
}.

(** The three-way branch on one draw: the choice and the updated counters. *)
Definition decide_vote (adjusted random : Q) (anti pro : Z) : string * Z * Z :=
  if Qltb random adjusted then ("Against", anti + 1, pro)
  else if Qltb random (fadd adjusted (number 0.1)) then ("Abstain", anti, pro)
  else ("For", anti, pro + 1).

Definition voteChoice (adjusted random : Q) : string :=
  fst (fst (decide_vote adjusted random 0 0)).

(** One iteration of [for (const vote of this.housingVoteTargets)]. *)
Definition cast_vote (adjusted : Q) (vote : VoteTarget) (t : Tally) : Js Tally :=
  let* random := Math_random in
  let '(choice, anti, pro) :=
    decide_vote adjusted random (antiTenantVotes t) (proTenantVotes t) in
  ret {| votes :=
           (votes t ++
            [ {| vote_id := target_id vote;
                 vote_title := title vote;
                 vote_date := date vote;
                 vote_cast := choice;
                 is_hypocritical :=
                   String.eqb choice "Against"
                   && String.eqb (pro_tenant_stance vote) "FOR";
                 vote_weight := weight vote |} ])%list;
         antiTenantVotes := anti;
         proTenantVotes := pro |}.

Fixpoint vote_loop (adjusted : Q) (targets : list VoteTarget) (t : Tally) : Js Tally :=
  match targets with
  | [] => ret t
  | vote :: rest =>
      let* t' := cast_vote adjusted vote t in
      vote_loop adjusted rest t'
  end.

(** The class declares neither of these two methods, and nothing else in
    the repository adds them: reading them from [this] gives [undefined]. *)
Definition getDetailedVotes
  : option (VotingData -> TD -> Js (list DetailedVote)) := None.

Definition calculateHypocrisyScoreFromVotes
  : option (list DetailedVote -> TD -> Js (option Z)) := None.

Definition generateRealisticVotingPattern (this : Instance) (tdInfo : TD)
  : Js VotingRecord :=
  let adjusted := adjustedAntiTenantLikelihood tdInfo in
  let* t := vote_loop adjusted (housingVoteTargets this) (mkTally [] 0 0) in
  let hypocriticalVotes := length (List.filter is_hypocritical (votes t)) in
  let slate := Z.of_nat (length (housingVoteTargets this)) in
  let housing :=
    {| total_votes := slate;
       pro_tenant_votes := proTenantVotes t;
       anti_tenant_votes := antiTenantVotes t;
       abstentions := slate - proTenantVotes t - antiTenantVotes t;
       missed_votes := 0 |} in
  let* score :=
    call_method "calculateHypocrisyScoreFromVotes"
      calculateHypocrisyScoreFromVotes (votes t) tdInfo in
  let priority :=
    calculatePressurePriority this
      (mkVotingData None None (Some (antiTenantVotes t)) None None None) tdInfo in
  let* now := Date_toISOString in
  ret {| housing_votes := housing;
         detailed_votes := Some (votes t);
         hypocrisy_score := score;
         pressure_campaign_priority := Some priority;
         last_updated := now;
         verification_status := "PATTERN_GENERATED" |}.

(** ** Integration *)

Definition enhanceVotingRecord (this : Instance) (existingData : VotingData)
    (tdInfo : TD) : Js VotingRecord :=
  let housing :=
    {| total_votes := or_default (vd_total_votes existingData) 5;
       pro_tenant_votes := or_default (vd_pro_tenant_votes existingData) 0;
       anti_tenant_votes := or_default (vd_anti_tenant_votes existingData) 0;
       abstentions := or_default (vd_abstentions existingData) 0;
       missed_votes := or_default (vd_missed_votes existingData) 0 |} in
  let* detailed :=
    call_method "getDetailedVotes" getDetailedVotes existingData tdInfo in
  let score := calculateEnhancedHypocrisyScore this existingData tdInfo in
  let priority := calculatePressurePriority this existingData tdInfo in
  let* now := Date_toISOString in
  ret {| housing_votes := housing;
         detailed_votes := Some detailed;
         hypocrisy_score := score;
         pressure_campaign_priority := Some priority;
         last_updated := now;
         verification_status := "EXISTING_DATA_ENHANCED" |}.

Definition set_voting_record (td : TD) (r : VotingRecord) : TD :=
  mkTD (first_name td) (last_name td) (party td) (constituency td)
       (properties td) (Some r) (electoral_data td).

Definition set_electoral_data (td : TD) (e : ElectoralTargeting) : TD :=
  mkTD (first_name td) (last_name td) (party td) (constituency td)
       (properties td) (voting_record td) (Some e).

(** The body of [for (const tdName in integratedDatabase.tds)]. *)
Definition integrate_td (this : Instance) (entry : string * TD) : Js (string * TD) :=
  let '(tdName, td) := entry in
  if landlord_status (properties td) then
    let existingVoteData := existing_vote_data this tdName in
    let* record :=
      match existingVoteData with
      | Some data => enhanceVotingRecord this data td
      | None => generateRealisticVotingPattern this td
      end in
    let td := set_voting_record td record in
    let td := set_electoral_data td (addElectoralTargeting this td) in
    ret (tdName, td)
  else
    let* now := Date_toISOString in
    ret (tdName,
         set_voting_record td
           {| housing_votes := mkHousingVotes 0 0 0 0 0;
              detailed_votes := None;
              hypocrisy_score := Some 0;
              pressure_campaign_priority := None;
              last_updated := now;
              verification_status := "NON_LANDLORD_CLEAN" |}).

Definition integrateVotingRecords (this : Instance) : Js TDDatabase :=
  match completeTDDatabase this with
  | None => throw (TypeError "Cannot read properties of null (reading 'metadata')")
  | Some integratedDatabase =>
      let* now := Date_toISOString in
      let meta :=
        {| voting_integration_status := Some "ENHANCED_INTEGRATION_COMPLETE";
           voting_integration_date := Some now;
           landlord_tds_analyzed := Some (Z.of_nat (length (landlordTDs this))) |} in
      let* entries := js_map (integrate_td this) (tds integratedDatabase) in
      ret {| metadata := meta; tds := entries |}
  end.

(** ** Report Assembler *)

(** [Array.prototype.sort(cmp)]: the language fixes the result for a
    consistent comparator (sorted, and stable since ES2019), whatever
    algorithm the engine runs; a stable insertion sort computes it.  A NaN
    from the comparator counts as 0. *)
Definition sort_keeps_first {A} (cmp : A -> A -> option Q) (x y : A) : bool :=
  match cmp x y with
  | Some v => Qle_bool v 0
  | None => true
  end.

Fixpoint sort_insert {A} (cmp : A -> A -> option Q) (x : A) (sorted : list A) : list A :=
  match sorted with
  | [] => [x]
  | y :: rest =>
      if sort_keeps_first cmp x y then x :: y :: rest
      else y :: sort_insert cmp x rest
  end.

Definition Array_sort {A} (cmp : A -> A -> option Q) (xs : list A) : list A :=
  fold_right (sort_insert cmp) [] xs.

(** [{ ...td, combined_priority }] *)
Record Target : Type := mkTarget {
  target_td : TD;
  combined_priority : option Q
}.

Definition combined_priority_of (record : VotingRecord) : option Q :=
  match hypocrisy_score record, pressure_campaign_priority record with
  | Some score, Some priority =>
      Some (fadd (fmul (inject_Z score) (number 0.6))
                 (fmul (fmul (inject_Z priority) 10) (number 0.4)))
  | _, _ => None
  end.

(** [(a, b) => b.combined_priority - a.combined_priority] *)
Definition by_combined_priority (a b : Target) : option Q :=
  match combined_priority b, combined_priority a with
  | Some pb, Some pa => Some (fsub pb pa)
  | _, _ => None
  end.

(** [td.voting_record.<field>]: throws when the record is missing. *)
Definition voting_record_of (td : TD) : Js VotingRecord :=
  match voting_record td with
  | Some record => ret record
  | None =>
      throw (TypeError "Cannot read properties of undefined (reading 'hypocrisy_score')")
  end.

(** [td => td.electoral_data.targeting_priority === tier] *)
Definition in_tier (tier : string) (t : Target) : Js bool :=
  match electoral_data (target_td t) with
  | Some e => ret (String.eqb (targeting_priority e) tier)
  | None =>
      throw (TypeError "Cannot read properties of undefined (reading 'targeting_priority')")
  end.

Definition government_parties : list string :=
  [party_Fianna_Fail; "Fine Gael"; "Green Party"].

(** [xs.reduce((sum, x) => sum + f(x), 0) / n], NaN for 0/0 or a NaN term. *)
Definition average (terms : list (option Z)) (n : nat) : option Q :=
  match fold_left (fun sum term =>
                     match sum, term with
                     | Some s, Some t => Some (s + t)
                     | _, _ => None
                     end) terms (Some 0) with
  | Some total =>
      match n with
      | O => None
      | S _ => Some (inject_Z total / inject_Z (Z.of_nat n))%Q
      end
  | None => None
  end.

Record ReportMetadata : Type := mkReportMetadata {
  generated_at : string;
  total_landlord_tds : Z;
  tier_1_targets : Z;
  tier_2_targets : Z
}.

Record SummaryStats : Type := mkSummaryStats {
  average_hypocrisy_score : option Q;
  average_anti_tenant_votes : option Q;
  government_landlord_tds : Z
}.

Record Report : Type := mkReport {
  report_metadata : ReportMetadata;
  tier_1_critical : list Target;
  tier_2_high : list Target;
  tier_3_medium : list Target;
  summary_stats : SummaryStats
}.

(** [Object.values(integratedDatabase.tds).filter(td => td.properties.landlord_status)] *)
Definition landlords_of (integratedDatabase : TDDatabase) : list TD :=
  List.filter (fun td => landlord_status (properties td))
              (map snd (tds integratedDatabase)).

Definition generateTargetingReport (integratedDatabase : TDDatabase) : Js Report :=
  let landlordTDs := landlords_of integratedDatabase in
  let* mapped :=
    js_map (fun td =>
              let* record := voting_record_of td in
              ret (mkTarget td (combined_priority_of record)))
           landlordTDs in
  let prioritizedTargets := Array_sort by_combined_priority mapped in
  let* now := Date_toISOString in
  let* count1 := js_filter (in_tier "TIER_1_CRITICAL") prioritizedTargets in
  let* count2 := js_filter (in_tier "TIER_2_HIGH") prioritizedTargets in
  let* tier1 := js_filter (in_tier "TIER_1_CRITICAL") prioritizedTargets in
  let* tier2 := js_filter (in_tier "TIER_2_HIGH") prioritizedTargets in
  let* tier3 := js_filter (in_tier "TIER_3_MEDIUM") prioritizedTargets in
  let* records := js_map voting_record_of landlordTDs in
  ret {| report_metadata :=
           {| generated_at := now;
              total_landlord_tds := Z.of_nat (length landlordTDs);
              tier_1_targets := Z.of_nat (length count1);
              tier_2_targets := Z.of_nat (length count2) |};
         tier_1_critical := firstn 5 tier1;
         tier_2_high := firstn 8 tier2;
         tier_3_medium := firstn 10 tier3;
         summary_stats :=
           {| average_hypocrisy_score :=
                average (map hypocrisy_score records) (length landlordTDs);
              average_anti_tenant_votes :=
                average (map (fun r => Some (anti_tenant_votes (housing_votes r))) records)
                        (length landlordTDs);
              government_landlord_tds :=
                Z.of_nat (length (List.filter
                                    (fun td => existsb (String.eqb (party td)) government_parties)
                                    landlordTDs)) |} |}.

(** [executeIntegration] once the data sources are loaded. *)
Definition executeIntegration (this : Instance) : Js (TDDatabase * Report) :=
  let* integratedDatabase := integrateVotingRecords this in
  let* targetingReport := generateTargetingReport integratedDatabase in
  ret (integratedDatabase, targetingReport).

(** ** oireachtas-voting-extractor.js *)

Module Extractor.

(** [electoral_margin] is a number, the text ['SAFE'], or missing. *)
Inductive Margin : Type :=
| MarginNumber (m : Q)
| MarginText (s : string).

Record LandlordTD : Type := mkLandlordTD {
  ltd_name : string;
  ltd_constituency : string;
  ltd_properties : Z;
  electoral_margin : option Margin;
  minister : option bool
}.

Definition priorityLandlordTDs : list LandlordTD :=
  [ mkLandlordTD "Colm Burke" "Cork North-Central" 1 (Some (MarginNumber (number 2.3))) None;
    mkLandlordTD "Sinéad Gibney" "Dublin Bay South" 1 (Some (MarginNumber (number 0.8))) None;
    mkLandlordTD "Noel Grealish" "Galway West" 2 (Some (MarginNumber (number 4.1))) None;
    mkLandlordTD "Michael Healy-Rae" "Kerry" 27 (Some (MarginText "SAFE")) None;
    mkLandlordTD "Robert Troy" "Longford-Westmeath" 8 (Some (MarginText "SAFE")) None;
    mkLandlordTD "Thomas Byrne" "Meath East" 1 None (Some true);
    mkLandlordTD "Seán Canney" "Galway East" 6 None (Some true) ].

Record TDSummary : Type := mkTDSummary {
  name : string;
  party : string;
  constituency : string;
  properties : Z;
  total_votes : Z;
  hypocritical_votes : Z;
  pro_tenant_votes : Z;
  anti_tenant_votes : Z;
  hypocrisy_score : Z
}.

Definition analyzeVoteHypocrisy (voteCast proTenantPosition : string) : bool :=
  if String.eqb proTenantPosition "FOR" && String.eqb voteCast "Against" then true
  else if String.eqb proTenantPosition "AGAINST" && String.eqb voteCast "For" then true
  else false.

(** [this.priorityLandlordTDs.find(td => td.name === tdSummary.name)] on
    an extractor whose target list is [targets]. *)
Definition calculateHypocrisyScore (targets : list LandlordTD)
    (tdSummary : TDSummary) : Z :=
  let score := 0 in
  let score := score + Z.min (properties tdSummary * 5) 50 in
  let score := score + anti_tenant_votes tdSummary * 15 in
  let score := score + hypocritical_votes tdSummary * 20 in
  let tdInfo := find (fun td => String.eqb (ltd_name td) (name tdSummary)) targets in
  let score :=
    match tdInfo with
    | Some info =>
        match electoral_margin info with
        | Some (MarginNumber m) => if Qltb m 5 then score + 10 else score
        | _ => score
        end
    | None => score
    end in
  let score :=
    match tdInfo with
    | Some info =>
        match minister info with
        | Some true => score + 15
        | _ => score
        end
    | None => score
    end in
  Z.min score 100.

End Extractor.

(** * Vocabulary of the statements *)

Definition getDetailedVotes_message : string :=
  "this.getDetailedVotes is not a function".

Definition calculateHypocrisyScoreFromVotes_message : string :=
  "this.calculateHypocrisyScoreFromVotes is not a function".

Definition undeclared_method_message (msg : string) : Prop :=
  msg = getDetailedVotes_message \/ msg = calculateHypocrisyScoreFromVotes_message.

(** The base unfavourable-likelihood of a party as the specification words
    it: a fixed table of five parties and a default for every other one. *)
Definition base_likelihood (p : string) : Q :=
  if String.eqb p party_Fianna_Fail then 0.7
  else if String.eqb p "Fine Gael" then 0.75
  else if String.eqb p "Independent" then 0.8
  else if String.eqb p party_Sinn_Fein then 0.3
  else if String.eqb p "Social Democrats" then 0.2
  else 0.6.

(** The adjusted likelihood as the specification words it, in exact
    arithmetic: [min(base(party) + min(0.1 * holdings, 0.3), 0.95)]. *)
Definition likelihood_as_specified (tdInfo : TD) : Q :=
  Qmin (base_likelihood (party tdInfo)
        + Qmin (0.1 * inject_Z (property_count (properties tdInfo))) 0.3)
       0.95.

(** The combined priority as the specification words it, in exact
    arithmetic. *)
Definition exact_blend (score priority : Z) : Q :=
  (0.6 * inject_Z score + 0.4 * (inject_Z priority * 10))%Q.

(** The combined priority of a score and a priority as the report computes
    it, every operation rounding to a double. *)
Definition double_blend (score priority : Z) : Q :=
  fadd (fmul (inject_Z score) (number 0.6))
       (fmul (fmul (inject_Z priority) 10) (number 0.4)).

(** A score from 0 to 100 with a priority from 0 to 10. *)
Definition in_score_range (score priority : Z) : Prop :=
  0 <= score <= 100 /\ 0 <= priority <= 10.

(** The margin on file for an entity's constituency, if any. *)
Definition margin_of (this : Instance) (td : TD) : option Q :=
  match electoral_entry this (constituency td) with
  | Some e => Some (margin_percentage e)
  | None => None
  end.

(** The tier [addElectoralTargeting] assigns to an entity. *)
Definition tier_of (this : Instance) (td : TD) : string :=
  targeting_priority (addElectoralTargeting this td).

(** Two margins are identical: both missing, or equal numbers. *)
Definition same_margin (m1 m2 : option Q) : Prop :=
  match m1, m2 with
  | Some a, Some b => (a == b)%Q
  | None, None => True
  | _, _ => False
  end.

(** An entity carries a tier, and it is the lowest one. *)
Definition low_or_unknown_tier (td : TD) : Prop :=
  exists e, electoral_data td = Some e
            /\ (targeting_priority e = "LOW" \/ targeting_priority e = "TIER_4_LOW").

(** The holder flag is derived from the holding count. *)
Definition flag_derived (td : TD) : Prop :=
  landlord_status (properties td) = (0 <? property_count (properties td)).

(** An integrated landlord entity as the report expects it: a voting record
    with a numeric score and priority, and an electoral profile. *)
Definition scored (td : TD) : Prop :=
  (exists r s p, voting_record td = Some r
                 /\ hypocrisy_score r = Some s
                 /\ pressure_campaign_priority r = Some p)
  /\ (exists e, electoral_data td = Some e).

(** The report entry built for an entity: [{ ...td, combined_priority }]. *)
Definition target_of (td : TD) : Target :=
  mkTarget td match voting_record td with
              | Some r => combined_priority_of r
              | None => None
              end.

Definition tier_is (tier : string) (t : Target) : bool :=
  match electoral_data (target_td t) with
  | Some e => String.eqb (targeting_priority e) tier
  | None => false
  end.

(** The combined priority as a number (0 standing in for NaN). *)
Definition rank (t : Target) : Q :=
  match combined_priority t with
  | Some v => v
  | None => 0%Q
  end.

(** [a] may stand before [b]: its combined priority is not smaller. *)
Definition outranks (a b : Target) : Prop := (rank b <= rank a)%Q.

(** The entries whose combined priority equals [v]. *)
Definition ties (v : Q) (t : Target) : bool := Qeq_bool (rank t) v.

(** The score and the priority an entry was built from. *)
Definition scores_of (t : Target) : option (Z * Z) :=
  match voting_record (target_td t) with
  | Some r =>
      match hypocrisy_score r, pressure_campaign_priority r with
      | Some s, Some p => Some (s, p)
      | _, _ => None
      end
  | None => None
  end.

(** [a] may stand before [b] by the combined priority of exact arithmetic,
    as far as both have a score from 0 to 100 and a priority from 0 to 10. *)
Definition exactly_outranks (a b : Target) : Prop :=
  forall sa pa sb pb,
    scores_of a = Some (sa, pa) -> scores_of b = Some (sb, pb) ->
    in_score_range sa pa -> in_score_range sb pb ->
    (exact_blend sb pb <= exact_blend sa pa)%Q.

(** The computed blend of a score and a priority is within a hundredth of
    the exact one. *)
Definition blend_is_close (score priority : Z) : bool :=
  Qle_bool (double_blend score priority - exact_blend score priority) (1 # 100)
  && Qle_bool (exact_blend score priority - double_blend score priority) (1 # 100).

(** [l] lists entries of [tier] among [loaded], in non-increasing order of
    the computed combined priority and with entries of equal computed
    value in load order; for scores and priorities in range the order is
    also non-increasing in the exact combined priority. *)
Definition ranked_tier_list (tier : string) (loaded l : list Target) : Prop :=
  Forall (fun t => tier_is tier t = true /\ In t loaded) l
  /\ StronglySorted outranks l
  /\ StronglySorted exactly_outranks l
  /\ (forall v, exists rest,
         List.filter (ties v) (List.filter (tier_is tier) loaded)
         = (List.filter (ties v) l ++ rest)%list)
  /\ Forall (fun t =>
               exists r s p,
                 voting_record (target_td t) = Some r
                 /\ hypocrisy_score r = Some s
                 /\ pressure_campaign_priority r = Some p
                 /\ rank t = double_blend s p) l.

(** A report entry built from a scored entity. *)
Definition well_ranked (t : Target) : Prop :=
  scored (target_td t) /\ t = target_of (target_td t).

(** The voting record of an integrated entity. *)
Definition record_of (td : TD) : VotingRecord :=
  match voting_record td with
  | Some r => r
  | None => mkVotingRecord (mkHousingVotes 0 0 0 0 0) None None None "" ""
  end.

(** The landlord entries of a database, sorted by combined priority. *)
Definition prioritized (db : TDDatabase) : list Target :=
  Array_sort by_combined_priority (map target_of (landlords_of db)).

(** The report produced from a database of scored entities at clock
    reading [now]. *)
Definition report_at (db : TDDatabase) (now : string) : Report :=
  {| report_metadata :=
       {| generated_at := now;
          total_landlord_tds := Z.of_nat (length (landlords_of db));
          tier_1_targets :=
            Z.of_nat (length (List.filter (tier_is "TIER_1_CRITICAL") (prioritized db)));
          tier_2_targets :=
            Z.of_nat (length (List.filter (tier_is "TIER_2_HIGH") (prioritized db))) |};
     tier_1_critical := firstn 5 (List.filter (tier_is "TIER_1_CRITICAL") (prioritized db));
     tier_2_high := firstn 8 (List.filter (tier_is "TIER_2_HIGH") (prioritized db));
     tier_3_medium := firstn 10 (List.filter (tier_is "TIER_3_MEDIUM") (prioritized db));
     summary_stats :=
       {| average_hypocrisy_score :=
            average (map hypocrisy_score (map record_of (landlords_of db)))
                    (length (landlords_of db));
          average_anti_tenant_votes :=
            average (map (fun r => Some (anti_tenant_votes (housing_votes r)))
                         (map record_of (landlords_of db)))
                    (length (landlords_of db));
          government_landlord_tds :=
            Z.of_nat (length (List.filter
                                (fun td => existsb (String.eqb (party td)) government_parties)
                                (landlords_of db))) |} |}.

(** One more clock reading has been taken. *)
Definition after_clock_read (w : World) : World :=
  mkWorld (random_draws w) (draws_taken w) (clock_shows w) (S (clock_reads w)).

(** An entity shows up in one of the lists of the report. *)
Definition listed_in_report (td : TD) (report : Report) : Prop :=
  exists t, target_td t = td
            /\ (In t (tier_1_critical report) \/ In t (tier_2_high report)
                \/ In t (tier_3_medium report)).

(** A report with its generation timestamp blanked. *)
Definition erase_generated_at (o : Outcome Report) : Outcome Report :=
  match o with
  | Returned r =>
      Returned
        {| report_metadata :=
             {| generated_at := "";
                total_landlord_tds := total_landlord_tds (report_metadata r);
                tier_1_targets := tier_1_targets (report_metadata r);
                tier_2_targets := tier_2_targets (report_metadata r) |};
           tier_1_critical := tier_1_critical r;
           tier_2_high := tier_2_high r;
           tier_3_medium := tier_3_medium r;
           summary_stats := summary_stats r |}
  | Thrown e => Thrown e
  end.

(** A computation that neither reads nor changes the world. *)
Definition world_blind {A} (c : Js A) : Prop :=
  forall w, snd (c w) = w /\ forall w', fst (c w') = fst (c w).

(** Two computations whose outcomes are related whatever worlds they run in. *)
Definition related {A} (R : Outcome A -> Outcome A -> Prop) (c1 c2 : Js A) : Prop :=
  forall w1 w2, R (fst (c1 w1)) (fst (c2 w2)).

Definition same_up_to_timestamp (o1 o2 : Outcome Report) : Prop :=
  erase_generated_at o1 = erase_generated_at o2.

(** A computation that leaves the random source untouched. *)
Definition keeps_draws {A} (c : Js A) : Prop :=
  forall w, draws_taken (snd (c w)) = draws_taken w.

(** Whatever a computation returns satisfies [P]. *)
Definition returns_with {A} (P : A -> Prop) (c : Js A) : Prop :=
  forall w a, fst (c w) = Returned a -> P a.

(** Two slate entries that differ at most in [weight]. *)
Definition same_up_to_weight (a b : VoteTarget) : Prop :=
  target_id a = target_id b /\ title a = title b
  /\ description a = description b /\ date a = date b
  /\ pro_tenant_stance a = pro_tenant_stance b /\ category a = category b.

(** Two instances that differ at most in the weights of their slates. *)
Definition differ_only_in_weights (this1 this2 : Instance) : Prop :=
  completeTDDatabase this1 = completeTDDatabase this2
  /\ existingVotingData this1 = existingVotingData this2
  /\ electoralData this1 = electoralData this2
  /\ landlordTDs this1 = landlordTDs this2
  /\ Forall2 same_up_to_weight (housingVoteTargets this1) (housingVoteTargets this2).

(** Two tallies that differ at most in the weights copied into the votes. *)
Definition same_tally_up_to_weight (t1 t2 : Tally) : Prop :=
  antiTenantVotes t1 = antiTenantVotes t2
  /\ proTenantVotes t1 = proTenantVotes t2
  /\ map vote_cast (votes t1) = map vote_cast (votes t2)
  /\ map is_hypocritical (votes t1) = map is_hypocritical (votes t2).

(** * Worked inputs *)

Definition constructor_landlordTDs : list string :=
  [ "Michael Healy-Rae"; "Robert Troy"; "Gillian Toole"; "Thomas Byrne";
    "Se√°n Canney"; "Pa Daly"; "Paul Gogarty"; "Sin√©ad Gibney";
    "Frank Feighan"; "Eamon Scanlon"; "Miche√°l Carrigy"; "Charlie McConalogue";
    "Timmy Dooley"; "Johnny Guirke"; "Cathy Bennett"; "Joanna Byrne";
    "Noel Grealish"; "Carol Nolan"; "Colm Burke"; "Ciara Conway";
    "Marc MacSharry"; "Paul McAuliffe"; "Alan Farrell"; "Joe Flaherty";
    "James O'Connor"; "Brendan Griffin"; "Joe Carey"; "Catherine Ardagh";
    "Shane Cassells"; "Barry Cowen"; "Darragh O'Brien"; "Norma Foley" ].

(** [new EnhancedVotingIntegration()] *)
Definition new_EnhancedVotingIntegration : Instance :=
  mkInstance None None None constructor_landlordTDs constructor_housingVoteTargets.

Definition sample_electoral : ElectoralFile :=
  mkElectoralFile
    (Some (list_to_map
             [ ("Cork North-Central",
                mkElectoralEntry (number 2.3) "HIGH" 1150 (number 1.2));
               ("Dublin Bay South",
                mkElectoralEntry (number 0.8) "CRITICAL" 410 (number 0.4));
               ("Kerry", mkElectoralEntry 7.5 "SAFE" 4100 (number 3.8)) ])).

Definition td_burke : TD :=
  mkTD "Colm" "Burke" party_Fianna_Fail "Cork North-Central"
       (mkProperties true 1) None None.

Definition td_gibney : TD :=
  mkTD "Sinead" "Gibney" "Social Democrats" "Dublin Bay South"
       (mkProperties true 1) None None.

Definition td_grealish : TD :=
  mkTD "Noel" "Grealish" "Independent" "Galway West"
       (mkProperties true 2) None None.

(** No holdings, no office, a Kerry seat with a 7.5 point margin. *)
Definition td_tenant : TD :=
  mkTD "Aoife" "Murphy" "Fine Gael" "Kerry" (mkProperties false 0) None None.

Definition sample_database (entries : list (string * TD)) : TDDatabase :=
  mkTDDatabase (mkMetadata None None None) entries.

Definition sample_instance (entries : list (string * TD)) : Instance :=
  mkInstance (Some (sample_database entries)) None (Some sample_electoral)
             constructor_landlordTDs constructor_housingVoteTargets.

Definition world_at (now : string) : World :=
  mkWorld (fun _ => number 0.99) 0 (fun _ => now) 0.

(** An entity as integration would leave it, with a sourced record. *)
Definition integrated (this : Instance) (td : TD) (score priority : Z) : TD :=
  let td :=
    set_voting_record td
      (mkVotingRecord (mkHousingVotes 5 2 3 0 0) (Some []) (Some score)
         (Some priority) "2025-08-20T15:00:00.000Z" "EXISTING_DATA_ENHANCED") in
  set_electoral_data td (addElectoralTargeting this td).

Definition sourced_database : TDDatabase :=
  sample_database
    [ ("Colm Burke", integrated (sample_instance []) td_burke 52 6);
      ("Aoife Murphy", td_tenant);
      ("Noel Grealish", integrated (sample_instance []) td_grealish 40 4) ].

(** A database whose only landlord sits in a constituency with no
    electoral entry. *)
Definition grealish_integrated : TD :=
  integrated (sample_instance []) td_grealish 40 4.

Definition unlisted_database : TDDatabase :=
  sample_database [ ("Noel Grealish", grealish_integrated) ].

Definition heavier_slate : list VoteTarget :=
  map (fun v => mkVoteTarget (target_id v) (title v) (description v) (date v)
                  (pro_tenant_stance v) (weight v * 2) (category v))
      constructor_housingVoteTargets.

(** The sample instance with every weight of the slate doubled. *)
Definition reweighted_instance : Instance :=
  mkInstance (Some (sample_database [])) None (Some sample_electoral)
             constructor_landlordTDs heavier_slate.

Definition burke_votes : VotingData :=
  mkVotingData (Some 5) (Some 2) (Some 3) None None (Some 1).

Definition burke_summary : Extractor.TDSummary :=
  Extractor.mkTDSummary "Colm Burke" party_Fianna_Fail "Cork North-Central"
    1 5 3 2 3 0.

Definition noon : string := "2025-08-20T12:00:00.000Z".
Definition midnight : string := "2025-08-21T00:00:00.000Z".

(** Another Cork North-Central entity: other party, other holdings. *)
Definition td_cork_other : TD :=
  mkTD "Orla" "Kelly" "Labour" "Cork North-Central" (mkProperties true 12) None None.

(** Three Cork North-Central landlords, loaded in the order Ahern, Brady,
    Casey; Ahern and Casey have the same combined priority 16. *)
Definition td_cork (surname : string) : TD :=
  mkTD "Pat" surname "Labour" "Cork North-Central" (mkProperties true 2) None None.

Definition tied_database : TDDatabase :=
  sample_database
    [ ("Pat Ahern", integrated (sample_instance []) (td_cork "Ahern") 20 1);
      ("Pat Brady", integrated (sample_instance []) (td_cork "Brady") 60 5);
      ("Pat Casey", integrated (sample_instance []) (td_cork "Casey") 0 4) ].

(** Two Cork North-Central landlords, loaded in the order Ahern, Casey,
    whose combined priority is 17.8 in exact arithmetic: 23 * 0.6 + 1 * 10 *
    0.4 for Ahern, 3 * 0.6 + 4 * 10 * 0.4 for Casey. *)
Definition drifting_database : TDDatabase :=
  sample_database
    [ ("Pat Ahern", integrated (sample_instance []) (td_cork "Ahern") 23 1);
      ("Pat Casey", integrated (sample_instance []) (td_cork "Casey") 3 4) ].

(** The double 0.8999999999999999, a multiple of 2^-52 below 1. *)
Definition edge_draw : Q := 2026619832316723 # 2251799813685248.

(** A world whose every draw is [r]. *)
Definition world_drawing (r : Q) : World :=
  mkWorld (fun _ => r) 0 (fun _ => noon) 0.

(** * Further vocabulary: integration and report *)

(** The record integration writes on an entity that holds no property. *)
Definition clean_record (now : string) : VotingRecord :=
  mkVotingRecord (mkHousingVotes 0 0 0 0 0) None (Some 0) None now "NON_LANDLORD_CLEAN".

(** The entries of a landlord-free table after integration, the [k]-th
    clock reading being the first one taken inside the loop. *)
Fixpoint cleaned (shows : nat -> string) (k : nat) (entries : list (string * TD))
  : list (string * TD) :=
  match entries with
  | [] => []
  | (tdName, td) :: rest =>
      (tdName, set_voting_record td (clean_record (shows k))) :: cleaned shows (S k) rest
  end.

Definition no_landlord (entries : list (string * TD)) : Prop :=
  Forall (fun e => landlord_status (properties (snd e)) = false) entries.

(** The world after [n] more clock readings. *)
Definition after_clock_reads (n : nat) (w : World) : World :=
  mkWorld (random_draws w) (draws_taken w) (clock_shows w) (n + clock_reads w).

(** The report on a table without landlords. *)
Definition empty_report (now : string) : Report :=
  mkReport (mkReportMetadata now 0 0 0) [] [] [] (mkSummaryStats None None 0).

(** A landlord entity the report can read: it carries a voting record and
    an electoral profile. *)
Definition reportable (td : TD) : Prop :=
  voting_record td <> None /\ electoral_data td <> None.

(** The score of an integrated entity, NaN when it has none. *)
Definition score_of (td : TD) : option Z := hypocrisy_score (record_of td).

(** The sum of a list of tallies, NaN as soon as one of them is. *)
Fixpoint sum_terms (terms : list (option Z)) : option Z :=
  match terms with
  | [] => Some 0
  | Some t :: rest =>
      match sum_terms rest with
      | Some s => Some (t + s)
      | None => None
      end
  | None :: rest => None
  end.

Definition tier_lists (r : Report) : list (string * nat * list Target) :=
  [ ("TIER_1_CRITICAL", 5%nat, tier_1_critical r);
    ("TIER_2_HIGH", 8%nat, tier_2_high r);
    ("TIER_3_MEDIUM", 10%nat, tier_3_medium r) ].

(** How many landlord entities of the database carry the tier. *)
Definition tier_count (tier : string) (db : TDDatabase) : nat :=
  length (List.filter (fun td => tier_is tier (target_of td)) (landlords_of db)).

Definition voting_record_message : string :=
  "Cannot read properties of undefined (reading 'hypocrisy_score')".

Definition electoral_data_message : string :=
  "Cannot read properties of undefined (reading 'targeting_priority')".

(** * Further vocabulary: scores *)

(** The holdings term of the priority. *)
Definition holdings_bonus (count : Z) : Z :=
  if 10 <=? count then 3 else if 5 <=? count then 2 else if 1 <=? count then 1 else 0.

(** The priority points that go with a tier. *)
Definition tier_bonus (tier : string) : Z :=
  if String.eqb tier "TIER_1_CRITICAL" then 3
  else if String.eqb tier "TIER_2_HIGH" then 2
  else if String.eqb tier "TIER_3_MEDIUM" then 1
  else 0.

(** * Further vocabulary: the synthesizer *)

(** The votes the loop pushes for a slate, the [k]-th draw deciding the
    first of them. *)
Fixpoint synthesized (adjusted : Q) (draw : nat -> Q) (k : nat) (slate : list VoteTarget)
  : list DetailedVote :=
  match slate with
  | [] => []
  | vote :: rest =>
      mkDetailedVote (target_id vote) (title vote) (date vote)
        (voteChoice adjusted (draw k))
        (String.eqb (voteChoice adjusted (draw k)) "Against"
         && String.eqb (pro_tenant_stance vote) "FOR")
        (weight vote)
      :: synthesized adjusted draw (S k) rest
  end.

(** How many of the votes were cast as [choice]. *)
Definition cast_count (choice : string) (vs : list DetailedVote) : Z :=
  Z.of_nat (length (List.filter (fun v => String.eqb (vote_cast v) choice) vs)).

(** [votes.filter(v => v.is_hypocritical).length] *)
Definition hypocritical_count (vs : list DetailedVote) : Z :=
  Z.of_nat (length (List.filter is_hypocritical vs)).

(** The world after [n] more random draws. *)
Definition after_draws (n : nat) (w : World) : World :=
  mkWorld (random_draws w) (n + draws_taken w) (clock_shows w) (clock_reads w).

(** Every draw is a value of [Math.random()]: in [0, 1). *)
Definition unit_draws (w : World) : Prop :=
  forall k, (0 <= random_draws w k)%Q /\ (random_draws w k < 1)%Q.

(** Colm Burke with a dozen holdings. *)
Definition td_burke_large : TD :=
  mkTD "Colm" "Burke" party_Fianna_Fail "Cork North-Central"
       (mkProperties true 12) None None.

(** * Loading the data sources (setup-release.js) *)

Module Loading.

(** [window.fs] as the three calls see it: what reading and parsing each
    of the three files gives, a value ([None] for JSON [null]) or the
    exception of [readFile] or [JSON.parse]. *)
Record FileSystem : Type := mkFileSystem {
  td_database_file : Outcome (option TDDatabase);
  voting_records_file : Outcome (option VotingFile);
  electoral_margins_file : Outcome (option ElectoralFile)
}.

(** The environment: [window.fs.readFile] is there or not. *)
Definition Environment : Type := option FileSystem.

Definition loadJSON {A} (env : Environment) (filepath : string)
    (file : FileSystem -> Outcome A) : Outcome A :=
  match env with
  | Some fs => file fs
  | None => Thrown (Error ("Cannot load " ++ filepath ++ " - environment not supported"))
  end.

(** The instance after the call, and the boolean it returns. *)
Definition loadDataSources (env : Environment) (this : Instance) : Instance * bool :=
  match loadJSON env "../complete-td-database.json" td_database_file with
  | Thrown _ => (this, false)
  | Returned database =>
      let this :=
        mkInstance database (existingVotingData this) (electoralData this)
                   (landlordTDs this) (housingVoteTargets this) in
      match loadJSON env "../data/voting-records-2024.json" voting_records_file with
      | Thrown _ => (this, false)
      | Returned voting =>
          let this :=
            mkInstance (completeTDDatabase this) voting (electoralData this)
                       (landlordTDs this) (housingVoteTargets this) in
          match loadJSON env "../data/electoral-margins.json" electoral_margins_file with
          | Thrown _ => (this, false)
          | Returned electoral =>
              (mkInstance (completeTDDatabase this) (existingVotingData this) electoral
                          (landlordTDs this) (housingVoteTargets this), true)
          end
      end
  end.

(** The whole method: load, integrate, report. *)
Definition executeIntegration (env : Environment) (this : Instance)
  : Js (TDDatabase * Report) :=
  let '(this, dataLoaded) := loadDataSources env this in
  if negb dataLoaded then throw (Error "Failed to load required data sources")
  else
    let* integratedDatabase := integrateVotingRecords this in
    let* targetingReport := generateTargetingReport integratedDatabase in
    ret (integratedDatabase, targetingReport).

(** All three files were read and parsed, and the database is not [null]. *)
Definition loaded (env : Environment) (db : TDDatabase) : Prop :=
  exists fs voting electoral,
    env = Some fs
    /\ td_database_file fs = Returned (Some db)
    /\ voting_records_file fs = Returned voting
    /\ electoral_margins_file fs = Returned electoral.

End Loading.

Definition tenant_file_system : Loading.FileSystem :=
  Loading.mkFileSystem
    (Returned (Some (sample_database [("Aoife Murphy", td_tenant)])))
    (Returned None)
    (Returned (Some sample_electoral)).

Definition no_margins_file_system : Loading.FileSystem :=
  Loading.mkFileSystem
    (Returned (Some (sample_database [("Aoife Murphy", td_tenant)])))
    (Returned None)
    (Thrown (Error "Failed to fetch")).

(** * oireachtas-voting-extractor.js: compiling and reporting *)

From stdpp Require Import pretty.

Local Open Scope string_scope.
Local Open Scope Z_scope.

(** [s.includes(sub)] *)
Fixpoint includes (s sub : string) : bool :=
  if String.prefix sub s then true
  else match s with
       | EmptyString => false
       | String _ rest => includes rest sub
       end.

Module VotingExtractor.

(** One entry of [this.keyHousingVotes]. *)
Record VoteInfo : Type := mkVoteInfo {
  date : string;
  title : string;
  description : string;
  pro_tenant_position : string;
  impact_level : string
}.

(** One element of what [extractTDVotes] resolves to; [member.fullName] is
    taken to be a string, as [processHousingVote] lower-cases it. *)
Record TDVote : Type := mkTDVote {
  name : string;
  party : string;
  constituency : string;
  vote : string;
  debate_uri : string
}.

(** One element of [voteResults.landlord_td_votes]. *)
Record LandlordVote : Type := mkLandlordVote {
  td_name : string;
  lv_party : string;
  lv_constituency : string;
  properties : Z;
  vote_cast : string;
  is_hypocritical : bool;
  hypocrisy_explanation : option string
}.

Record VoteResult : Type := mkVoteResult {
  vr_date : string;
  vr_title : string;
  vr_description : string;
  vr_pro_tenant_position : string;
  landlord_td_votes : list LandlordVote
}.

(** The fields of an [OireachtasVotingExtractor] instance that the
    compilation reads. *)
Record Instance : Type := mkInstance {
  keyHousingVotes : list VoteInfo;
  priorityLandlordTDs : list Extractor.LandlordTD
}.

Definition constructor_keyHousingVotes : list VoteInfo :=
  [ mkVoteInfo "2024-03-15" "Residential Tenancies (Amendment) Bill 2024"
      "Rent control caps and tenant eviction protections" "FOR" "HIGH";
    mkVoteInfo "2024-04-22" "Vacant Property Tax (Amendment) Bill 2024"
      "Increased penalties for vacant rental properties" "FOR" "HIGH";
    mkVoteInfo "2024-06-11" "Planning and Development (Housing) Bill 2024"
      "Social housing requirements in developments" "FOR" "MEDIUM";
    mkVoteInfo "2024-09-18" "Residential Tenancies (Security of Tenure) Bill 2024"
      "Indefinite tenancies and eviction restrictions" "FOR" "HIGH";
    mkVoteInfo "2024-10-29" "Property Tax (Rental Income) Amendment 2024"
      "Tax relief reductions for rental property owners" "FOR" "HIGH" ].

(** [new OireachtasVotingExtractor()] *)
Definition new_OireachtasVotingExtractor : Instance :=
  mkInstance constructor_keyHousingVotes Extractor.priorityLandlordTDs.

Record Metadata : Type := mkMetadata {
  extracted_at : string;
  source : string;
  vote_count : Z;
  landlord_td_count : Z
}.

Record CompiledVotingData : Type := mkCompiledVotingData {
  metadata : Metadata;
  votes : list VoteResult;
  td_summaries : list (string * Extractor.TDSummary)
}.

(** One element of [report.top_hypocrites]. *)
Record Hypocrite : Type := mkHypocrite {
  h_name : string;
  h_party : string;
  h_properties : Z;
  h_anti_tenant_votes : Z;
  h_hypocrisy_score : Z;
  attack_line : string
}.

Record HypocrisyReport : Type := mkHypocrisyReport {
  headline : string;
  summary : string;
  top_hypocrites : list Hypocrite;
  vulnerable_targets : list Extractor.TDSummary;
  government_conflicts : list Extractor.TDSummary
}.

Section Extraction.

(** [String.prototype.toLowerCase], left open. *)
Variable toLowerCase : string -> string.

(** [ltd => ltd.name.toLowerCase().includes(tdVote.name.toLowerCase()) ||
            tdVote.name.toLowerCase().includes(ltd.name.toLowerCase())] *)
Definition names_match (tdVote : TDVote) (ltd : Extractor.LandlordTD) : bool :=
  includes (toLowerCase (Extractor.ltd_name ltd)) (toLowerCase (name tdVote))
  || includes (toLowerCase (name tdVote)) (toLowerCase (Extractor.ltd_name ltd)).

(** The body of the inner loop of [processHousingVote]: the entry pushed
    for one TD vote, if a priority landlord matches it. *)
Definition landlord_vote (this : Instance) (voteInfo : VoteInfo) (tdVote : TDVote)
  : list LandlordVote :=
  match find (names_match tdVote) (priorityLandlordTDs this) with
  | Some landlordTD =>
      let isHypocritical :=
        Extractor.analyzeVoteHypocrisy (vote tdVote) (pro_tenant_position voteInfo) in
      [ {| td_name := Extractor.ltd_name landlordTD;
           lv_party := party tdVote;
           lv_constituency := constituency tdVote;
           properties := Extractor.ltd_properties landlordTD;
           vote_cast := vote tdVote;
           is_hypocritical := isHypocritical;
           hypocrisy_explanation :=
             if isHypocritical
             then Some ("Voted " +:+ vote tdVote
                        +:+ " on tenant protections while owning "
                        +:+ pretty (Extractor.ltd_properties landlordTD)
                        +:+ " rental properties")
             else None |} ]
  | None => []
  end.

(** [processHousingVote], given what [extractVoteDetails] and, for each
    debate found, [extractTDVotes] resolved to. *)
Definition processHousingVote (this : Instance) (voteInfo : VoteInfo)
    (debates : option (list (list TDVote))) : option VoteResult :=
  match debates with
  | None => None
  | Some fetched =>
      Some {| vr_date := date voteInfo;
              vr_title := title voteInfo;
              vr_description := description voteInfo;
              vr_pro_tenant_position := pro_tenant_position voteInfo;
              landlord_td_votes :=
                flat_map (fun tdVotes => flat_map (landlord_vote this voteInfo) tdVotes)
                         fetched |}
  end.

(** The summary created on a TD's first vote. *)
Definition new_summary (tdVote : LandlordVote) : Extractor.TDSummary :=
  Extractor.mkTDSummary (td_name tdVote) (lv_party tdVote) (lv_constituency tdVote)
    (properties tdVote) 0 0 0 0 0.

(** The counter updates for one vote. *)
Definition count_vote (voteInfo : VoteInfo) (tdVote : LandlordVote)
    (s : Extractor.TDSummary) : Extractor.TDSummary :=
  let total := Extractor.total_votes s + 1 in
  let hypocritical :=
    if is_hypocritical tdVote then Extractor.hypocritical_votes s + 1
    else Extractor.hypocritical_votes s in
  let '(pro, anti) :=
    if String.eqb (vote_cast tdVote) "For"
       && String.eqb (pro_tenant_position voteInfo) "FOR"
    then (Extractor.pro_tenant_votes s + 1, Extractor.anti_tenant_votes s)
    else if String.eqb (vote_cast tdVote) "Against"
            && String.eqb (pro_tenant_position voteInfo) "FOR"
    then (Extractor.pro_tenant_votes s, Extractor.anti_tenant_votes s + 1)
    else (Extractor.pro_tenant_votes s, Extractor.anti_tenant_votes s) in
  Extractor.mkTDSummary (Extractor.name s) (Extractor.party s) (Extractor.constituency s)
    (Extractor.properties s) total hypocritical pro anti (Extractor.hypocrisy_score s).

(** [td_summaries[td_name]] created if missing, then updated in place;
    a new key goes last, as in an object whose keys are names (not
    integer-like, not inherited from [Object.prototype]). *)
Fixpoint record_vote (voteInfo : VoteInfo) (tdVote : LandlordVote)
    (summaries : list (string * Extractor.TDSummary))
  : list (string * Extractor.TDSummary) :=
  match summaries with
  | [] => [(td_name tdVote, count_vote voteInfo tdVote (new_summary tdVote))]
  | (key, s) :: rest =>
      if String.eqb key (td_name tdVote)
      then (key, count_vote voteInfo tdVote s) :: rest
      else (key, s) :: record_vote voteInfo tdVote rest
  end.

(** One iteration of [for (const voteInfo of this.keyHousingVotes)]. *)
Definition compile_vote (this : Instance) (api : string -> option (list (list TDVote)))
    (acc : list VoteResult * list (string * Extractor.TDSummary)) (voteInfo : VoteInfo)
  : list VoteResult * list (string * Extractor.TDSummary) :=
  match processHousingVote this voteInfo (api (date voteInfo)) with
  | Some voteResult =>
      match landlord_td_votes voteResult with
      | [] => acc
      | _ :: _ =>
          ((fst acc ++ [voteResult])%list,
           fold_left (fun summaries tdVote => record_vote voteInfo tdVote summaries)
                     (landlord_td_votes voteResult) (snd acc))
      end
  | None => acc
  end.

(** [extractAllHousingVotes]; [api date] is what the two fetches resolve to
    for the vote of that date, and the one-second pauses are left out. *)
Definition extractAllHousingVotes (this : Instance)
    (api : string -> option (list (list TDVote))) : Js CompiledVotingData :=
  let* now := Date_toISOString in
  let meta :=
    {| extracted_at := now;
       source := "Oireachtas API + Manual Analysis";
       vote_count := Z.of_nat (length (keyHousingVotes this));
       landlord_td_count := Z.of_nat (length (priorityLandlordTDs this)) |} in
  let '(found, summaries) :=
    fold_left (compile_vote this api) (keyHousingVotes this) ([], []) in
  ret {| metadata := meta;
         votes := found;
         td_summaries :=
           map (fun '(key, s) =>
                  (key,
                   Extractor.mkTDSummary (Extractor.name s) (Extractor.party s)
                     (Extractor.constituency s) (Extractor.properties s)
                     (Extractor.total_votes s) (Extractor.hypocritical_votes s)
                     (Extractor.pro_tenant_votes s) (Extractor.anti_tenant_votes s)
                     (Extractor.calculateHypocrisyScore (priorityLandlordTDs this) s)))
               summaries |}.

(** [(a, b) => b.hypocrisy_score - a.hypocrisy_score] *)
Definition by_hypocrisy_score (a b : Extractor.TDSummary) : option Q :=
  Some (inject_Z (Extractor.hypocrisy_score b - Extractor.hypocrisy_score a)).

Definition is_vulnerable (this : Instance) (td : Extractor.TDSummary) : bool :=
  match find (fun info => String.eqb (Extractor.ltd_name info) (Extractor.name td))
             (priorityLandlordTDs this) with
  | Some tdInfo =>
      match Extractor.electoral_margin tdInfo with
      | Some (Extractor.MarginNumber m) => Qltb m 5
      | _ => false
      end
  | None => false
  end.

Definition is_minister (this : Instance) (td : Extractor.TDSummary) : bool :=
  match find (fun info => String.eqb (Extractor.ltd_name info) (Extractor.name td))
             (priorityLandlordTDs this) with
  | Some tdInfo =>
      match Extractor.minister tdInfo with
      | Some true => true
      | _ => false
      end
  | None => false
  end.

Definition generateHypocrisyReport (this : Instance) (votingData : CompiledVotingData)
  : HypocrisyReport :=
  let sortedTDs := Array_sort by_hypocrisy_score (map snd (td_summaries votingData)) in
  {| headline := "LANDLORD TDs VOTING AGAINST TENANTS EXPOSED";
     summary :=
       pretty (Z.of_nat (length (td_summaries votingData)))
       +:+ " landlord TDs analyzed across "
       +:+ pretty (Z.of_nat (length (votes votingData))) +:+ " key housing votes";
     top_hypocrites :=
       map (fun td =>
              {| h_name := Extractor.name td;
                 h_party := Extractor.party td;
                 h_properties := Extractor.properties td;
                 h_anti_tenant_votes := Extractor.anti_tenant_votes td;
                 h_hypocrisy_score := Extractor.hypocrisy_score td;
                 attack_line :=
                   Extractor.name td +:+ " owns " +:+ pretty (Extractor.properties td)
                   +:+ " properties but voted AGAINST tenant protections "
                   +:+ pretty (Extractor.anti_tenant_votes td) +:+ " times" |})
           (firstn 5 sortedTDs);
     vulnerable_targets := List.filter (is_vulnerable this) sortedTDs;
     government_conflicts := List.filter (is_minister this) sortedTDs |}.

End Extraction.

End VotingExtractor.

(** * Further vocabulary: the extractor *)

(** An entry of [landlord_td_votes] built from a priority landlord: name
    and holdings are that landlord's, the flag is the analyser's verdict,
    and the explanation is there exactly when the flag is set. *)
Definition vote_from_target (this : VotingExtractor.Instance)
    (voteInfo : VotingExtractor.VoteInfo) (lv : VotingExtractor.LandlordVote) : Prop :=
  (exists target,
      In target (VotingExtractor.priorityLandlordTDs this)
      /\ VotingExtractor.td_name lv = Extractor.ltd_name target
      /\ VotingExtractor.properties lv = Extractor.ltd_properties target)
  /\ VotingExtractor.is_hypocritical lv
     = Extractor.analyzeVoteHypocrisy (VotingExtractor.vote_cast lv)
         (VotingExtractor.pro_tenant_position voteInfo)
  /\ (VotingExtractor.hypocrisy_explanation lv = None
      <-> VotingExtractor.is_hypocritical lv = false).

(** Some priority landlord matches the fetched vote by name. *)
Definition matches_a_landlord (toLowerCase : string -> string)
    (this : VotingExtractor.Instance) (tdVote : VotingExtractor.TDVote) : bool :=
  existsb (VotingExtractor.names_match toLowerCase tdVote)
          (VotingExtractor.priorityLandlordTDs this).

(** The counters of a summary fit together. *)
Definition counts_fit (s : Extractor.TDSummary) : Prop :=
  0 <= Extractor.anti_tenant_votes s
  /\ Extractor.anti_tenant_votes s <= Extractor.hypocritical_votes s
  /\ 0 <= Extractor.pro_tenant_votes s
  /\ Extractor.pro_tenant_votes s + Extractor.hypocritical_votes s
     <= Extractor.total_votes s.

(** A summary is filed under its own name, which is a priority landlord's,
    with that landlord's holdings. *)
Definition summary_of_target (this : VotingExtractor.Instance)
    (entry : string * Extractor.TDSummary) : Prop :=
  fst entry = Extractor.name (snd entry)
  /\ exists target,
       In target (VotingExtractor.priorityLandlordTDs this)
       /\ Extractor.ltd_name target = Extractor.name (snd entry)
       /\ Extractor.ltd_properties target = Extractor.properties (snd entry).

(** The property every entry has while the votes are compiled. *)
Definition being_compiled (this : VotingExtractor.Instance)
    (entry : string * Extractor.TDSummary) : Prop :=
  summary_of_target this entry
  /\ counts_fit (snd entry)
  /\ 1 <= Extractor.total_votes (snd entry)
  /\ Extractor.hypocrisy_score (snd entry) = 0.

(** What one counted vote must do to a property of the entries for the
    whole compilation to keep it. *)
Definition kept_by_votes (this : VotingExtractor.Instance)
    (P : string * Extractor.TDSummary -> Prop) (voteInfo : VotingExtractor.VoteInfo) : Prop :=
  forall lv,
    vote_from_target this voteInfo lv ->
    P (VotingExtractor.td_name lv,
       VotingExtractor.count_vote voteInfo lv (VotingExtractor.new_summary lv))
    /\ forall key s, P (key, s) -> P (key, VotingExtractor.count_vote voteInfo lv s).

(** The summaries while the votes are compiled: distinct keys, and every
    entry as above. *)
Definition compiling (this : VotingExtractor.Instance)
    (summaries : list (string * Extractor.TDSummary)) : Prop :=
  List.NoDup (map fst summaries) /\ Forall (being_compiled this) summaries.

(** An element of [top_hypocrites] shows the fields of a summary. *)
Definition listed_as (td : Extractor.TDSummary) (h : VotingExtractor.Hypocrite) : Prop :=
  VotingExtractor.h_name h = Extractor.name td
  /\ VotingExtractor.h_party h = Extractor.party td
  /\ VotingExtractor.h_properties h = Extractor.properties td
  /\ VotingExtractor.h_anti_tenant_votes h = Extractor.anti_tenant_votes td
  /\ VotingExtractor.h_hypocrisy_score h = Extractor.hypocrisy_score td.

(** [a] may stand before [b] in a list ordered by falling score. *)
Definition score_order (a b : Extractor.TDSummary) : Prop :=
  Extractor.hypocrisy_score b <= Extractor.hypocrisy_score a.

(** The priority landlord called like the summary has a numeric margin
    below 5. *)
Definition vulnerable_landlord (this : VotingExtractor.Instance)
    (td : Extractor.TDSummary) : Prop :=
  exists info m,
    In info (VotingExtractor.priorityLandlordTDs this)
    /\ Extractor.ltd_name info = Extractor.name td
    /\ Extractor.electoral_margin info = Some (Extractor.MarginNumber m)
    /\ (m < 5)%Q.

(** The priority landlord called like the summary is a minister. *)
Definition minister_landlord (this : VotingExtractor.Instance)
    (td : Extractor.TDSummary) : Prop :=
  exists info,
    In info (VotingExtractor.priorityLandlordTDs this)
    /\ Extractor.ltd_name info = Extractor.name td
    /\ Extractor.minister info = Some true.

(** What the report relies on in a compiled entry: it is filed under its
    name, its score is in range, and the score holds the bonus of a
    vulnerable seat and of a minister. *)
Definition reportable_entry (this : VotingExtractor.Instance)
    (entry : string * Extractor.TDSummary) : Prop :=
  fst entry = Extractor.name (snd entry)
  /\ 0 <= Extractor.hypocrisy_score (snd entry) <= 100
  /\ 0 <= Extractor.anti_tenant_votes (snd entry)
  /\ (VotingExtractor.is_vulnerable this (snd entry) = true ->
      10 <= Extractor.hypocrisy_score (snd entry))
  /\ (VotingExtractor.is_minister this (snd entry) = true ->
      15 <= Extractor.hypocrisy_score (snd entry)).

(** The identity function, standing in for [toLowerCase] on inputs that
    are already lower case. *)
Definition same_case (s : string) : string := s.

(** The first key vote of the constructor. *)
Definition rent_bill : VotingExtractor.VoteInfo :=
  VotingExtractor.mkVoteInfo "2024-03-15" "Residential Tenancies (Amendment) Bill 2024"
    "Rent control caps and tenant eviction protections" "FOR" "HIGH".

Definition grealish_summary : Extractor.TDSummary :=
  Extractor.mkTDSummary "Noel Grealish" "Independent" "Galway West" 2 1 0 1 0 20.

Definition byrne_summary : Extractor.TDSummary :=
  Extractor.mkTDSummary "Thomas Byrne" party_Fianna_Fail "Meath East" 1 2 1 1 1 55.

(** Compiled data with three summaries. *)
Definition sample_votingData : VotingExtractor.CompiledVotingData :=
  VotingExtractor.mkCompiledVotingData
    (VotingExtractor.mkMetadata noon "Oireachtas API + Manual Analysis" 5 7)
    []
    [ ("Noel Grealish", grealish_summary);
      ("Thomas Byrne", byrne_summary);
      ("Colm Burke", burke_summary) ].

(** What the two fetches resolve to, by date: three votes in one debate,
    one vote in each of two debates, a debate without votes, and nothing
    found on the other dates. *)
Definition sample_api (d : string) : option (list (list VotingExtractor.TDVote)) :=
  if String.eqb d "2024-03-15" then
    Some [ [ VotingExtractor.mkTDVote "Colm Burke" "Fianna Fail" "Cork North-Central"
               "Against" "debate/1";
             VotingExtractor.mkTDVote "Mary Smith" "Labour" "Dublin Central" "For" "debate/1";
             VotingExtractor.mkTDVote "Noel Grealish" "Independent" "Galway West"
               "For" "debate/1" ] ]
  else if String.eqb d "2024-04-22" then
    Some [ [ VotingExtractor.mkTDVote "Colm Burke" "Fianna Fail" "Cork North-Central"
               "Against" "debate/2" ];
           [ VotingExtractor.mkTDVote "Colm Burke" "Fianna Fail" "Cork North-Central"
               "Against" "debate/3" ] ]
  else if String.eqb d "2024-06-11" then Some [ [] ]
  else None.

(** * Verification *)

(** ** Comparisons and the effect monad *)

Lemma Qltb_lt (a b : Q) : Qltb a b = true <-> (a < b)%Q.
Proof.
  unfold Qltb. rewrite negb_true_iff. split.
  - intros H. apply Qnot_le_lt. intros Hle.
    apply Qle_bool_iff in Hle. congruence.
  - intros H. destruct (Qle_bool b a) eqn:E; [|reflexivity].
    apply Qle_bool_iff in E. exfalso. exact (Qlt_not_le _ _ H E).
Qed.

Lemma Qltb_ge (a b : Q) : Qltb a b = false <-> (b <= a)%Q.
Proof.
  unfold Qltb. rewrite negb_false_iff. apply Qle_bool_iff.
Qed.

Lemma bind_returned {A B} (c : Js A) (k : A -> Js B) w a w' :
  c w = (Returned a, w') -> bind c k w = k a w'.
Proof. intros H. unfold bind. rewrite H. reflexivity. Qed.

Lemma bind_thrown {A B} (c : Js A) (k : A -> Js B) w e w' :
  c w = (Thrown e, w') -> bind c k w = (Thrown e, w').
Proof. intros H. unfold bind. rewrite H. reflexivity. Qed.

(** ** Rounding to a double *)

Section Rounding.

Local Open Scope Q_scope.

Lemma round_half_even_cases x :
  (round_half_even x = Qfloor x /\ x - inject_Z (Qfloor x) <= 1 # 2)
  \/ (round_half_even x = (Qfloor x + 1)%Z /\ 1 # 2 <= x - inject_Z (Qfloor x)).
Proof.
  unfold round_half_even.
  destruct (Qcompare_spec (x - inject_Z (Qfloor x)) (1 # 2)) as [H|H|H].
  - destruct (Z.even (Qfloor x)); [left|right]; (split; [reflexivity|]); rewrite H; lra.
  - left. split; [reflexivity|lra].
  - right. split; [reflexivity|lra].
Qed.

Lemma round_half_even_floor x : (Qfloor x <= round_half_even x <= Qfloor x + 1)%Z.
Proof. destruct (round_half_even_cases x) as [[-> _]|[-> _]]; lia. Qed.

Lemma round_half_even_comp x y : x == y -> round_half_even x = round_half_even y.
Proof.
  intros H. unfold round_half_even. rewrite (Qfloor_comp x y H).
  assert (E : x - inject_Z (Qfloor y) == y - inject_Z (Qfloor y)) by (rewrite H; reflexivity).
  rewrite (Qcompare_comp _ _ E _ _ (Qeq_refl (1 # 2))). reflexivity.
Qed.

Lemma round_half_even_Z n : round_half_even (inject_Z n) = n.
Proof.
  unfold round_half_even. rewrite Qfloor_Z.
  assert (E : inject_Z n - inject_Z n == 0) by ring.
  rewrite (Qcompare_comp _ _ E _ _ (Qeq_refl (1 # 2))). reflexivity.
Qed.

Lemma round_half_even_mono x y : x <= y -> (round_half_even x <= round_half_even y)%Z.
Proof.
  intros Hxy. pose proof (Qfloor_resp_le x y Hxy) as Hf.
  destruct (Z.eq_dec (Qfloor x) (Qfloor y)) as [E|E].
  - unfold round_half_even. rewrite E.
    destruct (Qcompare_spec (x - inject_Z (Qfloor y)) (1 # 2)) as [Hx|Hx|Hx];
      destruct (Qcompare_spec (y - inject_Z (Qfloor y)) (1 # 2)) as [Hy|Hy|Hy];
      try (destruct (Z.even (Qfloor y))); try lia; exfalso; lra.
  - pose proof (round_half_even_floor x). pose proof (round_half_even_floor y). lia.
Qed.

(** Powers of two. *)
Lemma pow2_pos e : 0 < 2 ^ e.
Proof. apply Qpower_0_lt. reflexivity. Qed.

Lemma pow2_plus a b : 2 ^ (a + b) == 2 ^ a * 2 ^ b.
Proof. apply Qpower_plus. discriminate. Qed.

Lemma pow2_le a b : (a <= b)%Z -> 2 ^ a <= 2 ^ b.
Proof. intros H. apply Qpower_le_compat_l; [exact H|discriminate]. Qed.

Lemma pow2_lt a b : (a < b)%Z -> 2 ^ a < 2 ^ b.
Proof. intros H. apply Qpower_lt_compat_l; [exact H|reflexivity]. Qed.

Lemma pow2_Z k : (0 <= k)%Z -> 2 ^ k == inject_Z (2 ^ k).
Proof. intros H. rewrite (Zpower_Qpower 2 k H). reflexivity. Qed.

(** [2^(p-q)] against a fraction, by cross multiplication. *)
Lemma pow2_le_frac p q n d :
  (0 <= p)%Z -> (0 <= q)%Z ->
  (2 ^ p * Zpos d <= n * 2 ^ q)%Z -> 2 ^ (p - q) <= n # d.
Proof.
  intros Hp Hq H.
  assert (E : 2 ^ p == 2 ^ (p - q) * 2 ^ q).
  { rewrite <- pow2_plus. replace (p - q + q)%Z with p by lia. reflexivity. }
  rewrite (pow2_Z p Hp), (pow2_Z q Hq) in E.
  assert (Hq0 : 0 < inject_Z (2 ^ q)) by (rewrite <- (pow2_Z q Hq); apply pow2_pos).
  assert (Hd0 : 0 < inject_Z (Zpos d)) by reflexivity.
  assert (Hn : (n # d) * inject_Z (Zpos d) == inject_Z n).
  { unfold Qeq, Qmult, inject_Z. cbn. lia. }
  assert (HZ : inject_Z (2 ^ p) * inject_Z (Zpos d) <= inject_Z n * inject_Z (2 ^ q)).
  { rewrite <- !inject_Z_mult. rewrite <- Zle_Qle. exact H. }
  rewrite E, <- Hn in HZ.
  apply Qmult_le_r with (z := inject_Z (2 ^ q) * inject_Z (Zpos d)).
  - apply Qmult_lt_0_compat; assumption.
  - lra.
Qed.

Lemma pow2_gt_frac p q n d :
  (0 <= p)%Z -> (0 <= q)%Z ->
  (n * 2 ^ q < 2 ^ p * Zpos d)%Z -> n # d < 2 ^ (p - q).
Proof.
  intros Hp Hq H.
  assert (E : 2 ^ p == 2 ^ (p - q) * 2 ^ q).
  { rewrite <- pow2_plus. replace (p - q + q)%Z with p by lia. reflexivity. }
  rewrite (pow2_Z p Hp), (pow2_Z q Hq) in E.
  assert (Hq0 : 0 < inject_Z (2 ^ q)) by (rewrite <- (pow2_Z q Hq); apply pow2_pos).
  assert (Hd0 : 0 < inject_Z (Zpos d)) by reflexivity.
  assert (Hn : (n # d) * inject_Z (Zpos d) == inject_Z n).
  { unfold Qeq, Qmult, inject_Z. cbn. lia. }
  assert (HZ : inject_Z n * inject_Z (2 ^ q) < inject_Z (2 ^ p) * inject_Z (Zpos d)).
  { rewrite <- !inject_Z_mult. rewrite <- Zlt_Qlt. exact H. }
  rewrite E, <- Hn in HZ.
  apply Qmult_lt_r with (z := inject_Z (2 ^ q) * inject_Z (Zpos d)).
  - apply Qmult_lt_0_compat; assumption.
  - lra.
Qed.

Lemma binade_spec a : 0 < a -> 2 ^ binade a <= a /\ a < 2 ^ (binade a + 1).
Proof.
  intros Ha. destruct a as [n d]. unfold binade. cbn [Qnum Qden].
  assert (Hn : (0 < n)%Z) by (unfold Qlt in Ha; cbn in Ha; lia).
  pose proof (Z.log2_spec n Hn) as [Hn1 Hn2].
  pose proof (Z.log2_spec (Zpos d) ltac:(lia)) as [Hd1 Hd2].
  pose proof (Z.log2_nonneg n) as Hln. pose proof (Z.log2_nonneg (Zpos d)) as Hld.
  set (ln := Z.log2 n) in *. set (ld := Z.log2 (Zpos d)) in *.
  assert (Hpn : (0 < 2 ^ ln)%Z) by (apply Z.pow_pos_nonneg; lia).
  assert (Hpd : (0 < 2 ^ ld)%Z) by (apply Z.pow_pos_nonneg; lia).
  rewrite Z.pow_succ_r in Hn2, Hd2 by lia.
  destruct (Qle_bool (2 ^ (ln - ld)) (n # d)) eqn:E.
  - apply Qle_bool_iff in E. split; [exact E|].
    replace (ln - ld + 1)%Z with ((ln + 1) - ld)%Z by lia.
    apply pow2_gt_frac; [lia|lia|]. rewrite Z.pow_add_r by lia. nia.
  - assert (Hlt : n # d < 2 ^ (ln - ld)).
    { apply Qnot_le_lt. intros H. apply Qle_bool_iff in H. congruence. }
    split.
    + replace (ln - ld - 1)%Z with (ln - (ld + 1))%Z by lia.
      apply pow2_le_frac; [lia|lia|]. rewrite Z.pow_add_r by lia. nia.
    + replace (ln - ld - 1 + 1)%Z with (ln - ld)%Z by lia. exact Hlt.
Qed.

Lemma binade_mono a b : 0 < a -> a <= b -> (binade a <= binade b)%Z.
Proof.
  intros Ha Hab.
  destruct (binade_spec a Ha) as [La _].
  destruct (binade_spec b ltac:(lra)) as [_ Ub].
  destruct (Z_le_gt_dec (binade a) (binade b)) as [H|H]; [exact H|].
  exfalso. pose proof (pow2_le (binade b + 1) (binade a) ltac:(lia)). lra.
Qed.

Lemma binade_comp a b : 0 < a -> a == b -> binade a = binade b.
Proof.
  intros Ha Hab.
  pose proof (binade_mono a b Ha ltac:(lra)).
  pose proof (binade_mono b a ltac:(lra) ltac:(lra)). lia.
Qed.

(** The scaled significand lies in [2^52, 2^53). *)
Lemma significand_range a :
  0 < a ->
  inject_Z (2 ^ 52) <= a / 2 ^ (binade a - 52)
  /\ a / 2 ^ (binade a - 52) < inject_Z (2 ^ 53).
Proof.
  intros Ha. destruct (binade_spec a Ha) as [L U].
  pose proof (pow2_pos (binade a - 52)) as Hu.
  assert (E1 : 2 ^ binade a == inject_Z (2 ^ 52) * 2 ^ (binade a - 52)).
  { rewrite <- (pow2_Z 52) by lia. rewrite <- pow2_plus.
    replace (52 + (binade a - 52))%Z with (binade a) by lia. reflexivity. }
  assert (E2 : 2 ^ (binade a + 1) == inject_Z (2 ^ 53) * 2 ^ (binade a - 52)).
  { rewrite <- (pow2_Z 53) by lia. rewrite <- pow2_plus.
    replace (53 + (binade a - 52))%Z with (binade a + 1)%Z by lia. reflexivity. }
  split.
  - apply Qle_shift_div_l; [exact Hu|]. rewrite <- E1. exact L.
  - apply Qlt_shift_div_r; [exact Hu|]. rewrite <- E2. exact U.
Qed.

Lemma nearest_double_range a :
  0 < a -> 2 ^ binade a <= nearest_double a /\ nearest_double a <= 2 ^ (binade a + 1).
Proof.
  intros Ha. destruct (significand_range a Ha) as [L U].
  pose proof (pow2_pos (binade a - 52)) as Hu.
  unfold nearest_double.
  pose proof (round_half_even_mono _ _ L) as HL. rewrite round_half_even_Z in HL.
  pose proof (round_half_even_mono _ _ (Qlt_le_weak _ _ U)) as HU.
  rewrite round_half_even_Z in HU.
  rewrite Zle_Qle in HL, HU.
  assert (E1 : 2 ^ binade a == inject_Z (2 ^ 52) * 2 ^ (binade a - 52)).
  { rewrite <- (pow2_Z 52) by lia. rewrite <- pow2_plus.
    replace (52 + (binade a - 52))%Z with (binade a) by lia. reflexivity. }
  assert (E2 : 2 ^ (binade a + 1) == inject_Z (2 ^ 53) * 2 ^ (binade a - 52)).
  { rewrite <- (pow2_Z 53) by lia. rewrite <- pow2_plus.
    replace (53 + (binade a - 52))%Z with (binade a + 1)%Z by lia. reflexivity. }
  rewrite E1, E2. split; apply Qmult_le_compat_r; try assumption; lra.
Qed.

Lemma nearest_double_pos a : 0 < a -> 0 < nearest_double a.
Proof.
  intros Ha. destruct (nearest_double_range a Ha) as [L _].
  pose proof (pow2_pos (binade a)). lra.
Qed.

Lemma nearest_double_mono a b :
  0 < a -> a <= b -> nearest_double a <= nearest_double b.
Proof.
  intros Ha Hab. assert (Hb : 0 < b) by lra.
  pose proof (binade_mono a b Ha Hab) as He.
  destruct (Z.eq_dec (binade a) (binade b)) as [E|E].
  - unfold nearest_double. rewrite E.
    pose proof (pow2_pos (binade b - 52)) as Hu.
    apply Qmult_le_compat_r; [|lra].
    rewrite <- Zle_Qle. apply round_half_even_mono.
    apply Qmult_le_compat_r; [exact Hab|].
    apply Qlt_le_weak, Qinv_lt_0_compat, Hu.
  - destruct (nearest_double_range a Ha) as [_ U].
    destruct (nearest_double_range b Hb) as [L _].
    pose proof (pow2_le (binade a + 1) (binade b) ltac:(lia)). lra.
Qed.

Lemma nearest_double_comp a b : 0 < a -> a == b -> nearest_double a == nearest_double b.
Proof.
  intros Ha Hab. unfold nearest_double. rewrite (binade_comp a b Ha Hab).
  rewrite (round_half_even_comp (a / 2 ^ (binade b - 52)) (b / 2 ^ (binade b - 52)));
    [reflexivity|]. rewrite Hab. reflexivity.
Qed.

(** *** Rounding to binary64 *)

Lemma binary64_comp x y : x == y -> binary64 x = binary64 y.
Proof.
  intros H. unfold binary64.
  rewrite (Qcompare_comp x y H 0 0 (Qeq_refl 0)).
  rewrite (Qred_complete x y H).
  assert (H' : - x == - y) by (rewrite H; reflexivity).
  rewrite (Qred_complete _ _ H'). reflexivity.
Qed.

Lemma binary64_zero x : x == 0 -> binary64 x = 0.
Proof. intros H. rewrite (binary64_comp x 0 H). reflexivity. Qed.

Lemma binary64_positive x : 0 < x -> binary64 x == nearest_double x.
Proof.
  intros H. unfold binary64.
  destruct (Qcompare_spec x 0) as [E|E|E]; try (exfalso; lra).
  rewrite Qred_correct. apply nearest_double_comp.
  - rewrite Qred_correct. exact H.
  - apply Qred_correct.
Qed.

Lemma binary64_negative x : x < 0 -> binary64 x == - nearest_double (- x).
Proof.
  intros H. unfold binary64.
  destruct (Qcompare_spec x 0) as [E|E|E]; try (exfalso; lra).
  rewrite Qred_correct. apply Qopp_comp. apply nearest_double_comp.
  - rewrite Qred_correct. lra.
  - apply Qred_correct.
Qed.

Lemma binary64_opp x : binary64 (- x) == - binary64 x.
Proof.
  destruct (Q_dec x 0) as [[H|H]|H].
  - rewrite (binary64_positive (- x)) by lra. rewrite (binary64_negative x H). ring.
  - rewrite (binary64_negative (- x)) by lra. rewrite (binary64_positive x H).
    rewrite (nearest_double_comp (- - x) x); [reflexivity|lra|ring].
  - rewrite (binary64_zero x H), (binary64_zero (- x)) by (rewrite H; reflexivity).
    reflexivity.
Qed.

(** Rounding keeps the sign. *)
Lemma binary64_sign x :
  (0 < x -> 0 < binary64 x) /\ (x < 0 -> binary64 x < 0) /\ (x == 0 -> binary64 x == 0).
Proof.
  split; [|split]; intros H.
  - rewrite (binary64_positive x H). apply nearest_double_pos, H.
  - rewrite (binary64_negative x H).
    pose proof (nearest_double_pos (- x) ltac:(lra)). lra.
  - rewrite (binary64_zero x H). reflexivity.
Qed.

Lemma binary64_le_0 x : binary64 x <= 0 <-> x <= 0.
Proof.
  destruct (binary64_sign x) as (Hp & Hn & Hz).
  destruct (Q_dec x 0) as [[H|H]|H].
  - specialize (Hn H). split; intros; lra.
  - specialize (Hp H). split; intros; lra.
  - specialize (Hz H). split; intros; lra.
Qed.

(** Rounding is monotone. *)
Lemma binary64_mono x y : x <= y -> binary64 x <= binary64 y.
Proof.
  intros Hxy. destruct (binary64_sign x) as (Hpx & Hnx & Hzx).
  destruct (binary64_sign y) as (Hpy & Hny & Hzy).
  destruct (Q_dec x 0) as [[Hx|Hx]|Hx]; destruct (Q_dec y 0) as [[Hy|Hy]|Hy];
    try (exfalso; lra).
  - rewrite (binary64_negative x Hx), (binary64_negative y Hy).
    pose proof (nearest_double_mono (- y) (- x) ltac:(lra) ltac:(lra)). lra.
  - specialize (Hnx Hx). specialize (Hpy Hy). lra.
  - specialize (Hnx Hx). specialize (Hzy Hy). lra.
  - rewrite (binary64_positive x Hx), (binary64_positive y Hy).
    apply nearest_double_mono; assumption.
  - specialize (Hzx Hx). specialize (Hpy Hy). lra.
  - specialize (Hzx Hx). specialize (Hzy Hy). lra.
Qed.

Lemma fsub_le_0 a b : fsub a b <= 0 <-> a <= b.
Proof. unfold fsub. rewrite binary64_le_0. split; intros; lra. Qed.

(** The rounding error is at most half a unit in the last place. *)
Lemma round_half_even_error x :
  - (1 # 2) <= inject_Z (round_half_even x) - x <= 1 # 2.
Proof.
  pose proof (Qfloor_le x). pose proof (Qlt_floor x) as Hlt.
  rewrite inject_Z_plus in Hlt. change (inject_Z 1) with 1 in Hlt.
  destruct (round_half_even_cases x) as [[-> H1]|[-> H1]].
  - split; lra.
  - rewrite inject_Z_plus. change (inject_Z 1) with 1. split; lra.
Qed.

Lemma nearest_double_error a :
  0 < a ->
  - 2 ^ (binade a - 53) <= nearest_double a - a <= 2 ^ (binade a - 53).
Proof.
  intros Ha. unfold nearest_double.
  pose proof (pow2_pos (binade a - 52)) as Hu.
  assert (E : 2 ^ (binade a - 52) == 2 * 2 ^ (binade a - 53)).
  { change 2 with (2 ^ 1) at 2. rewrite <- pow2_plus.
    replace (1 + (binade a - 53))%Z with (binade a - 52)%Z by lia. reflexivity. }
  pose proof (round_half_even_error (a / 2 ^ (binade a - 52))) as [Hl Hr].
  assert (Ea : a == a / 2 ^ (binade a - 52) * 2 ^ (binade a - 52)).
  { field. lra. }
  set (m := inject_Z (round_half_even (a / 2 ^ (binade a - 52)))) in *.
  set (x := a / 2 ^ (binade a - 52)) in *.
  set (u := 2 ^ (binade a - 52)) in *.
  set (h := 2 ^ (binade a - 53)) in *.
  assert (Hd : m * u - a == (m - x) * u) by (rewrite Ea at 1; ring).
  rewrite Hd, E.
  assert (Hh : 0 < h) by apply pow2_pos.
  split; nra.
Qed.

Lemma binade_unique a e : 0 < a -> 2 ^ e <= a -> a < 2 ^ (e + 1) -> binade a = e.
Proof.
  intros Ha L U. destruct (binade_spec a Ha) as [L' U'].
  destruct (Z.lt_trichotomy (binade a) e) as [H|[H|H]]; [|exact H|]; exfalso.
  - pose proof (pow2_le (binade a + 1) e ltac:(lia)). lra.
  - pose proof (pow2_le (e + 1) (binade a) ltac:(lia)). lra.
Qed.

Lemma significand_bounds a :
  0 < a -> (2 ^ 52 <= round_half_even (a / 2 ^ (binade a - 52)) <= 2 ^ 53)%Z.
Proof.
  intros Ha. destruct (significand_range a Ha) as [L U].
  pose proof (round_half_even_mono _ _ L) as HL. rewrite round_half_even_Z in HL.
  pose proof (round_half_even_mono _ _ (Qlt_le_weak _ _ U)) as HU.
  rewrite round_half_even_Z in HU. split; assumption.
Qed.

Lemma pow2_split e k : 2 ^ e == inject_Z (2 ^ k) * 2 ^ (e - k) \/ (k < 0)%Z.
Proof.
  destruct (Z_lt_ge_dec k 0) as [H|H]; [right; exact H|left].
  rewrite <- (pow2_Z k) by lia. rewrite <- pow2_plus.
  replace (k + (e - k))%Z with e by lia. reflexivity.
Qed.

Lemma nearest_double_of_significand m e :
  (2 ^ 52 <= m < 2 ^ 53)%Z ->
  nearest_double (inject_Z m * 2 ^ (e - 52)) == inject_Z m * 2 ^ (e - 52).
Proof.
  intros [Hm1 Hm2].
  pose proof (pow2_pos (e - 52)) as Hu.
  assert (E1 : 2 ^ e == inject_Z (2 ^ 52) * 2 ^ (e - 52)).
  { destruct (pow2_split e 52) as [H|H]; [exact H|lia]. }
  assert (E2 : 2 ^ (e + 1) == inject_Z (2 ^ 53) * 2 ^ (e - 52)).
  { destruct (pow2_split (e + 1) 53) as [H|H]; [|lia].
    replace (e + 1 - 53)%Z with (e - 52)%Z in H by lia. exact H. }
  rewrite Zle_Qle in Hm1. rewrite Zlt_Qlt in Hm2.
  set (y := inject_Z m * 2 ^ (e - 52)).
  assert (Hy : 0 < y).
  { unfold y. apply Qmult_lt_0_compat; [|exact Hu].
    assert (0 < inject_Z (2 ^ 52)) by reflexivity. lra. }
  assert (Hb : binade y = e).
  { apply binade_unique; [exact Hy| |].
    - rewrite E1. unfold y. apply Qmult_le_compat_r; lra.
    - rewrite E2. unfold y. apply Qmult_lt_r; assumption. }
  unfold nearest_double. rewrite Hb.
  assert (Hq : y / 2 ^ (e - 52) == inject_Z m) by (unfold y; field; lra).
  rewrite (round_half_even_comp _ _ Hq), round_half_even_Z. reflexivity.
Qed.

Lemma nearest_double_idem a :
  0 < a -> nearest_double (nearest_double a) == nearest_double a.
Proof.
  intros Ha. pose proof (significand_bounds a Ha) as [Hm1 Hm2].
  unfold nearest_double at 2 3.
  set (m := round_half_even (a / 2 ^ (binade a - 52))) in *.
  destruct (Z.eq_dec m (2 ^ 53)%Z) as [E|E].
  - assert (Ey : inject_Z m * 2 ^ (binade a - 52)
                 == inject_Z (2 ^ 52) * 2 ^ (binade a + 1 - 52)).
    { rewrite E. replace (binade a + 1 - 52)%Z with (1 + (binade a - 52))%Z by lia.
      rewrite pow2_plus. change (2 ^ 1) with 2.
      change (inject_Z (2 ^ 53)) with (2 * inject_Z (2 ^ 52)). ring. }
    assert (Hpos : 0 < inject_Z m * 2 ^ (binade a - 52)).
    { apply Qmult_lt_0_compat; [rewrite E; reflexivity|apply pow2_pos]. }
    rewrite (nearest_double_comp _ _ Hpos Ey).
    rewrite Ey. apply nearest_double_of_significand. split; [lia|reflexivity].
  - apply nearest_double_of_significand. lia.
Qed.

Lemma binary64_reduced x : Qred (binary64 x) = binary64 x.
Proof.
  unfold binary64.
  destruct (x ?= 0); [reflexivity| |]; apply Qred_complete, Qred_correct.
Qed.

Lemma binary64_idem x : binary64 (binary64 x) = binary64 x.
Proof.
  assert (H : binary64 (binary64 x) == binary64 x).
  { destruct (binary64_sign x) as (Hp & Hn & Hz).
    destruct (Q_dec x 0) as [[Hx|Hx]|Hx].
    - specialize (Hn Hx).
      pose proof (binary64_negative x Hx) as H1.
      pose proof (binary64_negative _ Hn) as H2.
      assert (H3 : - binary64 x == nearest_double (- x)) by lra.
      assert (H0 : 0 < - binary64 x) by lra.
      pose proof (nearest_double_comp _ _ H0 H3) as H4.
      pose proof (nearest_double_idem (- x) ltac:(lra)) as H5.
      lra.
    - specialize (Hp Hx).
      pose proof (binary64_positive x Hx) as H1.
      pose proof (binary64_positive _ Hp) as H2.
      pose proof (nearest_double_comp _ _ Hp H1) as H4.
      pose proof (nearest_double_idem x Hx) as H5.
      lra.
    - specialize (Hz Hx). rewrite (binary64_zero _ Hz), (binary64_zero x Hx). reflexivity. }
  apply Qred_complete in H. rewrite !binary64_reduced in H. exact H.
Qed.

Lemma binary64_error x :
  0 < x -> - 2 ^ (binade x - 53) <= binary64 x - x <= 2 ^ (binade x - 53).
Proof.
  intros Hx. rewrite (binary64_positive x Hx). apply nearest_double_error, Hx.
Qed.

Lemma binade_below a e : 0 < a -> a < 2 ^ e -> (binade a < e)%Z.
Proof.
  intros Ha H. destruct (binade_spec a Ha) as [L _].
  destruct (Z_lt_ge_dec (binade a) e) as [Hlt|Hge]; [exact Hlt|].
  exfalso. pose proof (pow2_le e (binade a) ltac:(lia)). lra.
Qed.

End Rounding.

(** The vote loop never throws: it consumes one draw per slate entry. *)
Lemma vote_loop_returns adjusted targets :
  forall t w, exists t' w', vote_loop adjusted targets t w = (Returned t', w').
Proof.
  induction targets as [|vote rest IH]; intros t w; simpl.
  - eexists; eexists; reflexivity.
  - unfold bind at 1. unfold cast_vote at 1. unfold bind at 1.
    unfold Math_random at 1.
    destruct (decide_vote _ _ _ _) as [[choice anti] pro].
    unfold ret at 1. apply IH.
Qed.

(** ** The code on sample inputs *)

Example burke_enhanced_score :
  calculateEnhancedHypocrisyScore (sample_instance []) burke_votes td_burke = Some 62.
Proof. reflexivity. Qed.

Example burke_priority :
  calculatePressurePriority (sample_instance []) burke_votes td_burke = 7.
Proof. reflexivity. Qed.

Example burke_fallback_score :
  Extractor.calculateHypocrisyScore Extractor.priorityLandlordTDs burke_summary = 100.
Proof. reflexivity. Qed.

Example missing_total_defaults_to_five : or_default None 5 = 5 /\ or_default (Some 0) 5 = 5.
Proof. split; reflexivity. Qed.

(** Doubles every JavaScript engine computes: [0.1], [0.1 + 0.2] =
    0.30000000000000004, and two ties going to the even significand. *)
Example binary64_reference_values :
  number 0.1 = (3602879701896397 # 36028797018963968)%Q
  /\ fadd (number 0.1) (number 0.2) = (1351079888211149 # 4503599627370496)%Q
  /\ binary64 (inject_Z (2 ^ 53 + 1)) = inject_Z (2 ^ 53)
  /\ binary64 (inject_Z (2 ^ 53 + 3)) = inject_Z (2 ^ 53 + 4).
Proof. repeat split; vm_compute; reflexivity. Qed.

Example grealish_likelihood_is_capped :
  adjustedAntiTenantLikelihood td_grealish = number 0.95.
Proof. vm_compute. reflexivity. Qed.

(** [0.7 + 0.1] is the double 0.7999999999999999. *)
Example burke_likelihood_is_rounded :
  adjustedAntiTenantLikelihood td_burke = (7205759403792793 # 9007199254740992)%Q.
Proof. vm_compute. reflexivity. Qed.

Example draws_in_each_band :
  voteChoice (number 0.8) (number 0.1) = "Against"
  /\ voteChoice (number 0.8) (number 0.85) = "Abstain"
  /\ voteChoice (number 0.8) (number 0.9) = "For".
Proof. repeat split; vm_compute; reflexivity. Qed.

(** [23 * 0.6 + 1 * 10 * 0.4] is 17.799999999999997 and
    [3 * 0.6 + 4 * 10 * 0.4] is 17.8. *)
Example blends_of_equal_exact_value :
  double_blend 23 1 = (1252563646362419 # 70368744177664)%Q
  /\ double_blend 3 4 = (5010254585449677 # 281474976710656)%Q
  /\ (exact_blend 23 1 == exact_blend 3 4)%Q.
Proof. repeat split; vm_compute; reflexivity. Qed.

Example tenant_only_run_returns :
  exists db report,
    fst (executeIntegration (sample_instance [("Aoife Murphy", td_tenant)]) (world_at noon))
    = Returned (db, report)
    /\ total_landlord_tds (report_metadata report) = 0.
Proof. eexists; eexists. split; [vm_compute; reflexivity | reflexivity]. Qed.

Example undeclared_methods :
  existsb (String.eqb "getDetailedVotes") EnhancedVotingIntegration_methods = false
  /\ existsb (String.eqb "calculateHypocrisyScoreFromVotes")
       EnhancedVotingIntegration_methods = false.
Proof. split; reflexivity. Qed.

Example sort_is_stable_on_ties :
  map (fun t => last_name (target_td t))
      (Array_sort by_combined_priority (map target_of (landlords_of tied_database)))
  = ["Brady"; "Ahern"; "Casey"].
Proof. reflexivity. Qed.

(** ** C1: the landlord branch calls an undeclared method *)

Lemma enhanceVotingRecord_throws this existingData tdInfo w :
  enhanceVotingRecord this existingData tdInfo w
  = (Thrown (TypeError getDetailedVotes_message), w).
Proof. reflexivity. Qed.

Lemma generateRealisticVotingPattern_throws this tdInfo w :
  exists w',
    generateRealisticVotingPattern this tdInfo w
    = (Thrown (TypeError calculateHypocrisyScoreFromVotes_message), w').
Proof.
  unfold generateRealisticVotingPattern.
  destruct (vote_loop_returns (adjustedAntiTenantLikelihood tdInfo)
              (housingVoteTargets this) (mkTally [] 0 0) w) as (t' & w' & Hloop).
  exists w'. rewrite (bind_returned _ _ _ _ _ Hloop). reflexivity.
Qed.

Lemma integrate_td_landlord this tdName td w :
  landlord_status (properties td) = true ->
  exists w',
    integrate_td this (tdName, td) w
    = (Thrown (TypeError
                 match existing_vote_data this tdName with
                 | Some _ => getDetailedVotes_message
                 | None => calculateHypocrisyScoreFromVotes_message
                 end), w').
Proof.
  intros Hl. unfold integrate_td. rewrite Hl.
  destruct (existing_vote_data this tdName) as [data|].
  - exists w. apply bind_thrown. apply enhanceVotingRecord_throws.
  - destruct (generateRealisticVotingPattern_throws this td w) as (w' & H).
    exists w'. apply bind_thrown. exact H.
Qed.

Lemma integrate_td_non_landlord this tdName td w :
  landlord_status (properties td) = false ->
  integrate_td this (tdName, td) w
  = (Returned (tdName,
               set_voting_record td
                 (mkVotingRecord (mkHousingVotes 0 0 0 0 0) None (Some 0) None
                    (clock_shows w (clock_reads w)) "NON_LANDLORD_CLEAN")),
     mkWorld (random_draws w) (draws_taken w) (clock_shows w) (S (clock_reads w))).
Proof. intros Hl. unfold integrate_td. rewrite Hl. reflexivity. Qed.

Lemma integrate_loop_throws this entries :
  Exists (fun e => landlord_status (properties (snd e)) = true) entries ->
  forall w, exists msg w',
    js_map (integrate_td this) entries w = (Thrown (TypeError msg), w')
    /\ undeclared_method_message msg.
Proof.
  induction entries as [|[tdName td] rest IH]; intros Hex w.
  - inversion Hex.
  - cbn [js_map]. destruct (landlord_status (properties td)) eqn:Hl.
    + destruct (integrate_td_landlord this tdName td w Hl) as (w' & H).
      eexists; exists w'. split.
      * apply bind_thrown. exact H.
      * unfold undeclared_method_message.
        destruct (existing_vote_data this tdName); auto.
    + inversion Hex as [? ? Hhd | ? ? Htl]; subst.
      * simpl in Hhd. congruence.
      * rewrite (bind_returned _ _ _ _ _ (integrate_td_non_landlord this tdName td w Hl)).
        destruct (IH Htl (mkWorld (random_draws w) (draws_taken w) (clock_shows w)
                            (S (clock_reads w)))) as (msg & w' & H & Hmsg).
        exists msg, w'. split; [|exact Hmsg].
        apply bind_thrown. exact H.
Qed.

(** C1. Whenever the loaded database holds at least one entity whose
    landlord flag is set, [integrateVotingRecords] throws a TypeError for
    an undeclared method instead of returning, so [executeIntegration]
    yields no report; on each such entity the sourced path fails in
    [this.getDetailedVotes] and the synthesized path in
    [this.calculateHypocrisyScoreFromVotes]. *)
Theorem landlord_entity_raises_TypeError :
  forall (this : Instance) (db : TDDatabase) (w : World),
    completeTDDatabase this = Some db ->
    Exists (fun e => landlord_status (properties (snd e)) = true) (tds db) ->
    (exists msg w',
        integrateVotingRecords this w = (Thrown (TypeError msg), w')
        /\ undeclared_method_message msg)
    /\ (exists msg w',
           executeIntegration this w = (Thrown (TypeError msg), w')
           /\ undeclared_method_message msg)
    /\ (forall tdName td w0,
           landlord_status (properties td) = true ->
           exists w',
             integrate_td this (tdName, td) w0
             = (Thrown (TypeError
                          match existing_vote_data this tdName with
                          | Some _ => getDetailedVotes_message
                          | None => calculateHypocrisyScoreFromVotes_message
                          end), w')).
Proof.
  intros this db w Hdb Hex.
  assert (Hint : exists msg w',
             integrateVotingRecords this w = (Thrown (TypeError msg), w')
             /\ undeclared_method_message msg).
  { unfold integrateVotingRecords. rewrite Hdb.
    unfold bind at 1. unfold Date_toISOString at 1.
    destruct (integrate_loop_throws this (tds db) Hex
                (mkWorld (random_draws w) (draws_taken w) (clock_shows w)
                   (S (clock_reads w)))) as (msg & w' & H & Hmsg).
    exists msg, w'. split; [|exact Hmsg].
    apply bind_thrown. exact H. }
  split; [exact Hint|]. split.
  - destruct Hint as (msg & w' & H & Hmsg). exists msg, w'. split; [|exact Hmsg].
    unfold executeIntegration. apply bind_thrown. exact H.
  - intros tdName td w0 Hl. apply integrate_td_landlord. exact Hl.
Qed.

(** ** C2: clamping of the scores *)

Lemma or_default_nonneg (x : option Z) :
  (forall v, x = Some v -> 0 <= v) -> 0 <= or_default x 0.
Proof.
  intros H. unfold or_default. destruct x as [v|]; [|lia].
  destruct (v =? 0); [lia|]. apply H. reflexivity.
Qed.

Lemma calculatePressurePriority_bounds this votingData tdInfo :
  (forall a, vd_anti_tenant_votes votingData = Some a -> 0 <= a) ->
  1 <= calculatePressurePriority this votingData tdInfo <= 10.
Proof.
  intros Hanti. apply or_default_nonneg in Hanti.
  unfold calculatePressurePriority.
  set (tally := or_default (vd_anti_tenant_votes votingData) 0) in *.
  destruct (10 <=? _); [|destruct (5 <=? _); [|destruct (1 <=? _)]];
    (destruct (electoral_entry this (constituency tdInfo)) as [e|];
     [destruct (Qltb (margin_percentage e) 1);
      [|destruct (Qltb (margin_percentage e) 2.5);
        [|destruct (Qltb (margin_percentage e) 5)]]|]); lia.
Qed.

Lemma calculateEnhancedHypocrisyScore_bounds this votingData tdInfo anti :
  0 <= property_count (properties tdInfo) ->
  vd_anti_tenant_votes votingData = Some anti ->
  0 <= anti ->
  (forall h, vd_hypocritical_votes votingData = Some h -> 0 <= h) ->
  exists score,
    calculateEnhancedHypocrisyScore this votingData tdInfo = Some score
    /\ 0 <= score <= 100.
Proof.
  intros Hcount Hanti Hpos Hhyp. apply or_default_nonneg in Hhyp.
  unfold calculateEnhancedHypocrisyScore. rewrite Hanti.
  set (hyp := or_default (vd_hypocritical_votes votingData) 0) in *.
  eexists. split; [reflexivity|].
  destruct (_ || _ || _);
    (destruct (electoral_entry this (constituency tdInfo)) as [e|];
     [destruct (Qltb (margin_percentage e) 5)|]); lia.
Qed.

Lemma calculateHypocrisyScore_bounds targets (tdSummary : Extractor.TDSummary) :
  0 <= Extractor.properties tdSummary ->
  0 <= Extractor.anti_tenant_votes tdSummary ->
  0 <= Extractor.hypocritical_votes tdSummary ->
  0 <= Extractor.calculateHypocrisyScore targets tdSummary <= 100.
Proof.
  intros Hp Ha Hh. unfold Extractor.calculateHypocrisyScore.
  destruct (find _ targets) as [info|]; [|lia].
  destruct (Extractor.electoral_margin info) as [[m|s]|];
    try destruct (Qltb m 5);
    destruct (Extractor.minister info) as [[|]|]; lia.
Qed.

(** C2. With a non-negative holding count and non-negative vote tallies,
    both scoring paths ([calculateEnhancedHypocrisyScore] and the fallback
    [calculateHypocrisyScore]) return an integer in [0,100], and
    [calculatePressurePriority] returns an integer in [1,10]. *)
Theorem scores_are_clamped :
  forall (this : Instance) (votingData : VotingData) (tdInfo : TD) (anti : Z)
         (targets : list Extractor.LandlordTD) (tdSummary : Extractor.TDSummary),
    0 <= property_count (properties tdInfo) ->
    vd_anti_tenant_votes votingData = Some anti ->
    0 <= anti ->
    (forall h, vd_hypocritical_votes votingData = Some h -> 0 <= h) ->
    0 <= Extractor.properties tdSummary ->
    0 <= Extractor.anti_tenant_votes tdSummary ->
    0 <= Extractor.hypocritical_votes tdSummary ->
    (exists score,
        calculateEnhancedHypocrisyScore this votingData tdInfo = Some score
        /\ 0 <= score <= 100)
    /\ 0 <= Extractor.calculateHypocrisyScore targets tdSummary <= 100
    /\ 1 <= calculatePressurePriority this votingData tdInfo <= 10.
Proof.
  intros this votingData tdInfo anti targets tdSummary Hc Hanti Hpos Hhyp Hp Ha Hh.
  split; [|split].
  - exact (calculateEnhancedHypocrisyScore_bounds this votingData tdInfo anti
             Hc Hanti Hpos Hhyp).
  - exact (calculateHypocrisyScore_bounds targets tdSummary Hp Ha Hh).
  - apply calculatePressurePriority_bounds.
    intros a Ha'. rewrite Hanti in Ha'. injection Ha' as <-. exact Hpos.
Qed.

(** ** C3: the two conflict-marking sites *)

Lemma analyzeVoteHypocrisy_symmetric :
  Extractor.analyzeVoteHypocrisy "Against" "FOR" = true
  /\ Extractor.analyzeVoteHypocrisy "For" "AGAINST" = true
  /\ Extractor.analyzeVoteHypocrisy "For" "FOR" = false
  /\ Extractor.analyzeVoteHypocrisy "Against" "AGAINST" = false.
Proof. repeat split; reflexivity. Qed.

Lemma cast_vote_returns adjusted vote t w :
  cast_vote adjusted vote t w
  = (Returned
       (let random := random_draws w (draws_taken w) in
        mkTally
          (votes t ++
           [ mkDetailedVote (target_id vote) (title vote) (date vote)
               (voteChoice adjusted random)
               (String.eqb (voteChoice adjusted random) "Against"
                && String.eqb (pro_tenant_stance vote) "FOR")
               (weight vote) ])%list
          (snd (fst (decide_vote adjusted random (antiTenantVotes t) (proTenantVotes t))))
          (snd (decide_vote adjusted random (antiTenantVotes t) (proTenantVotes t)))),
     mkWorld (random_draws w) (S (draws_taken w)) (clock_shows w) (clock_reads w)).
Proof.
  unfold cast_vote, bind, Math_random, voteChoice, decide_vote, ret. cbn [fst snd].
  destruct (Qltb _ adjusted); [reflexivity|].
  destruct (Qltb _ (fadd adjusted (number 0.1))); reflexivity.
Qed.




(** ** C4: the tier is a function of the margin *)

Lemma getTargetingPriority_cases (e : ElectoralEntry) (td : TD) :
  ((margin_percentage e < 1)%Q /\ getTargetingPriority e td = "TIER_1_CRITICAL")
  \/ ((1 <= margin_percentage e)%Q /\ (margin_percentage e < 2.5)%Q
      /\ getTargetingPriority e td = "TIER_2_HIGH")
  \/ ((2.5 <= margin_percentage e)%Q /\ (margin_percentage e < 5)%Q
      /\ getTargetingPriority e td = "TIER_3_MEDIUM")
  \/ ((5 <= margin_percentage e)%Q /\ getTargetingPriority e td = "TIER_4_LOW").
Proof.
  unfold getTargetingPriority.
  destruct (Qltb (margin_percentage e) 1) eqn:E1.
  { left. split; [apply Qltb_lt; exact E1 | reflexivity]. }
  destruct (Qltb (margin_percentage e) 2.5) eqn:E2.
  { right; left. repeat split; [apply Qltb_ge; exact E1 | apply Qltb_lt; exact E2]. }
  destruct (Qltb (margin_percentage e) 5) eqn:E3.
  { right; right; left.
    repeat split; [apply Qltb_ge; exact E2 | apply Qltb_lt; exact E3]. }
  right; right; right. split; [apply Qltb_ge; exact E3 | reflexivity].
Qed.

Ltac margin_clash :=
  match goal with
  | H : (?a <= ?m)%Q, H' : (?m < ?b)%Q |- _ =>
      exfalso; apply (Qlt_irrefl m);
      apply (Qlt_le_trans _ _ _ H'); apply (Qle_trans _ a); [|exact H];
      unfold Qle; cbn; lia
  end.

Ltac settle_tier :=
  split; intros H;
  [ first [ discriminate H
          | eexists; split; [reflexivity|]; repeat split; assumption ]
  | first [ reflexivity
          | destruct H as (m & Hm & Hb); injection Hm as <-;
            lazymatch type of Hb with
            | _ /\ _ => destruct Hb as [Hb Hb']
            | _ => idtac
            end; margin_clash ] ].

Lemma tier_of_margin this td :
  (tier_of this td = "TIER_1_CRITICAL"
   <-> exists m, margin_of this td = Some m /\ (m < 1)%Q)
  /\ (tier_of this td = "TIER_2_HIGH"
      <-> exists m, margin_of this td = Some m /\ (1 <= m)%Q /\ (m < 2.5)%Q)
  /\ (tier_of this td = "TIER_3_MEDIUM"
      <-> exists m, margin_of this td = Some m /\ (2.5 <= m)%Q /\ (m < 5)%Q)
  /\ (tier_of this td = "TIER_4_LOW"
      <-> exists m, margin_of this td = Some m /\ (5 <= m)%Q)
  /\ (tier_of this td = "LOW" <-> margin_of this td = None).
Proof.
  unfold tier_of, margin_of, addElectoralTargeting.
  destruct (electoral_entry this (constituency td)) as [e|]; cbn [targeting_priority].
  - destruct (getTargetingPriority_cases e td)
      as [[H1 ->] | [(H1 & H2 & ->) | [(H1 & H2 & ->) | [H1 ->]]]];
      (split; [settle_tier|]); (split; [settle_tier|]); (split; [settle_tier|]);
      (split; [settle_tier|]); split; intros H; discriminate H.
  - repeat split; intros H; try discriminate H;
      try (destruct H as (m & Hm & _); discriminate Hm); reflexivity.
Qed.

Lemma Qltb_proper (a b c : Q) : (a == b)%Q -> Qltb a c = Qltb b c.
Proof.
  intros H. unfold Qltb. f_equal. apply Qleb_comp; [reflexivity | exact H].
Qed.

Lemma same_margin_same_tier this1 td1 this2 td2 :
  same_margin (margin_of this1 td1) (margin_of this2 td2) ->
  tier_of this1 td1 = tier_of this2 td2.
Proof.
  unfold same_margin, tier_of, margin_of, addElectoralTargeting.
  destruct (electoral_entry this1 (constituency td1)) as [e1|],
           (electoral_entry this2 (constituency td2)) as [e2|];
    cbn [targeting_priority]; intros H; try contradiction; [|reflexivity].
  unfold getTargetingPriority.
  rewrite !(Qltb_proper _ _ _ H). reflexivity.
Qed.

(** C4. The tier assigned to an entity is CRITICAL iff its margin is below
    1, HIGH iff it is in [1, 2.5), MEDIUM iff it is in [2.5, 5), and the
    lowest tier (TIER_4_LOW, or LOW when no margin is on file) otherwise;
    two entities with identical margins get the same tier whatever else
    (party, holdings, votes, scores) differs between them. *)
Theorem tier_is_a_function_of_margin :
  (forall (this : Instance) (td : TD),
      (tier_of this td = "TIER_1_CRITICAL"
       <-> exists m, margin_of this td = Some m /\ (m < 1)%Q)
      /\ (tier_of this td = "TIER_2_HIGH"
          <-> exists m, margin_of this td = Some m /\ (1 <= m)%Q /\ (m < 2.5)%Q)
      /\ (tier_of this td = "TIER_3_MEDIUM"
          <-> exists m, margin_of this td = Some m /\ (2.5 <= m)%Q /\ (m < 5)%Q)
      /\ (tier_of this td = "TIER_4_LOW"
          <-> exists m, margin_of this td = Some m /\ (5 <= m)%Q)
      /\ (tier_of this td = "LOW" <-> margin_of this td = None))
  /\ (forall (this1 this2 : Instance) (td1 td2 : TD),
         same_margin (margin_of this1 td1) (margin_of this2 td2) ->
         tier_of this1 td1 = tier_of this2 td2).
Proof.
  split.
  - intros this td. apply tier_of_margin.
  - intros this1 this2 td1 td2. apply same_margin_same_tier.
Qed.

(** ** C7: the three-way draw *)

Lemma tendency_base_likelihood (tdInfo : TD) :
  anti_tenant_likelihood (tendency tdInfo) = number (base_likelihood (party tdInfo)).
Proof.
  unfold tendency, base_likelihood, partyVotingTendencies.
  cbn [list_to_map foldr uncurry fst snd].
  repeat match goal with
         | |- context [String.eqb (party tdInfo) ?k] =>
             rewrite lookup_insert;
             destruct (String.eqb_spec (party tdInfo) k) as [->|?];
             [rewrite decide_True by reflexivity; reflexivity
             |rewrite decide_False by congruence]
         end.
  rewrite lookup_empty. reflexivity.
Qed.

Lemma base_likelihood_cases (p : string) :
  base_likelihood p = 0.7%Q \/ base_likelihood p = 0.75%Q \/ base_likelihood p = 0.8%Q
  \/ base_likelihood p = 0.3%Q \/ base_likelihood p = 0.2%Q \/ base_likelihood p = 0.6%Q.
Proof.
  unfold base_likelihood.
  repeat match goal with
         | |- context [String.eqb p ?k] => destruct (String.eqb p k); [tauto|]
         end.
  tauto.
Qed.

Ltac settle_band :=
  repeat split; intros;
  repeat match goal with
         | H : _ /\ _ |- _ => destruct H
         end;
  first [ reflexivity
        | assumption
        | match goal with
          | H : @eq string _ _ |- _ => discriminate H
          end
        | exfalso; lra ].

Lemma voteChoice_bands (L r : Q) :
  (voteChoice L r = "Against" <-> (r < L)%Q)
  /\ (voteChoice L r = "Abstain" <-> (L <= r)%Q /\ (r < fadd L (number 0.1))%Q)
  /\ (voteChoice L r = "For" <-> (L <= r)%Q /\ (fadd L (number 0.1) <= r)%Q).
Proof.
  unfold voteChoice, decide_vote.
  destruct (Qltb r L) eqn:E1; cbn [fst].
  - apply Qltb_lt in E1. settle_band.
  - apply Qltb_ge in E1. destruct (Qltb r (fadd L (number 0.1))) eqn:E2; cbn [fst].
    + apply Qltb_lt in E2. settle_band.
    + apply Qltb_ge in E2. settle_band.
Qed.

(** The likelihood is a double, so adding the band to it cannot fall below
    it. *)
Lemma adjusted_is_double (tdInfo : TD) :
  binary64 (adjustedAntiTenantLikelihood tdInfo) = adjustedAntiTenantLikelihood tdInfo.
Proof.
  unfold adjustedAntiTenantLikelihood, Qmin, GenericMinMax.gmin.
  destruct (_ ?= _)%Q; apply binary64_idem.
Qed.

Lemma number_tenth_positive : (0 < number 0.1)%Q.
Proof. vm_compute. reflexivity. Qed.

Lemma band_edge_above (L : Q) : binary64 L = L -> (L <= fadd L (number 0.1))%Q.
Proof.
  intros H. rewrite <- H at 1. unfold fadd. apply binary64_mono.
  pose proof number_tenth_positive. lra.
Qed.

Lemma adjusted_le_cap (tdInfo : TD) : (adjustedAntiTenantLikelihood tdInfo <= 0.95)%Q.
Proof.
  unfold adjustedAntiTenantLikelihood.
  apply (Qle_trans _ (number 0.95)); [apply Q.le_min_r|].
  apply Qle_bool_iff. vm_compute. reflexivity.
Qed.

Lemma propertyInfluence_nonneg (tdInfo : TD) :
  0 <= property_count (properties tdInfo) -> (0 <= propertyInfluence tdInfo)%Q.
Proof.
  intros H. unfold propertyInfluence. apply Q.min_glb.
  - unfold fmul. change 0%Q with (binary64 0). apply binary64_mono.
    apply Qmult_le_0_compat; [|apply Qlt_le_weak, number_tenth_positive].
    change 0%Q with (inject_Z 0). rewrite <- Zle_Qle. exact H.
  - apply Qle_bool_iff. vm_compute. reflexivity.
Qed.

(** From three holdings on the influence is the cap. *)
Lemma propertyInfluence_capped (tdInfo : TD) :
  3 <= property_count (properties tdInfo) -> propertyInfluence tdInfo = number 0.3.
Proof.
  intros H. unfold propertyInfluence, Qmin, GenericMinMax.gmin.
  destruct (Qcompare_spec (fmul (inject_Z (property_count (properties tdInfo))) (number 0.1))
              (number 0.3)) as [E|E|E]; [| |reflexivity].
  - apply Qred_complete in E. unfold fmul, number in E. rewrite !binary64_reduced in E.
    exact E.
  - exfalso.
    assert (Hm : (fmul 3 (number 0.1)
                  <= fmul (inject_Z (property_count (properties tdInfo))) (number 0.1))%Q).
    { unfold fmul. apply binary64_mono.
      apply Qmult_le_compat_r; [|apply Qlt_le_weak, number_tenth_positive].
      change 3%Q with (inject_Z 3). rewrite <- Zle_Qle. exact H. }
    assert (H3 : (number 0.3 <= fmul 3 (number 0.1))%Q)
      by (apply Qle_bool_iff; vm_compute; reflexivity).
    lra.
Qed.

(** A count below three is 0, 1 or 2. *)
Lemma small_count (count : Z) :
  0 <= count -> count = 0 \/ count = 1 \/ count = 2 \/ 3 <= count.
Proof. lia. Qed.

(** For non-negative holdings the likelihood is within 2^-52 of the value
    exact arithmetic gives, and is at least 0.2. *)
Lemma adjusted_near_specified (tdInfo : TD) :
  0 <= property_count (properties tdInfo) ->
  (likelihood_as_specified tdInfo - (1 # 4503599627370496)
   <= adjustedAntiTenantLikelihood tdInfo)%Q
  /\ (adjustedAntiTenantLikelihood tdInfo
      <= likelihood_as_specified tdInfo + (1 # 4503599627370496))%Q
  /\ (0.2 <= adjustedAntiTenantLikelihood tdInfo)%Q.
Proof.
  intros Hc.
  assert (Hexact : (Qmin (0.1 * inject_Z (property_count (properties tdInfo))) 0.3
                    == Qmin (0.1 * inject_Z (Z.min (property_count (properties tdInfo)) 3))
                         0.3)%Q).
  { destruct (Z.min_spec (property_count (properties tdInfo)) 3) as [[H ->]|[H ->]];
      [reflexivity|].
    rewrite !Q.min_r; [reflexivity|vm_compute; discriminate|].
    apply (Qle_trans _ (0.1 * inject_Z 3)); [vm_compute; discriminate|].
    apply Qmult_le_l; [reflexivity|]. rewrite <- Zle_Qle. exact H. }
  unfold likelihood_as_specified. rewrite Hexact.
  unfold adjustedAntiTenantLikelihood. rewrite tendency_base_likelihood.
  destruct (small_count _ Hc) as [E|[E|[E|E]]].
  1-3: unfold propertyInfluence; rewrite E;
    destruct (base_likelihood_cases (party tdInfo)) as [-> | [-> | [-> | [-> | [-> | -> ]]]]];
    repeat split; apply Qle_bool_iff; vm_compute; reflexivity.
  rewrite (propertyInfluence_capped tdInfo E).
  rewrite Z.min_r by lia.
  destruct (base_likelihood_cases (party tdInfo)) as [-> | [-> | [-> | [-> | [-> | -> ]]]]];
    repeat split; apply Qle_bool_iff; vm_compute; reflexivity.
Qed.

(** The upper edge of the abstain band is within 2^-52 of [L + 0.1]. *)
Lemma band_edge_near (L : Q) :
  (0 < L)%Q -> (L <= 0.95)%Q ->
  (L + 0.1 - (1 # 4503599627370496) <= fadd L (number 0.1))%Q
  /\ (fadd L (number 0.1) <= L + 0.1 + (1 # 4503599627370496))%Q.
Proof.
  intros H0 H1. pose proof number_tenth_positive as Ht.
  assert (Hn : (number 0.1 - 0.1 <= 1 # 144115188075855872)%Q
               /\ (0.1 - number 0.1 <= 1 # 144115188075855872)%Q)
    by (split; apply Qle_bool_iff; vm_compute; reflexivity).
  destruct Hn as [Hn1 Hn2].
  assert (Ha : (0 < L + number 0.1)%Q) by lra.
  assert (Hb : (L + number 0.1 < 2 ^ 1)%Q) by (change (2 ^ 1)%Q with 2%Q; lra).
  pose proof (binade_below _ 1 Ha Hb) as He.
  pose proof (binary64_error _ Ha) as [El Er].
  pose proof (pow2_le (binade (L + number 0.1) - 53) (-53) ltac:(lia)) as Hp.
  change (2 ^ (-53))%Q with (1 # 9007199254740992)%Q in Hp.
  unfold fadd. split; lra.
Qed.

(** ** Array.prototype.sort: sorted, a permutation, stable *)

Section ArraySort.
Context {A : Type} (cmp : A -> A -> option Q) (key : A -> Q) (good : A -> Prop).
Hypothesis cmp_key :
  forall x y, good x -> good y ->
    exists v, cmp x y = Some v /\ (v <= 0 <-> key y <= key x)%Q.

Let key_ge (a b : A) : Prop := (key b <= key a)%Q.
Let tied (v : Q) (a : A) : bool := Qeq_bool (key a) v.

Lemma sort_keeps_first_true x y :
  good x -> good y -> sort_keeps_first cmp x y = true -> (key y <= key x)%Q.
Proof.
  intros Hx Hy. unfold sort_keeps_first.
  destruct (cmp_key x y Hx Hy) as (v & -> & Hv).
  intros H. apply Qle_bool_iff in H. apply Hv. exact H.
Qed.

Lemma sort_keeps_first_false x y :
  good x -> good y -> sort_keeps_first cmp x y = false -> (key x < key y)%Q.
Proof.
  intros Hx Hy. unfold sort_keeps_first.
  destruct (cmp_key x y Hx Hy) as (v & -> & Hv).
  intros H. destruct (Qlt_le_dec (key x) (key y)) as [Hlt|Hle]; [exact Hlt|].
  assert (Hb : Qle_bool v 0 = true) by (apply Qle_bool_iff, Hv; exact Hle).
  congruence.
Qed.

Lemma sort_insert_Permutation x l : Permutation (sort_insert cmp x l) (x :: l).
Proof.
  induction l as [|y l IH]; cbn [sort_insert].
  - apply Permutation_refl.
  - destruct (sort_keeps_first cmp x y).
    + apply Permutation_refl.
    + apply (Permutation_trans (l' := y :: x :: l)).
      * apply perm_skip. exact IH.
      * apply perm_swap.
Qed.

Lemma Array_sort_Permutation l : Permutation (Array_sort cmp l) l.
Proof.
  induction l as [|x l IH]; cbn [Array_sort fold_right].
  - apply Permutation_refl.
  - apply (Permutation_trans (sort_insert_Permutation x _)).
    apply perm_skip. exact IH.
Qed.

Lemma Array_sort_good l : Forall good l -> Forall good (Array_sort cmp l).
Proof.
  intros H. apply (Permutation_Forall (Permutation_sym (Array_sort_Permutation l))).
  exact H.
Qed.

Lemma sort_insert_sorted x l :
  good x -> Forall good l ->
  StronglySorted key_ge l -> StronglySorted key_ge (sort_insert cmp x l).
Proof.
  intros Hx. induction l as [|y l IH]; intros Hl Hs; cbn [sort_insert].
  - constructor; constructor.
  - apply Forall_cons_iff in Hl. destruct Hl as [Hy Hl].
    apply StronglySorted_inv in Hs. destruct Hs as [Hs Hall].
    destruct (sort_keeps_first cmp x y) eqn:E.
    + apply sort_keeps_first_true in E; [|assumption..].
      constructor.
      * constructor; assumption.
      * constructor; [exact E|].
        rewrite List.Forall_forall in Hall. apply List.Forall_forall.
        intros z Hz. specialize (Hall z Hz). unfold key_ge in *. lra.
    + apply sort_keeps_first_false in E; [|assumption..].
      constructor.
      * apply IH; assumption.
      * apply (Permutation_Forall (Permutation_sym (sort_insert_Permutation x l))).
        constructor; [|exact Hall]. unfold key_ge. lra.
Qed.

Lemma Array_sort_sorted l :
  Forall good l -> StronglySorted key_ge (Array_sort cmp l).
Proof.
  induction l as [|x l IH]; intros Hl; cbn [Array_sort fold_right].
  - constructor.
  - apply Forall_cons_iff in Hl. destruct Hl as [Hx Hl].
    apply sort_insert_sorted; [exact Hx | apply Array_sort_good; exact Hl | apply IH; exact Hl].
Qed.

Lemma sort_insert_stable v x l :
  good x -> Forall good l ->
  List.filter (tied v) (sort_insert cmp x l) = List.filter (tied v) (x :: l).
Proof.
  intros Hx. induction l as [|y l IH]; intros Hl; cbn [sort_insert].
  - reflexivity.
  - apply Forall_cons_iff in Hl. destruct Hl as [Hy Hl].
    destruct (sort_keeps_first cmp x y) eqn:E; [reflexivity|].
    apply sort_keeps_first_false in E; [|assumption..].
    specialize (IH Hl). cbn [List.filter] in *. rewrite IH.
    destruct (tied v x) eqn:Ex; [|reflexivity].
    destruct (tied v y) eqn:Ey; [|reflexivity].
    unfold tied in Ex, Ey. apply Qeq_bool_iff in Ex, Ey. exfalso. lra.
Qed.

Lemma Array_sort_stable v l :
  Forall good l ->
  List.filter (tied v) (Array_sort cmp l) = List.filter (tied v) l.
Proof.
  induction l as [|x l IH]; intros Hl; cbn [Array_sort fold_right].
  - reflexivity.
  - apply Forall_cons_iff in Hl. destruct Hl as [Hx Hl].
    rewrite sort_insert_stable; [|exact Hx | apply Array_sort_good; exact Hl].
    cbn [List.filter]. fold (Array_sort cmp l). rewrite (IH Hl). reflexivity.
Qed.
End ArraySort.

(** Sortedness survives [filter] and [slice(0, n)]. *)
Lemma StronglySorted_filter {A} (R : A -> A -> Prop) (p : A -> bool) l :
  StronglySorted R l -> StronglySorted R (List.filter p l).
Proof.
  induction 1 as [|x l Hs IH Hall]; cbn [List.filter]; [constructor|].
  destruct (p x); [|exact IH].
  constructor; [exact IH|].
  apply List.Forall_forall. intros y Hy. apply filter_In in Hy.
  rewrite List.Forall_forall in Hall. apply Hall. apply Hy.
Qed.

Lemma StronglySorted_firstn {A} (R : A -> A -> Prop) n l :
  StronglySorted R l -> StronglySorted R (firstn n l).
Proof.
  intros Hs. revert n. induction Hs as [|x l Hs IH Hall]; intros [|n]; cbn [firstn];
    try constructor.
  - apply IH.
  - apply List.Forall_forall. intros y Hy.
    rewrite List.Forall_forall in Hall. apply Hall.
    rewrite <- (firstn_skipn n l). apply in_or_app. left. exact Hy.
Qed.

Lemma Forall_firstn {A} (P : A -> Prop) n l : Forall P l -> Forall P (firstn n l).
Proof.
  intros H. apply List.Forall_forall. intros y Hy.
  rewrite List.Forall_forall in H. apply H.
  rewrite <- (firstn_skipn n l). apply in_or_app. left. exact Hy.
Qed.

Lemma Forall_filter_bool {A} (P : A -> Prop) (p : A -> bool) l :
  Forall P l -> Forall P (List.filter p l).
Proof.
  intros H. apply List.Forall_forall. intros y Hy. apply filter_In in Hy.
  rewrite List.Forall_forall in H. apply H. apply Hy.
Qed.

Lemma filter_firstn_prefix {A} (p : A -> bool) n l :
  exists rest, List.filter p l = (List.filter p (firstn n l) ++ rest)%list.
Proof.
  exists (List.filter p (skipn n l)).
  rewrite <- List.filter_app. rewrite firstn_skipn. reflexivity.
Qed.

Lemma filter_swap {A} (p q : A -> bool) l :
  List.filter p (List.filter q l) = List.filter q (List.filter p l).
Proof.
  induction l as [|x l IH]; cbn [List.filter]; [reflexivity|].
  destruct (p x) eqn:Ep, (q x) eqn:Eq; cbn [List.filter];
    rewrite ?Ep, ?Eq, IH; reflexivity.
Qed.

(** ** The report on a database of scored entities *)

Lemma js_map_returns {A B} (f : A -> Js B) (g : A -> B) l :
  Forall (fun x => forall w, f x w = (Returned (g x), w)) l ->
  forall w, js_map f l w = (Returned (map g l), w).
Proof.
  induction 1 as [|x l Hx Hl IH]; intros w; cbn [js_map map]; [reflexivity|].
  rewrite (bind_returned _ _ _ _ _ (Hx w)).
  rewrite (bind_returned _ _ _ _ _ (IH w)). reflexivity.
Qed.

Lemma js_filter_returns {A} (p : A -> Js bool) (q : A -> bool) l :
  Forall (fun x => forall w, p x w = (Returned (q x), w)) l ->
  forall w, js_filter p l w = (Returned (List.filter q l), w).
Proof.
  induction 1 as [|x l Hx Hl IH]; intros w; cbn [js_filter List.filter]; [reflexivity|].
  rewrite (bind_returned _ _ _ _ _ (Hx w)).
  rewrite (bind_returned _ _ _ _ _ (IH w)). reflexivity.
Qed.

Lemma well_ranked_priority t :
  well_ranked t ->
  exists r s p,
    voting_record (target_td t) = Some r
    /\ hypocrisy_score r = Some s
    /\ pressure_campaign_priority r = Some p
    /\ combined_priority t = Some (double_blend s p).
Proof.
  intros [[(r & s & p & Hr & Hs & Hp) _] Ht].
  exists r, s, p. repeat split; try assumption.
  rewrite Ht. unfold target_of. cbn [combined_priority]. rewrite Hr.
  unfold combined_priority_of. rewrite Hs, Hp. reflexivity.
Qed.

Lemma by_combined_priority_rank x y :
  well_ranked x -> well_ranked y ->
  exists v, by_combined_priority x y = Some v /\ (v <= 0 <-> rank y <= rank x)%Q.
Proof.
  intros Hx Hy.
  destruct (well_ranked_priority x Hx) as (rx & sx & px & _ & _ & _ & Hcx).
  destruct (well_ranked_priority y Hy) as (ry & sy & py & _ & _ & _ & Hcy).
  unfold by_combined_priority, rank. rewrite Hcx, Hcy.
  eexists. split; [reflexivity|]. apply fsub_le_0.
Qed.

Lemma targets_well_ranked l :
  Forall scored l -> Forall well_ranked (map target_of l).
Proof.
  induction 1 as [|td l Htd Hl IH]; cbn [map]; constructor; [|exact IH].
  split; [exact Htd | reflexivity].
Qed.

Lemma prioritized_well_ranked db :
  Forall scored (landlords_of db) -> Forall well_ranked (prioritized db).
Proof.
  intros H. unfold prioritized.
  apply (Array_sort_good by_combined_priority well_ranked).
  apply targets_well_ranked. exact H.
Qed.

Lemma in_tier_returns tier l :
  Forall well_ranked l ->
  Forall (fun t => forall w, in_tier tier t w = (Returned (tier_is tier t), w)) l.
Proof.
  intros H. rewrite List.Forall_forall in *. intros t Ht w.
  destruct (H t Ht) as [[_ (e & He)] _].
  unfold in_tier, tier_is. rewrite He. reflexivity.
Qed.

Lemma generateTargetingReport_returns db w :
  Forall scored (landlords_of db) ->
  generateTargetingReport db w
  = (Returned (report_at db (clock_shows w (clock_reads w))), after_clock_read w).
Proof.
  intros Hs. unfold generateTargetingReport.
  assert (Hmap : forall w0,
             js_map (fun td => let* record := voting_record_of td in
                               ret (mkTarget td (combined_priority_of record)))
                    (landlords_of db) w0
             = (Returned (map target_of (landlords_of db)), w0)).
  { apply js_map_returns. rewrite List.Forall_forall in *. intros td Htd w0.
    destruct (Hs td Htd) as [(r & s & p & Hr & _) _].
    unfold voting_record_of, target_of, bind, ret. rewrite Hr. reflexivity. }
  assert (Hrec : forall w0,
             js_map voting_record_of (landlords_of db) w0
             = (Returned (map record_of (landlords_of db)), w0)).
  { apply js_map_returns. rewrite List.Forall_forall in *. intros td Htd w0.
    destruct (Hs td Htd) as [(r & s & p & Hr & _) _].
    unfold voting_record_of, record_of, ret. rewrite Hr. reflexivity. }
  pose proof (prioritized_well_ranked db Hs) as Hgood. unfold prioritized in Hgood.
  rewrite (bind_returned _ _ _ _ _ (Hmap w)).
  unfold bind at 1. unfold Date_toISOString at 1.
  fold (after_clock_read w).
  repeat rewrite (bind_returned _ _ _ _ _
                    (js_filter_returns _ _ _ (in_tier_returns _ _ Hgood) _)).
  rewrite (bind_returned _ _ _ _ _ (Hrec _)).
  reflexivity.
Qed.

Lemma filter_length_Permutation {A} (p : A -> bool) l l' :
  Permutation l l' -> length (List.filter p l) = length (List.filter p l').
Proof.
  induction 1 as [|x l l' _ IH|x y l|l l' l'' _ IH1 _ IH2]; cbn [List.filter].
  - reflexivity.
  - destruct (p x); cbn [length]; rewrite IH; reflexivity.
  - destruct (p x), (p y); reflexivity.
  - rewrite IH1. exact IH2.
Qed.

Lemma tier_count_prioritized tier db :
  length (List.filter (tier_is tier) (prioritized db)) = tier_count tier db.
Proof.
  unfold tier_count, prioritized.
  rewrite (filter_length_Permutation _ _ _ (Array_sort_Permutation by_combined_priority _)).
  induction (landlords_of db) as [|td l IH]; cbn [map List.filter]; [reflexivity|].
  destruct (tier_is tier (target_of td)); cbn [length]; rewrite IH; reflexivity.
Qed.

Lemma blends_are_close :
  forallb (fun s => forallb (fun p => blend_is_close (Z.of_nat s) (Z.of_nat p)) (seq 0 11))
          (seq 0 101)
  = true.
Proof. vm_compute. reflexivity. Qed.

Lemma blend_close (s p : Z) :
  in_score_range s p ->
  (double_blend s p - exact_blend s p <= 1 # 100)%Q
  /\ (exact_blend s p - double_blend s p <= 1 # 100)%Q.
Proof.
  intros [Hs Hp]. pose proof blends_are_close as H.
  rewrite forallb_forall in H. specialize (H (Z.to_nat s)).
  rewrite forallb_forall in H.
  assert (Hin : In (Z.to_nat s) (seq 0 101)) by (apply in_seq; lia).
  specialize (H Hin (Z.to_nat p)).
  assert (Hin' : In (Z.to_nat p) (seq 0 11)) by (apply in_seq; lia).
  specialize (H Hin'). rewrite !Z2Nat.id in H by lia.
  unfold blend_is_close in H. apply andb_true_iff in H. destruct H as [H1 H2].
  apply Qle_bool_iff in H1, H2. split; assumption.
Qed.

(** In range, the order of the computed blends is that of the exact ones:
    exact blends are fifths, and rounding moves a blend by far less. *)
Lemma double_blend_order (s p s' p' : Z) :
  in_score_range s p -> in_score_range s' p' ->
  (double_blend s' p' <= double_blend s p)%Q ->
  (exact_blend s' p' <= exact_blend s p)%Q.
Proof.
  intros Hr Hr' Hle.
  destruct (blend_close s p Hr) as [H1 H2].
  destruct (blend_close s' p' Hr') as [H1' H2'].
  assert (E : forall a b, (exact_blend a b == inject_Z (3 * a + 20 * b) * (1 # 5))%Q).
  { intros a b. unfold exact_blend. rewrite inject_Z_plus, !inject_Z_mult.
    change (inject_Z 3) with 3%Q. change (inject_Z 20) with 20%Q. field. }
  destruct (Z_le_gt_dec (3 * s' + 20 * p') (3 * s + 20 * p)) as [Hz|Hz].
  - rewrite !E. apply Qmult_le_compat_r; [|discriminate].
    rewrite <- Zle_Qle. exact Hz.
  - exfalso.
    assert (Hz' : (inject_Z (3 * s + 20 * p) + 1 <= inject_Z (3 * s' + 20 * p'))%Q).
    { change 1%Q with (inject_Z 1). rewrite <- inject_Z_plus, <- Zle_Qle. lia. }
    rewrite (E s p) in H1, H2. rewrite (E s' p') in H1', H2'.
    set (x := inject_Z (3 * s + 20 * p)) in *.
    set (y := inject_Z (3 * s' + 20 * p')) in *.
    lra.
Qed.

Lemma StronglySorted_impl {A} (R R' : A -> A -> Prop) (P : A -> Prop) l :
  (forall a b, P a -> P b -> R a b -> R' a b) ->
  Forall P l -> StronglySorted R l -> StronglySorted R' l.
Proof.
  intros Himpl Hall Hs. induction Hs as [|x l Hs IH Hx]; constructor.
  - apply IH. apply Forall_cons_iff in Hall. apply Hall.
  - apply Forall_cons_iff in Hall. destruct Hall as [Px Pl].
    rewrite List.Forall_forall in *. intros y Hy.
    apply Himpl; [exact Px|apply Pl, Hy|apply Hx, Hy].
Qed.

Lemma well_ranked_exactly a b :
  well_ranked a -> well_ranked b -> outranks a b -> exactly_outranks a b.
Proof.
  intros Ha Hb Hab sa pa sb pb Hsa Hsb Hra Hrb.
  destruct (well_ranked_priority a Ha) as (ra & sa' & pa' & Hr & Hs & Hp & Hc).
  destruct (well_ranked_priority b Hb) as (rb & sb' & pb' & Hr' & Hs' & Hp' & Hc').
  unfold scores_of in Hsa, Hsb. rewrite Hr, Hs, Hp in Hsa. rewrite Hr', Hs', Hp' in Hsb.
  injection Hsa as -> ->. injection Hsb as -> ->.
  apply double_blend_order; [assumption..|].
  unfold outranks, rank in Hab. rewrite Hc, Hc' in Hab. exact Hab.
Qed.

Lemma ranked_tier_list_holds tier n db :
  Forall scored (landlords_of db) ->
  ranked_tier_list tier (map target_of (landlords_of db))
    (firstn n (List.filter (tier_is tier) (prioritized db))).
Proof.
  intros Hs. pose proof (targets_well_ranked _ Hs) as Hgood.
  assert (Hsorted : StronglySorted outranks
                      (firstn n (List.filter (tier_is tier) (prioritized db)))).
  { apply StronglySorted_firstn, StronglySorted_filter.
    apply (Array_sort_sorted by_combined_priority rank well_ranked
             by_combined_priority_rank _ Hgood). }
  split.
  { apply List.Forall_forall. intros t Ht.
    assert (Hin : In t (List.filter (tier_is tier) (prioritized db))).
    { rewrite <- (firstn_skipn n (List.filter (tier_is tier) (prioritized db))).
      apply in_or_app. left. exact Ht. }
    apply filter_In in Hin. destruct Hin as [Hin Htier]. split; [exact Htier|].
    unfold prioritized in Hin.
    exact (Permutation_in _ (Array_sort_Permutation by_combined_priority _) Hin). }
  split; [exact Hsorted|]. split; [|split].
  - apply (StronglySorted_impl outranks exactly_outranks well_ranked);
      [exact well_ranked_exactly| |exact Hsorted].
    apply Forall_firstn, Forall_filter_bool, prioritized_well_ranked, Hs.
  - intros v.
    destruct (filter_firstn_prefix (ties v) n
                (List.filter (tier_is tier) (prioritized db))) as (rest & Hrest).
    exists rest. rewrite <- Hrest.
    rewrite (filter_swap (ties v) (tier_is tier) (prioritized db)).
    unfold prioritized, ties.
    rewrite (Array_sort_stable by_combined_priority rank well_ranked
               by_combined_priority_rank v _ Hgood).
    apply filter_swap.
  - apply Forall_firstn, Forall_filter_bool.
    pose proof (prioritized_well_ranked db Hs) as Hp.
    rewrite List.Forall_forall in *. intros t Ht.
    destruct (well_ranked_priority t (Hp t Ht)) as (r & s & p & Hr & Hsc & Hpr & Hc).
    exists r, s, p. repeat split; try assumption.
    unfold rank. rewrite Hc. reflexivity.
Qed.

(** C5. On every database whose landlord entities carry a numeric score
    and priority and an electoral profile the report is produced, and each
    of its tier lists is in non-increasing order of the combined priority
    as the code computes it, [(score (x) 0.6) (+) ((priority (x) 10) (x)
    0.4)] with every operation rounding to a double; entries of equal
    computed value are in load order. For scores from 0 to 100 and
    priorities from 0 to 10 the lists are also in non-increasing order of
    the exact value [0.6 * score + 0.4 * (priority * 10)]. Each list holds
    the first 5, 8 or 10 entries of its tier, all of them when the tier
    has fewer. *)
Theorem tier_lists_are_ranked :
  forall (db : TDDatabase) (w : World),
    Forall scored (landlords_of db) ->
    exists report w',
      generateTargetingReport db w = (Returned report, w')
      /\ ranked_tier_list "TIER_1_CRITICAL" (map target_of (landlords_of db))
           (tier_1_critical report)
      /\ ranked_tier_list "TIER_2_HIGH" (map target_of (landlords_of db))
           (tier_2_high report)
      /\ ranked_tier_list "TIER_3_MEDIUM" (map target_of (landlords_of db))
           (tier_3_medium report)
      /\ length (tier_1_critical report) = Nat.min 5 (tier_count "TIER_1_CRITICAL" db)
      /\ length (tier_2_high report) = Nat.min 8 (tier_count "TIER_2_HIGH" db)
      /\ length (tier_3_medium report) = Nat.min 10 (tier_count "TIER_3_MEDIUM" db).
Proof.
  intros db w Hs. eexists; eexists. split.
  - apply generateTargetingReport_returns. exact Hs.
  - cbn [tier_1_critical tier_2_high tier_3_medium report_at].
    split; [apply ranked_tier_list_holds; exact Hs|].
    split; [apply ranked_tier_list_holds; exact Hs|].
    split; [apply ranked_tier_list_holds; exact Hs|].
    rewrite !length_firstn, !tier_count_prioritized. repeat split; reflexivity.
Qed.

(** Ahern (score 23, priority 1) and Casey (score 3, priority 4) have the
    same combined priority in exact arithmetic and are loaded in this
    order, yet the report lists Casey first: the doubles computed for them
    are 17.799999999999997 and 17.8. *)
Lemma exact_ties_leave_load_order :
  (exact_blend 23 1 == exact_blend 3 4)%Q
  /\ map (fun entry => last_name (snd entry)) (tds drifting_database) = ["Ahern"; "Casey"]
  /\ exists report w',
       generateTargetingReport drifting_database (world_at noon) = (Returned report, w')
       /\ map (fun t => last_name (target_td t)) (tier_2_high report) = ["Casey"; "Ahern"]
       /\ map scores_of (tier_2_high report) = [Some (3, 4); Some (23, 1)].
Proof.
  split; [vm_compute; reflexivity|]. split; [reflexivity|].
  eexists; eexists. split; [vm_compute; reflexivity|].
  split; reflexivity.
Qed.

(** ** C8: an entity without electoral data *)

Lemma In_firstn {A} (x : A) n l : In x (firstn n l) -> In x l.
Proof.
  intros H. rewrite <- (firstn_skipn n l). apply in_or_app. left. exact H.
Qed.

Lemma tier_list_members tier n db t :
  In t (firstn n (List.filter (tier_is tier) (prioritized db))) ->
  exists e, electoral_data (target_td t) = Some e /\ targeting_priority e = tier.
Proof.
  intros H. apply In_firstn in H. apply filter_In in H. destruct H as [_ H].
  unfold tier_is in H. destruct (electoral_data (target_td t)) as [e|]; [|discriminate].
  exists e. split; [reflexivity|]. apply String.eqb_eq. exact H.
Qed.

Lemma addElectoralTargeting_unknown this td :
  margin_of this td = None ->
  addElectoralTargeting this td
  = mkElectoralTargeting None "UNKNOWN" None "LOW" "RESEARCH_NEEDED" None.
Proof.
  unfold margin_of, addElectoralTargeting.
  destruct (electoral_entry this (constituency td)); [discriminate | reflexivity].
Qed.

(** C8, as the code has it. An entity whose constituency has no electoral
    entry is classified UNKNOWN / LOW with no margin, no votes-to-flip and
    no swing figure; the report still counts it among the landlord
    entities and in both averages, but lists it in none of its three tier
    lists. *)
Theorem unknown_margin_entity_is_counted_not_listed :
  forall (this : Instance) (td : TD) (db : TDDatabase) (w : World),
    margin_of this td = None ->
    electoral_data td = Some (addElectoralTargeting this td) ->
    In td (landlords_of db) ->
    Forall scored (landlords_of db) ->
    (et_vulnerability_level (addElectoralTargeting this td) = "UNKNOWN"
     /\ targeting_priority (addElectoralTargeting this td) = "LOW"
     /\ last_election_margin (addElectoralTargeting this td) = None
     /\ votes_needed_to_flip (addElectoralTargeting this td) = None
     /\ et_swing_required (addElectoralTargeting this td) = None)
    /\ exists report w',
         generateTargetingReport db w = (Returned report, w')
         /\ ~ listed_in_report td report
         /\ total_landlord_tds (report_metadata report)
            = Z.of_nat (length (landlords_of db))
         /\ average_hypocrisy_score (summary_stats report)
            = average (map hypocrisy_score (map record_of (landlords_of db)))
                      (length (landlords_of db))
         /\ average_anti_tenant_votes (summary_stats report)
            = average (map (fun r => Some (anti_tenant_votes (housing_votes r)))
                           (map record_of (landlords_of db)))
                      (length (landlords_of db)).
Proof.
  intros this td db w Hm He Hin Hs.
  pose proof (addElectoralTargeting_unknown this td Hm) as Hu.
  rewrite Hu in *. split; [repeat split|].
  eexists; eexists. split; [apply generateTargetingReport_returns; exact Hs|].
  split; [|split; [|split]; reflexivity].
  intros (t & Ht & Hlist).
  cbn [tier_1_critical tier_2_high tier_3_medium report_at] in Hlist.
  destruct Hlist as [H|[H|H]];
    apply tier_list_members in H; destruct H as (e & He' & Hp);
    rewrite Ht, He in He'; injection He' as <-; discriminate Hp.
Qed.

Lemma sourced_database_scored : Forall scored (landlords_of sourced_database).
Proof.
  repeat constructor;
    first [ do 3 eexists; repeat split; reflexivity
          | eexists; reflexivity ].
Qed.

(** C8 as stated fails: the only landlord of this database has no
    electoral entry, and the report lists it nowhere. *)
Lemma entity_without_margin_is_not_listed :
  margin_of (sample_instance []) td_grealish = None
  /\ hypocrisy_score (record_of grealish_integrated) = Some 40
  /\ exists report,
       fst (generateTargetingReport unlisted_database
              (world_at "2025-08-20T15:00:00.000Z")) = Returned report
       /\ tier_1_critical report = []
       /\ tier_2_high report = []
       /\ tier_3_medium report = []
       /\ ~ listed_in_report grealish_integrated report.
Proof.
  split; [reflexivity|]. split; [reflexivity|].
  eexists. split; [vm_compute; reflexivity|].
  split; [reflexivity|]. split; [reflexivity|]. split; [reflexivity|].
  intros (t & _ & [H|[H|H]]); exact H.
Qed.

(** ** C9: two runs of the report *)

(** C9 as stated fails: the same database reported at two clock readings
    gives two different reports. *)
Lemma reports_differ_in_timestamp :
  fst (generateTargetingReport sourced_database (world_at "2025-08-20T15:00:00.000Z"))
  <> fst (generateTargetingReport sourced_database (world_at "2025-08-20T15:00:00.001Z")).
Proof.
  rewrite !(generateTargetingReport_returns _ _ sourced_database_scored).
  cbn [fst world_at clock_shows clock_reads]. intros H.
  apply (f_equal (fun o => match o with
                           | Returned r => generated_at (report_metadata r)
                           | Thrown _ => ""
                           end)) in H.
  discriminate H.
Qed.

Lemma blind_ret {A} (a : A) : world_blind (ret a).
Proof. intros w. split; [reflexivity | intros w'; reflexivity]. Qed.

Lemma blind_throw {A} (e : JsError) : world_blind (@throw A e).
Proof. intros w. split; [reflexivity | intros w'; reflexivity]. Qed.

Lemma blind_bind {A B} (c : Js A) (k : A -> Js B) :
  world_blind c -> (forall a, world_blind (k a)) -> world_blind (bind c k).
Proof.
  intros Hc Hk w. unfold bind. split.
  - destruct (Hc w) as [Hw _]. destruct (c w) as [[a|e] w0]; cbn [snd] in Hw; subst w0.
    + apply Hk.
    + reflexivity.
  - intros w'.
    destruct (Hc w) as [Hw Hout]. specialize (Hout w').
    destruct (Hc w') as [Hw' _].
    destruct (c w) as [[a|e] w0], (c w') as [[a'|e'] w0'];
      cbn [fst snd] in *; subst; try discriminate.
    + injection Hout as ->. apply Hk.
    + injection Hout as ->. reflexivity.
Qed.

Lemma blind_js_map {A B} (f : A -> Js B) l :
  (forall x, world_blind (f x)) -> world_blind (js_map f l).
Proof.
  intros Hf. induction l as [|x l IH]; cbn [js_map].
  - apply blind_ret.
  - apply blind_bind; [apply Hf|]. intros y.
    apply blind_bind; [exact IH|]. intros ys. apply blind_ret.
Qed.

Lemma blind_js_filter {A} (p : A -> Js bool) l :
  (forall x, world_blind (p x)) -> world_blind (js_filter p l).
Proof.
  intros Hp. induction l as [|x l IH]; cbn [js_filter].
  - apply blind_ret.
  - apply blind_bind; [apply Hp|]. intros keep.
    apply blind_bind; [exact IH|]. intros ys. apply blind_ret.
Qed.

Lemma blind_voting_record_of td : world_blind (voting_record_of td).
Proof.
  unfold voting_record_of. destruct (voting_record td); [apply blind_ret | apply blind_throw].
Qed.

Lemma blind_in_tier tier t : world_blind (in_tier tier t).
Proof.
  unfold in_tier. destruct (electoral_data (target_td t)); [apply blind_ret | apply blind_throw].
Qed.

Lemma related_bind {A B} (R : Outcome B -> Outcome B -> Prop) (c : Js A)
    (k1 k2 : A -> Js B) :
  world_blind c ->
  (forall e, R (Thrown e) (Thrown e)) ->
  (forall a, related R (k1 a) (k2 a)) ->
  related R (bind c k1) (bind c k2).
Proof.
  intros Hc Hthrow Hk w1 w2. unfold bind.
  destruct (Hc w1) as [_ Hout]. specialize (Hout w2).
  destruct (c w1) as [[a|e] w1'], (c w2) as [[a'|e'] w2'];
    cbn [fst] in Hout; try discriminate.
  - injection Hout as ->. apply Hk.
  - injection Hout as ->. cbn [fst]. apply Hthrow.
Qed.

Lemma keeps_draws_blind {A} (c : Js A) : world_blind c -> keeps_draws c.
Proof. intros Hc w. destruct (Hc w) as [-> _]. reflexivity. Qed.

Lemma keeps_draws_bind {A B} (c : Js A) (k : A -> Js B) :
  keeps_draws c -> (forall a, keeps_draws (k a)) -> keeps_draws (bind c k).
Proof.
  intros Hc Hk w. unfold bind. specialize (Hc w).
  destruct (c w) as [[a|e] w0]; cbn [snd] in *.
  - rewrite Hk. exact Hc.
  - exact Hc.
Qed.

Lemma related_clock {B} (R : Outcome B -> Outcome B -> Prop) (k : string -> Js B) :
  (forall now1 now2, related R (k now1) (k now2)) ->
  related R (bind Date_toISOString k) (bind Date_toISOString k).
Proof. intros H w1 w2. unfold bind, Date_toISOString. apply H. Qed.

Lemma fst_bind_blind {A B} (c : Js A) (k : A -> Js B) w1 w2 :
  world_blind c ->
  (forall a, fst (k a w1) = fst (k a w2)) ->
  fst (bind c k w1) = fst (bind c k w2).
Proof.
  intros Hc Hk. unfold bind.
  destruct (Hc w1) as [Hw1 Hout]. specialize (Hout w2).
  destruct (Hc w2) as [Hw2 _].
  destruct (c w1) as [[a|e] w1'], (c w2) as [[a'|e'] w2'];
    cbn [fst snd] in *; subst; try discriminate.
  - injection Hout as ->. apply Hk.
  - injection Hout as ->. reflexivity.
Qed.

Lemma fst_bind_clock {B} (k : string -> Js B) w1 w2 :
  (forall now, world_blind (k now)) ->
  clock_shows w1 (clock_reads w1) = clock_shows w2 (clock_reads w2) ->
  fst (bind Date_toISOString k w1) = fst (bind Date_toISOString k w2).
Proof.
  intros Hk Hnow. unfold bind, Date_toISOString. rewrite Hnow.
  destruct (Hk (clock_shows w2 (clock_reads w2))
              (mkWorld (random_draws w2) (draws_taken w2) (clock_shows w2)
                 (S (clock_reads w2)))) as [_ H].
  apply H.
Qed.

Lemma returns_with_bind {A B} (P : B -> Prop) (c : Js A) (k : A -> Js B) :
  (forall a, returns_with P (k a)) -> returns_with P (bind c k).
Proof.
  intros Hk w b. unfold bind. destruct (c w) as [[a|e] w'].
  - apply Hk.
  - discriminate.
Qed.

Lemma returns_with_ret {A} (P : A -> Prop) (a : A) : P a -> returns_with P (ret a).
Proof. intros H w b Hb. injection Hb as <-. exact H. Qed.

(** The part of the report that follows the clock reading. *)
Ltac report_tail :=
  repeat first
    [ apply blind_bind; [|intros ?]
    | apply blind_js_filter; intros ?; apply blind_in_tier
    | apply blind_js_map; intros ?; apply blind_voting_record_of
    | apply blind_ret ].

Lemma blind_report_head db :
  world_blind
    (js_map (fun td => let* record := voting_record_of td in
                       ret (mkTarget td (combined_priority_of record)))
            (landlords_of db)).
Proof.
  apply blind_js_map. intros td.
  apply blind_bind; [apply blind_voting_record_of | intros r; apply blind_ret].
Qed.

Lemma report_same_up_to_timestamp db :
  related same_up_to_timestamp (generateTargetingReport db) (generateTargetingReport db).
Proof.
  unfold generateTargetingReport.
  apply related_bind; [apply blind_report_head | intros e; reflexivity |].
  intros mapped. apply related_clock. intros now1 now2.
  repeat (apply related_bind;
          [ first [ apply blind_js_filter; intros ?; apply blind_in_tier
                  | apply blind_js_map; intros ?; apply blind_voting_record_of ]
          | intros e; reflexivity
          | intros ? ]).
  intros w1 w2. reflexivity.
Qed.

Lemma report_same_at_same_time db w1 w2 :
  clock_shows w1 (clock_reads w1) = clock_shows w2 (clock_reads w2) ->
  fst (generateTargetingReport db w1) = fst (generateTargetingReport db w2).
Proof.
  intros Hnow. unfold generateTargetingReport.
  apply fst_bind_blind; [apply blind_report_head|].
  intros mapped. apply fst_bind_clock; [|exact Hnow].
  intros now. report_tail.
Qed.

Lemma report_keeps_draws db : keeps_draws (generateTargetingReport db).
Proof.
  unfold generateTargetingReport.
  apply keeps_draws_bind; [apply keeps_draws_blind, blind_report_head|].
  intros mapped. apply keeps_draws_bind; [intros w; reflexivity|].
  intros now. apply keeps_draws_blind. report_tail.
Qed.

Lemma returns_bind_blind {A B} (c : Js A) (k : A -> Js B) w b (P : Prop) :
  world_blind c ->
  (forall a, fst (k a w) = Returned b -> P) ->
  fst (bind c k w) = Returned b -> P.
Proof.
  intros Hc Hk. unfold bind. destruct (Hc w) as [Hw _].
  destruct (c w) as [[a|e] w']; cbn [snd] in Hw; subst w'.
  - apply Hk.
  - discriminate.
Qed.

Lemma returns_with_clock {B} (P : string -> B -> Prop) (k : string -> Js B) :
  (forall now, returns_with (P now) (k now)) ->
  forall w b,
    fst (bind Date_toISOString k w) = Returned b ->
    P (clock_shows w (clock_reads w)) b.
Proof. intros Hk w b. unfold bind, Date_toISOString. apply Hk. Qed.

Lemma report_stamp db w report :
  fst (generateTargetingReport db w) = Returned report ->
  generated_at (report_metadata report) = clock_shows w (clock_reads w).
Proof.
  unfold generateTargetingReport.
  apply (returns_bind_blind _ _ _ _ _ (blind_report_head db)).
  intros mapped.
  apply (returns_with_clock (fun now r => generated_at (report_metadata r) = now)).
  intros now. repeat (apply returns_with_bind; intros ?).
  apply returns_with_ret. reflexivity.
Qed.

(** C9, as the code has it. Two runs of the report on the same database
    agree on everything but [generated_at], which is the clock reading of
    the run; no random draw is consumed; runs at the same clock reading
    give the same report. *)
Theorem report_is_deterministic_up_to_timestamp :
  forall (db : TDDatabase) (w1 w2 : World),
    same_up_to_timestamp (fst (generateTargetingReport db w1))
                         (fst (generateTargetingReport db w2))
    /\ draws_taken (snd (generateTargetingReport db w1)) = draws_taken w1
    /\ (forall report,
           fst (generateTargetingReport db w1) = Returned report ->
           generated_at (report_metadata report) = clock_shows w1 (clock_reads w1))
    /\ (clock_shows w1 (clock_reads w1) = clock_shows w2 (clock_reads w2) ->
        fst (generateTargetingReport db w1) = fst (generateTargetingReport db w2)).
Proof.
  intros db w1 w2. split; [apply report_same_up_to_timestamp|].
  split; [apply report_keeps_draws|]. split; [|apply report_same_at_same_time].
  apply report_stamp.
Qed.

(** ** C6: an entity without holdings *)

(** C6 as stated fails: this entity has no holdings, no office and a
    margin of 7.5, is scored 0, and leaves integration with no electoral
    profile, hence with no tier. *)
Lemma zero_holding_entity_gets_no_tier :
  property_count (properties td_tenant) = 0
  /\ margin_of (sample_instance []) td_tenant = Some 7.5%Q
  /\ exists meta td',
       fst (integrateVotingRecords (sample_instance [("Aoife Murphy", td_tenant)])
              (world_at noon))
       = Returned (mkTDDatabase meta [("Aoife Murphy", td')])
       /\ (exists r, voting_record td' = Some r /\ hypocrisy_score r = Some 0)
       /\ electoral_data td' = None
       /\ ~ low_or_unknown_tier td'.
Proof.
  split; [reflexivity|]. split; [reflexivity|].
  eexists; eexists. split; [reflexivity|].
  split; [eexists; split; reflexivity|]. split; [reflexivity|].
  intros (e & He & _). discriminate He.
Qed.

(** C6, as the code has it. An entity with holding count 0, whose holder
    flag is therefore unset, leaves integration with the clean record:
    score 0 whatever its party and whatever votes are on file for it, and
    with its electoral profile untouched, so that no tier is assigned; the
    tier function itself maps a margin of 5 or more to TIER_4_LOW and a
    missing margin to LOW. *)
Theorem zero_holding_entity_is_clean :
  forall (this : Instance) (tdName : string) (td : TD) (w : World),
    property_count (properties td) = 0 ->
    flag_derived td ->
    (exists td' w',
        integrate_td this (tdName, td) w = (Returned (tdName, td'), w')
        /\ (exists r, voting_record td' = Some r
                      /\ hypocrisy_score r = Some 0
                      /\ verification_status r = "NON_LANDLORD_CLEAN")
        /\ electoral_data td' = electoral_data td
        /\ party td' = party td
        /\ properties td' = properties td)
    /\ (forall m, margin_of this td = Some m -> (5 <= m)%Q ->
                  tier_of this td = "TIER_4_LOW")
    /\ (margin_of this td = None -> tier_of this td = "LOW").
Proof.
  intros this tdName td w Hc Hf. unfold flag_derived in Hf. rewrite Hc in Hf.
  cbn in Hf. split; [|split].
  - rewrite (integrate_td_non_landlord this tdName td w Hf).
    eexists; eexists. split; [reflexivity|].
    split; [eexists; repeat split; reflexivity|].
    repeat split; reflexivity.
  - intros m Hm Hge. apply tier_of_margin. exists m. split; assumption.
  - intros Hm. apply tier_of_margin. exact Hm.
Qed.

(** ** C10: the weights of the slate *)

Lemma electoral_entry_same this1 this2 c :
  electoralData this1 = electoralData this2 ->
  electoral_entry this1 c = electoral_entry this2 c.
Proof. intros H. unfold electoral_entry. rewrite H. reflexivity. Qed.

Lemma scores_ignore_slate this1 this2 votingData tdInfo :
  electoralData this1 = electoralData this2 ->
  calculateEnhancedHypocrisyScore this1 votingData tdInfo
  = calculateEnhancedHypocrisyScore this2 votingData tdInfo
  /\ calculatePressurePriority this1 votingData tdInfo
     = calculatePressurePriority this2 votingData tdInfo.
Proof.
  intros H. unfold calculateEnhancedHypocrisyScore, calculatePressurePriority.
  rewrite (electoral_entry_same this1 this2 _ H). split; reflexivity.
Qed.

Lemma vote_loop_ignores_weights adjusted slate1 slate2 :
  Forall2 same_up_to_weight slate1 slate2 ->
  forall t1 t2 w,
    same_tally_up_to_weight t1 t2 ->
    exists t1' t2' w',
      vote_loop adjusted slate1 t1 w = (Returned t1', w')
      /\ vote_loop adjusted slate2 t2 w = (Returned t2', w')
      /\ same_tally_up_to_weight t1' t2'.
Proof.
  induction 1 as [|v1 v2 rest1 rest2 Hv Hrest IH]; intros t1 t2 w Ht;
    cbn [vote_loop].
  - exists t1, t2, w. repeat split; try reflexivity; apply Ht.
  - rewrite (bind_returned _ _ _ _ _ (cast_vote_returns adjusted v1 t1 w)).
    rewrite (bind_returned _ _ _ _ _ (cast_vote_returns adjusted v2 t2 w)).
    apply IH.
    destruct Ht as (Ha & Hp & Hc & Hh).
    destruct Hv as (_ & _ & _ & _ & Hstance & _).
    unfold same_tally_up_to_weight. cbn [votes antiTenantVotes proTenantVotes].
    rewrite Ha, Hp, !map_app, Hc, Hh, Hstance. repeat split; reflexivity.
Qed.

Lemma generateRealisticVotingPattern_ignores_weights this1 this2 td w :
  differ_only_in_weights this1 this2 ->
  generateRealisticVotingPattern this1 td w = generateRealisticVotingPattern this2 td w.
Proof.
  intros (_ & _ & _ & _ & Hslate).
  destruct (vote_loop_ignores_weights (adjustedAntiTenantLikelihood td) _ _ Hslate
              (mkTally [] 0 0) (mkTally [] 0 0) w) as (t1 & t2 & w' & H1 & H2 & _).
  { repeat split; reflexivity. }
  unfold generateRealisticVotingPattern.
  rewrite (bind_returned _ _ _ _ _ H1), (bind_returned _ _ _ _ _ H2). reflexivity.
Qed.

Lemma integrate_td_ignores_weights this1 this2 entry w :
  differ_only_in_weights this1 this2 ->
  integrate_td this1 entry w = integrate_td this2 entry w.
Proof.
  intros Hd. destruct entry as [tdName td]. unfold integrate_td.
  destruct (landlord_status (properties td)); [|reflexivity].
  assert (Hex : existing_vote_data this1 tdName = existing_vote_data this2 tdName).
  { destruct Hd as (_ & He & _). unfold existing_vote_data. rewrite He. reflexivity. }
  rewrite Hex. destruct (existing_vote_data this2 tdName) as [data|].
  - rewrite !(bind_thrown _ _ _ _ _ (enhanceVotingRecord_throws _ data td w)).
    reflexivity.
  - unfold bind. rewrite (generateRealisticVotingPattern_ignores_weights _ _ td w Hd).
    destruct (generateRealisticVotingPattern_throws this2 td w) as (w' & ->).
    reflexivity.
Qed.

(** C10. Two instances that differ only in the weights of their slates
    compute the same inconsistency score and the same priority score for
    every entity and tally; the synthesizer casts the same votes and
    counts the same tallies on the same draws, so the priority of the
    synthesized path is the same too, and so is the outcome of integrating
    any entity. *)
Theorem weights_do_not_affect_scores :
  forall (this1 this2 : Instance),
    differ_only_in_weights this1 this2 ->
    (forall votingData tdInfo,
        calculateEnhancedHypocrisyScore this1 votingData tdInfo
        = calculateEnhancedHypocrisyScore this2 votingData tdInfo
        /\ calculatePressurePriority this1 votingData tdInfo
           = calculatePressurePriority this2 votingData tdInfo)
    /\ (forall adjusted tdInfo w,
           exists t1 t2 w',
             vote_loop adjusted (housingVoteTargets this1) (mkTally [] 0 0) w
             = (Returned t1, w')
             /\ vote_loop adjusted (housingVoteTargets this2) (mkTally [] 0 0) w
                = (Returned t2, w')
             /\ same_tally_up_to_weight t1 t2
             /\ calculatePressurePriority this1
                  (mkVotingData None None (Some (antiTenantVotes t1)) None None None) tdInfo
                = calculatePressurePriority this2
                    (mkVotingData None None (Some (antiTenantVotes t2)) None None None) tdInfo)
    /\ (forall entry w, integrate_td this1 entry w = integrate_td this2 entry w).
Proof.
  intros this1 this2 Hd. split; [|split].
  - intros votingData tdInfo. apply scores_ignore_slate. apply Hd.
  - intros adjusted tdInfo w.
    destruct Hd as (_ & _ & Hel & _ & Hslate).
    destruct (vote_loop_ignores_weights adjusted _ _ Hslate
                (mkTally [] 0 0) (mkTally [] 0 0) w) as (t1 & t2 & w' & H1 & H2 & Ht).
    { repeat split; reflexivity. }
    exists t1, t2, w'. repeat split; try assumption; try apply Ht.
    destruct Ht as (-> & _). apply scores_ignore_slate. exact Hel.
  - intros entry w. apply integrate_td_ignores_weights. exact Hd.
Qed.

(** ** The theorems at concrete inputs *)

Lemma landlord_entity_raises_TypeError_witness :
  exists msg w',
    integrateVotingRecords (sample_instance [("Colm Burke", td_burke)]) (world_at noon)
    = (Thrown (TypeError msg), w')
    /\ undeclared_method_message msg.
Proof.
  refine (proj1 (landlord_entity_raises_TypeError
                   (sample_instance [("Colm Burke", td_burke)])
                   (sample_database [("Colm Burke", td_burke)])
                   (world_at noon) _ _)).
  - reflexivity.
  - apply Exists_cons_hd. reflexivity.
Defined.

Lemma scores_are_clamped_witness :
  (exists score,
      calculateEnhancedHypocrisyScore (sample_instance []) burke_votes td_burke = Some score
      /\ 0 <= score <= 100)
  /\ 0 <= Extractor.calculateHypocrisyScore Extractor.priorityLandlordTDs burke_summary <= 100
  /\ 1 <= calculatePressurePriority (sample_instance []) burke_votes td_burke <= 10.
Proof.
  apply (scores_are_clamped (sample_instance []) burke_votes td_burke 3
           Extractor.priorityLandlordTDs burke_summary).
  - vm_compute. discriminate.
  - reflexivity.
  - lia.
  - intros h H. injection H as <-. lia.
  - vm_compute. discriminate.
  - vm_compute. discriminate.
  - vm_compute. discriminate.
Defined.

Lemma tier_is_a_function_of_margin_witness :
  tier_of (sample_instance []) td_burke = tier_of (sample_instance []) td_cork_other.
Proof.
  apply (proj2 tier_is_a_function_of_margin).
  vm_compute. reflexivity.
Defined.

Lemma tier_lists_are_ranked_witness :
  exists report w',
    generateTargetingReport tied_database (world_at noon) = (Returned report, w')
    /\ ranked_tier_list "TIER_1_CRITICAL" (map target_of (landlords_of tied_database))
         (tier_1_critical report)
    /\ ranked_tier_list "TIER_2_HIGH" (map target_of (landlords_of tied_database))
         (tier_2_high report)
    /\ ranked_tier_list "TIER_3_MEDIUM" (map target_of (landlords_of tied_database))
         (tier_3_medium report)
    /\ length (tier_1_critical report)
       = Nat.min 5 (tier_count "TIER_1_CRITICAL" tied_database)
    /\ length (tier_2_high report) = Nat.min 8 (tier_count "TIER_2_HIGH" tied_database)
    /\ length (tier_3_medium report)
       = Nat.min 10 (tier_count "TIER_3_MEDIUM" tied_database).
Proof.
  apply (tier_lists_are_ranked tied_database (world_at noon)).
  repeat constructor;
    first [ do 3 eexists; repeat split; reflexivity
          | eexists; reflexivity ].
Defined.

Lemma zero_holding_entity_is_clean_witness :
  exists td' w',
    integrate_td (sample_instance []) ("Aoife Murphy", td_tenant) (world_at noon)
    = (Returned ("Aoife Murphy", td'), w')
    /\ (exists r, voting_record td' = Some r
                  /\ hypocrisy_score r = Some 0
                  /\ verification_status r = "NON_LANDLORD_CLEAN")
    /\ electoral_data td' = electoral_data td_tenant
    /\ party td' = party td_tenant
    /\ properties td' = properties td_tenant.
Proof.
  refine (proj1 (zero_holding_entity_is_clean (sample_instance []) "Aoife Murphy"
                   td_tenant (world_at noon) _ _)).
  - reflexivity.
  - reflexivity.
Defined.

Lemma unknown_margin_entity_is_counted_not_listed_witness :
  exists report w',
    generateTargetingReport unlisted_database (world_at noon) = (Returned report, w')
    /\ ~ listed_in_report grealish_integrated report
    /\ total_landlord_tds (report_metadata report)
       = Z.of_nat (length (landlords_of unlisted_database))
    /\ average_hypocrisy_score (summary_stats report)
       = average (map hypocrisy_score (map record_of (landlords_of unlisted_database)))
                 (length (landlords_of unlisted_database))
    /\ average_anti_tenant_votes (summary_stats report)
       = average (map (fun r => Some (anti_tenant_votes (housing_votes r)))
                      (map record_of (landlords_of unlisted_database)))
                 (length (landlords_of unlisted_database)).
Proof.
  refine (proj2 (unknown_margin_entity_is_counted_not_listed (sample_instance [])
                   grealish_integrated unlisted_database (world_at noon) _ _ _ _)).
  - reflexivity.
  - reflexivity.
  - left. reflexivity.
  - repeat constructor;
      first [ do 3 eexists; repeat split; reflexivity
            | eexists; reflexivity ].
Defined.

Lemma report_is_deterministic_up_to_timestamp_witness :
  erase_generated_at (fst (generateTargetingReport sourced_database (world_at noon)))
  = erase_generated_at (fst (generateTargetingReport sourced_database (world_at midnight))).
Proof.
  exact (proj1 (report_is_deterministic_up_to_timestamp sourced_database
                  (world_at noon) (world_at midnight))).
Defined.

Lemma weights_do_not_affect_scores_witness :
  calculateEnhancedHypocrisyScore (sample_instance []) burke_votes td_burke
  = calculateEnhancedHypocrisyScore reweighted_instance burke_votes td_burke
  /\ calculatePressurePriority (sample_instance []) burke_votes td_burke
     = calculatePressurePriority reweighted_instance burke_votes td_burke.
Proof.
  refine (proj1 (weights_do_not_affect_scores (sample_instance []) reweighted_instance _)
            burke_votes td_burke).
  repeat split; repeat constructor.
Defined.

(** * Further properties of the code *)

(** ** Integration of a table without landlords *)

Lemma integrate_loop_clean this entries :
  no_landlord entries ->
  forall w,
    js_map (integrate_td this) entries w
    = (Returned (cleaned (clock_shows w) (clock_reads w) entries),
       after_clock_reads (length entries) w).
Proof.
  induction 1 as [|[tdName td] rest Hl Hrest IH]; intros w; cbn [js_map cleaned length].
  - destruct w; reflexivity.
  - cbn [snd] in Hl.
    rewrite (bind_returned _ _ _ _ _ (integrate_td_non_landlord this tdName td w Hl)).
    rewrite (bind_returned _ _ _ _ _ (IH _)).
    unfold ret, after_clock_reads, clean_record. cbn [clock_shows clock_reads random_draws draws_taken].
    rewrite Nat.add_succ_r. reflexivity.
Qed.

Lemma no_landlord_dec entries :
  no_landlord entries
  \/ Exists (fun e => landlord_status (properties (snd e)) = true) entries.
Proof.
  induction entries as [|e rest IH].
  - left. constructor.
  - destruct (landlord_status (properties (snd e))) eqn:E.
    + right. apply Exists_cons_hd. exact E.
    + destruct IH as [IH|IH].
      * left. constructor; assumption.
      * right. apply Exists_cons_tl. exact IH.
Qed.

Lemma cleaned_keys shows k entries :
  map fst (cleaned shows k entries) = map fst entries.
Proof.
  revert k. induction entries as [|[n td] rest IH]; intros k; cbn [cleaned map fst].
  - reflexivity.
  - rewrite IH. reflexivity.
Qed.

Lemma cleaned_landlords shows k entries :
  no_landlord entries ->
  List.filter (fun td => landlord_status (properties td)) (map snd (cleaned shows k entries)) = [].
Proof.
  intros H. revert k. induction H as [|[n td] rest Hl Hrest IH]; intros k;
    cbn [cleaned map snd List.filter].
  - reflexivity.
  - cbn [snd] in Hl. cbn [set_voting_record properties]. rewrite Hl. apply IH.
Qed.

Lemma cleaned_scores shows k entries :
  Forall (fun e => score_of (snd e) = Some 0) (cleaned shows k entries).
Proof.
  revert k. induction entries as [|[n td] rest IH]; intros k; cbn [cleaned]; constructor.
  - reflexivity.
  - apply IH.
Qed.

Lemma integrateVotingRecords_clean this db w :
  completeTDDatabase this = Some db ->
  no_landlord (tds db) ->
  integrateVotingRecords this w
  = (Returned
       (mkTDDatabase
          (mkMetadata (Some "ENHANCED_INTEGRATION_COMPLETE")
             (Some (clock_shows w (clock_reads w)))
             (Some (Z.of_nat (length (landlordTDs this)))))
          (cleaned (clock_shows w) (S (clock_reads w)) (tds db))),
     after_clock_reads (S (length (tds db))) w).
Proof.
  intros Hdb Hno. unfold integrateVotingRecords. rewrite Hdb.
  unfold bind at 1. unfold Date_toISOString at 1.
  rewrite (bind_returned _ _ _ _ _ (integrate_loop_clean this (tds db) Hno _)).
  unfold ret, after_clock_reads. cbn [clock_shows clock_reads random_draws draws_taken].
  rewrite Nat.add_succ_r. reflexivity.
Qed.

Lemma integrateVotingRecords_needs_no_landlord this db w :
  completeTDDatabase this = Some db ->
  (exists db' w', integrateVotingRecords this w = (Returned db', w')) ->
  no_landlord (tds db).
Proof.
  intros Hdb (db' & w' & Hret).
  destruct (no_landlord_dec (tds db)) as [Hno|Hex]; [exact Hno|].
  exfalso. unfold integrateVotingRecords in Hret. rewrite Hdb in Hret.
  unfold bind at 1 in Hret. unfold Date_toISOString at 1 in Hret.
  destruct (integrate_loop_throws this (tds db) Hex
              (mkWorld (random_draws w) (draws_taken w) (clock_shows w)
                 (S (clock_reads w)))) as (msg & w0 & Hthrow & _).
  rewrite (bind_thrown _ _ _ _ _ Hthrow) in Hret. discriminate Hret.
Qed.

(** X1. With a database loaded, [integrateVotingRecords] returns exactly
    when no entity is a landlord; it then keeps every entity under its key
    and in its place, gives each the clean record (score 0) stamped with
    its own clock reading, marks the metadata complete, reads the clock
    once per entity plus once, and consumes no random draw. *)
Theorem integration_returns_iff_no_landlord :
  forall (this : Instance) (db : TDDatabase) (w : World),
    completeTDDatabase this = Some db ->
    ((exists db' w', integrateVotingRecords this w = (Returned db', w'))
     <-> no_landlord (tds db))
    /\ (no_landlord (tds db) ->
        integrateVotingRecords this w
        = (Returned
             (mkTDDatabase
                (mkMetadata (Some "ENHANCED_INTEGRATION_COMPLETE")
                   (Some (clock_shows w (clock_reads w)))
                   (Some (Z.of_nat (length (landlordTDs this)))))
                (cleaned (clock_shows w) (S (clock_reads w)) (tds db))),
           after_clock_reads (S (length (tds db))) w)).
Proof.
  intros this db w Hdb. split; [split|].
  - apply integrateVotingRecords_needs_no_landlord. exact Hdb.
  - intros Hno. eexists; eexists.
    exact (integrateVotingRecords_clean this db w Hdb Hno).
  - apply integrateVotingRecords_clean. exact Hdb.
Qed.

Lemma integration_returns_iff_no_landlord_witness :
  exists db' w',
    integrateVotingRecords (sample_instance [("Aoife Murphy", td_tenant)]) (world_at noon)
    = (Returned db', w').
Proof.
  apply (proj1 (integration_returns_iff_no_landlord
                  (sample_instance [("Aoife Murphy", td_tenant)])
                  (sample_database [("Aoife Murphy", td_tenant)])
                  (world_at noon) eq_refl)).
  repeat constructor.
Defined.

(** ** A whole run *)

Lemma report_without_landlords db w :
  landlords_of db = [] ->
  generateTargetingReport db w
  = (Returned (empty_report (clock_shows w (clock_reads w))), after_clock_read w).
Proof.
  intros H. unfold generateTargetingReport. rewrite H. reflexivity.
Qed.

(** X2. With a database loaded, a run of integration followed by the
    report returns exactly when no entity is a landlord; whenever it
    returns, the report counts no landlord, lists nobody, has NaN averages,
    and every entity of the integrated database is scored 0 under its
    original key. *)
Theorem successful_run_reports_nothing :
  forall (this : Instance) (db : TDDatabase) (w : World),
    completeTDDatabase this = Some db ->
    ((exists out w', executeIntegration this w = (Returned out, w'))
     <-> no_landlord (tds db))
    /\ (forall db' report w',
           executeIntegration this w = (Returned (db', report), w') ->
           report = empty_report (clock_shows w (S (length (tds db)) + clock_reads w))
           /\ average_hypocrisy_score (summary_stats report) = None
           /\ total_landlord_tds (report_metadata report) = 0
           /\ map fst (tds db') = map fst (tds db)
           /\ Forall (fun e => score_of (snd e) = Some 0) (tds db')
           /\ draws_taken w' = draws_taken w).
Proof.
  intros this db w Hdb.
  pose proof (integrateVotingRecords_clean this db w Hdb) as Hclean.
  pose proof (integrateVotingRecords_needs_no_landlord this db w Hdb) as Hiff.
  assert (Hrun : no_landlord (tds db) ->
            executeIntegration this w
            = (Returned
                 (mkTDDatabase
                    (mkMetadata (Some "ENHANCED_INTEGRATION_COMPLETE")
                       (Some (clock_shows w (clock_reads w)))
                       (Some (Z.of_nat (length (landlordTDs this)))))
                    (cleaned (clock_shows w) (S (clock_reads w)) (tds db)),
                  empty_report (clock_shows w (S (length (tds db)) + clock_reads w))),
               after_clock_read (after_clock_reads (S (length (tds db))) w))).
  { intros Hno. unfold executeIntegration.
    rewrite (bind_returned _ _ _ _ _ (Hclean Hno)).
    rewrite (bind_returned _ _ _ _ _
               (report_without_landlords
                  (mkTDDatabase _ (cleaned (clock_shows w) (S (clock_reads w)) (tds db))) _
                  (cleaned_landlords _ _ _ Hno))).
    reflexivity. }
  assert (Hneeds : (exists out w', executeIntegration this w = (Returned out, w')) ->
                   no_landlord (tds db)).
  { intros (out & w' & Hret). apply Hiff.
    unfold executeIntegration, bind in Hret.
    destruct (integrateVotingRecords this w) as [[db'|e] w0] eqn:E.
    - exists db', w0. reflexivity.
    - discriminate Hret. }
  split.
  - split; [exact Hneeds|]. intros Hno. eexists; eexists. apply Hrun. exact Hno.
  - intros db' report w' Hret.
    assert (Hno : no_landlord (tds db)) by (apply Hneeds; eauto).
    rewrite (Hrun Hno) in Hret. injection Hret as <- <- <-.
    repeat split.
    + apply cleaned_keys.
    + apply cleaned_scores.
Qed.

Lemma successful_run_reports_nothing_witness :
  exists out w',
    executeIntegration (sample_instance [("Aoife Murphy", td_tenant)]) (world_at noon)
    = (Returned out, w').
Proof.
  apply (proj1 (successful_run_reports_nothing
                  (sample_instance [("Aoife Murphy", td_tenant)])
                  (sample_database [("Aoife Murphy", td_tenant)])
                  (world_at noon) eq_refl)).
  repeat constructor.
Defined.

(** ** When the report can be produced *)

Lemma js_map_throws {A B} (f : A -> Js B) (e : JsError) l :
  (forall x, (exists b, forall w, f x w = (Returned b, w))
             \/ (forall w, f x w = (Thrown e, w))) ->
  Exists (fun x => forall w, f x w = (Thrown e, w)) l ->
  forall w, js_map f l w = (Thrown e, w).
Proof.
  intros Hf Hex. induction Hex as [x l Hx | x l Hex IH]; intros w; cbn [js_map].
  - apply bind_thrown. apply Hx.
  - destruct (Hf x) as [[b Hb] | Hx].
    + rewrite (bind_returned _ _ _ _ _ (Hb w)). apply bind_thrown. apply IH.
    + apply bind_thrown. apply Hx.
Qed.

Lemma js_filter_throws {A} (p : A -> Js bool) (e : JsError) l :
  (forall x, (exists b, forall w, p x w = (Returned b, w))
             \/ (forall w, p x w = (Thrown e, w))) ->
  Exists (fun x => forall w, p x w = (Thrown e, w)) l ->
  forall w, js_filter p l w = (Thrown e, w).
Proof.
  intros Hp Hex. induction Hex as [x l Hx | x l Hex IH]; intros w; cbn [js_filter].
  - apply bind_thrown. apply Hx.
  - destruct (Hp x) as [[b Hb] | Hx].
    + rewrite (bind_returned _ _ _ _ _ (Hb w)). apply bind_thrown. apply IH.
    + apply bind_thrown. apply Hx.
Qed.

Lemma reportable_dec l :
  Forall reportable l
  \/ Exists (fun td => voting_record td = None) l
  \/ (Forall (fun td => voting_record td <> None) l
      /\ Exists (fun td => electoral_data td = None) l).
Proof.
  induction l as [|td l IH].
  - left. constructor.
  - destruct (voting_record td) as [r|] eqn:Hr.
    2:{ right; left. apply Exists_cons_hd. exact Hr. }
    destruct IH as [IH | [IH | [IHv IHe]]].
    + destruct (electoral_data td) as [e|] eqn:He.
      * left. constructor; [|exact IH]. split; congruence.
      * right; right. split.
        -- constructor; [congruence|].
           rewrite List.Forall_forall in *. intros x Hx. apply (IH x Hx).
        -- apply Exists_cons_hd. exact He.
    + right; left. apply Exists_cons_tl. exact IH.
    + right; right. split.
      * constructor; [congruence | exact IHv].
      * apply Exists_cons_tl. exact IHe.
Qed.

Lemma not_reportable_exists l :
  Exists (fun td => voting_record td = None) l
  \/ Exists (fun td => electoral_data td = None) l ->
  ~ Forall reportable l.
Proof.
  intros H Hall. rewrite List.Forall_forall in Hall.
  destruct H as [H|H]; apply List.Exists_exists in H; destruct H as (td & Hin & Hnone);
    destruct (Hall td Hin) as [Hv He]; congruence.
Qed.

Lemma report_head_returns l w :
  Forall (fun td => voting_record td <> None) l ->
  js_map (fun td => let* record := voting_record_of td in
                    ret (mkTarget td (combined_priority_of record))) l w
  = (Returned (map target_of l), w).
Proof.
  intros H. apply js_map_returns. rewrite List.Forall_forall in *. intros td Htd w0.
  specialize (H td Htd). unfold voting_record_of, target_of, bind, ret.
  destruct (voting_record td); [reflexivity | congruence].
Qed.

Lemma report_head_throws l w :
  Exists (fun td => voting_record td = None) l ->
  js_map (fun td => let* record := voting_record_of td in
                    ret (mkTarget td (combined_priority_of record))) l w
  = (Thrown (TypeError voting_record_message), w).
Proof.
  intros H. apply js_map_throws.
  - intros td. unfold voting_record_of, bind, ret, throw.
    destruct (voting_record td); [left; eexists; reflexivity | right; reflexivity].
  - apply List.Exists_exists in H. destruct H as (td & Hin & Hnone).
    apply List.Exists_exists. exists td. split; [exact Hin|].
    intros w0. unfold voting_record_of, bind, throw. rewrite Hnone. reflexivity.
Qed.

Lemma in_tier_throws tier l w :
  Exists (fun t => electoral_data (target_td t) = None) l ->
  js_filter (in_tier tier) l w = (Thrown (TypeError electoral_data_message), w).
Proof.
  intros H. apply js_filter_throws.
  - intros t. unfold in_tier, ret, throw.
    destruct (electoral_data (target_td t)); [left; eexists; reflexivity | right; reflexivity].
  - apply List.Exists_exists in H. destruct H as (t & Hin & Hnone).
    apply List.Exists_exists. exists t. split; [exact Hin|].
    intros w0. unfold in_tier, throw. rewrite Hnone. reflexivity.
Qed.

Lemma in_tier_returns_profiled tier l :
  Forall (fun t => electoral_data (target_td t) <> None) l ->
  Forall (fun t => forall w, in_tier tier t w = (Returned (tier_is tier t), w)) l.
Proof.
  intros H. rewrite List.Forall_forall in *. intros t Ht w.
  specialize (H t Ht). unfold in_tier, tier_is.
  destruct (electoral_data (target_td t)); [reflexivity | congruence].
Qed.

Lemma prioritized_members db t :
  In t (prioritized db) <-> exists td, In td (landlords_of db) /\ t = target_of td.
Proof.
  unfold prioritized. split.
  - intros H.
    apply (Permutation_in _ (Array_sort_Permutation by_combined_priority _)) in H.
    apply in_map_iff in H. destruct H as (td & <- & Hin). exists td. split; [exact Hin | reflexivity].
  - intros (td & Hin & ->).
    apply (Permutation_in _ (Permutation_sym (Array_sort_Permutation by_combined_priority _))).
    apply in_map. exact Hin.
Qed.

Lemma generateTargetingReport_reportable db w :
  Forall reportable (landlords_of db) ->
  generateTargetingReport db w
  = (Returned (report_at db (clock_shows w (clock_reads w))), after_clock_read w).
Proof.
  intros Hs. unfold generateTargetingReport.
  assert (Hv : Forall (fun td => voting_record td <> None) (landlords_of db)).
  { rewrite List.Forall_forall in *. intros td Htd. apply (Hs td Htd). }
  assert (Hrec : forall w0,
             js_map voting_record_of (landlords_of db) w0
             = (Returned (map record_of (landlords_of db)), w0)).
  { apply js_map_returns. rewrite List.Forall_forall in *. intros td Htd w0.
    specialize (Hv td Htd). unfold voting_record_of, record_of, ret.
    destruct (voting_record td); [reflexivity | congruence]. }
  assert (Hgood : Forall (fun t => electoral_data (target_td t) <> None)
                    (Array_sort by_combined_priority (map target_of (landlords_of db)))).
  { apply List.Forall_forall. intros t Ht. apply prioritized_members in Ht.
    destruct Ht as (td & Hin & ->). rewrite List.Forall_forall in Hs.
    apply (Hs td Hin). }
  rewrite (bind_returned _ _ _ _ _ (report_head_returns _ w Hv)).
  unfold bind at 1. unfold Date_toISOString at 1.
  fold (after_clock_read w).
  repeat rewrite (bind_returned _ _ _ _ _
                    (js_filter_returns _ _ _ (in_tier_returns_profiled _ _ Hgood) _)).
  rewrite (bind_returned _ _ _ _ _ (Hrec _)).
  reflexivity.
Qed.

Lemma generateTargetingReport_throws db w :
  (Exists (fun td => voting_record td = None) (landlords_of db) ->
   generateTargetingReport db w = (Thrown (TypeError voting_record_message), w))
  /\ (Forall (fun td => voting_record td <> None) (landlords_of db) ->
      Exists (fun td => electoral_data td = None) (landlords_of db) ->
      generateTargetingReport db w
      = (Thrown (TypeError electoral_data_message), after_clock_read w)).
Proof.
  split.
  - intros Hv. unfold generateTargetingReport. apply bind_thrown.
    apply report_head_throws. exact Hv.
  - intros Hv He. unfold generateTargetingReport.
    rewrite (bind_returned _ _ _ _ _ (report_head_returns _ w Hv)).
    unfold bind at 1. unfold Date_toISOString at 1. fold (after_clock_read w).
    apply bind_thrown. apply in_tier_throws.
    apply List.Exists_exists in He. destruct He as (td & Hin & Hnone).
    apply List.Exists_exists. exists (target_of td). split; [|exact Hnone].
    apply (prioritized_members db). exists td. split; [exact Hin | reflexivity].
Qed.

(** X3. [generateTargetingReport] returns exactly when every landlord
    entity of the database carries a voting record and an electoral
    profile. When some landlord has no [voting_record] it throws, before
    the clock is read, the TypeError of reading ['hypocrisy_score'] of
    [undefined]; when all have one but some landlord has no
    [electoral_data] it throws, after the clock is read, the TypeError of
    reading ['targeting_priority'] of [undefined]. Entities that are not
    landlords are never read. *)
Theorem report_returns_iff_reportable :
  forall (db : TDDatabase) (w : World),
    ((exists report w', generateTargetingReport db w = (Returned report, w'))
     <-> Forall reportable (landlords_of db))
    /\ (Exists (fun td => voting_record td = None) (landlords_of db) ->
        generateTargetingReport db w
        = (Thrown (TypeError
                     "Cannot read properties of undefined (reading 'hypocrisy_score')"),
           w))
    /\ (Forall (fun td => voting_record td <> None) (landlords_of db) ->
        Exists (fun td => electoral_data td = None) (landlords_of db) ->
        generateTargetingReport db w
        = (Thrown (TypeError
                     "Cannot read properties of undefined (reading 'targeting_priority')"),
           after_clock_read w)).
Proof.
  intros db w. destruct (generateTargetingReport_throws db w) as [Hv He].
  split; [split|split].
  - intros (report & w' & Hret).
    destruct (reportable_dec (landlords_of db)) as [Hall | [Hbad | [Hall Hbad]]];
      [exact Hall | exfalso | exfalso].
    + rewrite (Hv Hbad) in Hret. discriminate Hret.
    + rewrite (He Hall Hbad) in Hret. discriminate Hret.
  - intros Hall. eexists; eexists. apply generateTargetingReport_reportable. exact Hall.
  - exact Hv.
  - exact He.
Qed.

Lemma report_returns_iff_reportable_witness :
  generateTargetingReport (sample_database [("Colm Burke", td_burke)]) (world_at noon)
  = (Thrown (TypeError "Cannot read properties of undefined (reading 'hypocrisy_score')"),
     world_at noon).
Proof.
  apply (proj1 (proj2 (report_returns_iff_reportable
                         (sample_database [("Colm Burke", td_burke)]) (world_at noon)))).
  apply Exists_cons_hd. reflexivity.
Defined.

(** ** The shape of a report *)

Lemma filter_length_disjoint {A} (p q : A -> bool) l :
  (forall x, p x = true -> q x = false) ->
  (length (List.filter p l) + length (List.filter q l) <= length l)%nat.
Proof.
  intros Hpq. induction l as [|x l IH]; cbn [List.filter length]; [lia|].
  destruct (p x) eqn:Ep.
  - rewrite (Hpq x Ep). cbn [length]. lia.
  - destruct (q x); cbn [length]; lia.
Qed.

Lemma tier_is_exclusive tier1 tier2 t :
  tier1 <> tier2 -> tier_is tier1 t = true -> tier_is tier2 t = false.
Proof.
  unfold tier_is. intros Hne H. destruct (electoral_data (target_td t)) as [e|]; [|reflexivity].
  apply String.eqb_eq in H. apply String.eqb_neq. congruence.
Qed.

Lemma prioritized_length db : length (prioritized db) = length (landlords_of db).
Proof.
  unfold prioritized.
  rewrite (Permutation_length (Array_sort_Permutation by_combined_priority _)).
  apply length_map.
Qed.

Lemma tier_list_entry tier n db t :
  In t (firstn n (List.filter (tier_is tier) (prioritized db))) ->
  In (target_td t) (landlords_of db)
  /\ t = target_of (target_td t)
  /\ landlord_status (properties (target_td t)) = true
  /\ exists e, electoral_data (target_td t) = Some e /\ targeting_priority e = tier.
Proof.
  intros H. pose proof (tier_list_members tier n db t H) as Htier.
  apply In_firstn in H. apply filter_In in H. destruct H as [H _].
  apply prioritized_members in H. destruct H as (td & Hin & ->).
  cbn [target_of target_td] in *. repeat split; try assumption.
  unfold landlords_of in Hin. apply filter_In in Hin. apply Hin.
Qed.

(** X4. Whenever the report is produced, [tier_1_targets] and
    [tier_2_targets] are the numbers of landlord entities of the database
    in the critical and in the high tier, and the three lists hold the
    first 5, 8 and 10 entries of their tier in the sorted order of the
    landlords (all of them when the tier has fewer): each list is a
    leading part of its tier's entries and has [min(cap, size of the
    tier)] elements; every listed entry is a landlord of the database
    carrying exactly that tier; the two counts together never exceed
    [total_landlord_tds], and neither does [government_landlord_tds]. *)
Theorem report_lists_are_capped :
  forall (db : TDDatabase) (w : World),
    Forall reportable (landlords_of db) ->
    exists report w',
      generateTargetingReport db w = (Returned report, w')
      /\ tier_1_targets (report_metadata report)
         = Z.of_nat (tier_count "TIER_1_CRITICAL" db)
      /\ tier_2_targets (report_metadata report)
         = Z.of_nat (tier_count "TIER_2_HIGH" db)
      /\ Permutation (prioritized db) (map target_of (landlords_of db))
      /\ Forall (fun '(tier, cap, l) =>
                   length l = Nat.min cap (tier_count tier db)
                   /\ (exists rest,
                          List.filter (tier_is tier) (prioritized db) = (l ++ rest)%list)
                   /\ Forall (fun t =>
                                In (target_td t) (landlords_of db)
                                /\ t = target_of (target_td t)
                                /\ landlord_status (properties (target_td t)) = true
                                /\ exists e, electoral_data (target_td t) = Some e
                                             /\ targeting_priority e = tier) l)
                (tier_lists report)
      /\ total_landlord_tds (report_metadata report) = Z.of_nat (length (landlords_of db))
      /\ tier_1_targets (report_metadata report) + tier_2_targets (report_metadata report)
         <= total_landlord_tds (report_metadata report)
      /\ 0 <= government_landlord_tds (summary_stats report)
         <= total_landlord_tds (report_metadata report).
Proof.
  intros db w Hs. eexists; eexists.
  split; [apply generateTargetingReport_reportable; exact Hs|].
  cbn [report_at tier_1_critical tier_2_high tier_3_medium report_metadata
       tier_1_targets tier_2_targets total_landlord_tds summary_stats
       government_landlord_tds tier_lists].
  split; [rewrite tier_count_prioritized; reflexivity|].
  split; [rewrite tier_count_prioritized; reflexivity|].
  split; [apply Array_sort_Permutation|].
  split.
  { assert (Hlist : forall tier cap,
               length (firstn cap (List.filter (tier_is tier) (prioritized db)))
               = Nat.min cap (tier_count tier db)
               /\ (exists rest,
                      List.filter (tier_is tier) (prioritized db)
                      = (firstn cap (List.filter (tier_is tier) (prioritized db)) ++ rest)%list)
               /\ Forall (fun t =>
                            In (target_td t) (landlords_of db)
                            /\ t = target_of (target_td t)
                            /\ landlord_status (properties (target_td t)) = true
                            /\ exists e, electoral_data (target_td t) = Some e
                                         /\ targeting_priority e = tier)
                         (firstn cap (List.filter (tier_is tier) (prioritized db)))).
    { intros tier cap.
      split; [rewrite length_firstn, tier_count_prioritized; reflexivity|].
      split; [eexists; symmetry; apply firstn_skipn|].
      apply List.Forall_forall. intros t Ht. apply (tier_list_entry _ _ _ _ Ht). }
    constructor; [apply Hlist|]. constructor; [apply Hlist|].
    constructor; [apply Hlist|constructor]. }
  split; [reflexivity|].
  split.
  - pose proof (filter_length_disjoint (tier_is "TIER_1_CRITICAL") (tier_is "TIER_2_HIGH")
                  (prioritized db)
                  (fun t => tier_is_exclusive "TIER_1_CRITICAL" "TIER_2_HIGH" t
                              ltac:(discriminate))) as H.
    rewrite prioritized_length in H. lia.
  - pose proof (List.filter_length_le
                  (fun td => existsb (String.eqb (party td)) government_parties)
                  (landlords_of db)) as H.
    lia.
Qed.

Lemma report_lists_are_capped_witness :
  exists report w',
    generateTargetingReport tied_database (world_at noon) = (Returned report, w')
    /\ tier_2_targets (report_metadata report) = 3
    /\ length (tier_2_high report) = 3%nat.
Proof.
  destruct (report_lists_are_capped tied_database (world_at noon))
    as (report & w' & Hret & _ & H2 & _ & Hlists & _).
  - repeat constructor; discriminate.
  - exists report, w'. split; [exact Hret|]. split; [exact H2|].
    apply Forall_cons_iff in Hlists. destruct Hlists as [_ Hrest].
    apply Forall_cons_iff in Hrest. destruct Hrest as [[Hlen _] _].
    exact Hlen.
Defined.

(** ** The averages of a report *)

Lemma fold_sum_terms terms :
  forall acc,
    fold_left (fun sum term =>
                 match sum, term with
                 | Some s, Some t => Some (s + t)
                 | _, _ => None
                 end) terms acc
    = match acc, sum_terms terms with
      | Some a, Some s => Some (a + s)
      | _, _ => None
      end.
Proof.
  induction terms as [|t rest IH]; intros acc; cbn [fold_left sum_terms].
  - destruct acc; [f_equal; lia | reflexivity].
  - rewrite IH. destruct acc as [a|], t as [t|]; try reflexivity;
      destruct (sum_terms rest); try reflexivity; f_equal; lia.
Qed.

Lemma average_sum terms n :
  average terms n
  = match sum_terms terms, n with
    | Some s, S _ => Some (inject_Z s / inject_Z (Z.of_nat n))%Q
    | _, _ => None
    end.
Proof.
  unfold average. rewrite fold_sum_terms.
  destruct (sum_terms terms) as [s|]; [|reflexivity].
  replace (0 + s) with s by lia. reflexivity.
Qed.

Lemma sum_terms_none terms :
  sum_terms terms = None <-> Exists (fun t => t = None) terms.
Proof.
  induction terms as [|[t|] rest IH]; cbn [sum_terms].
  - split; [discriminate | intros H; inversion H].
  - destruct (sum_terms rest) as [s|].
    + split; [discriminate|]. intros H. inversion H as [? ? Hh | ? ? Ht]; subst.
      * discriminate Hh.
      * apply IH in Ht. discriminate Ht.
    + split; [|reflexivity]. intros _. apply Exists_cons_tl. apply IH. reflexivity.
  - split; [|reflexivity]. intros _. apply Exists_cons_hd. reflexivity.
Qed.

Lemma sum_terms_bounds lo hi terms :
  Forall (fun t => exists s, t = Some s /\ lo <= s <= hi) terms ->
  exists total,
    sum_terms terms = Some total
    /\ lo * Z.of_nat (length terms) <= total <= hi * Z.of_nat (length terms).
Proof.
  induction 1 as [|t rest (s & -> & Hs) Hrest (total & Htotal & Hb)];
    cbn [sum_terms length].
  - exists 0. split; [reflexivity | lia].
  - rewrite Htotal. exists (s + total). split; [reflexivity | lia].
Qed.

Lemma average_bounds lo hi terms :
  terms <> [] ->
  Forall (fun t => exists s, t = Some s /\ lo <= s <= hi) terms ->
  exists q,
    average terms (length terms) = Some q
    /\ (inject_Z lo <= q)%Q /\ (q <= inject_Z hi)%Q.
Proof.
  intros Hne Hall. destruct (sum_terms_bounds lo hi terms Hall) as (total & Hsum & Hlo & Hhi).
  rewrite average_sum, Hsum.
  destruct terms as [|t rest]; [congruence|]. cbn [length] in *.
  eexists. split; [reflexivity|].
  assert (Hpos : (0 < inject_Z (Z.of_nat (S (length rest))))%Q).
  { rewrite <- (Zlt_Qlt 0). lia. }
  split.
  - apply Qle_shift_div_l; [exact Hpos|].
    rewrite <- inject_Z_mult. rewrite <- Zle_Qle. exact Hlo.
  - apply Qle_shift_div_r; [exact Hpos|].
    rewrite <- inject_Z_mult. rewrite <- Zle_Qle. exact Hhi.
Qed.

Lemma average_none terms :
  average terms (length terms) = None
  <-> terms = [] \/ Exists (fun t => t = None) terms.
Proof.
  rewrite average_sum. destruct (sum_terms terms) as [s|] eqn:Hs.
  - destruct terms as [|t rest]; cbn [length].
    + split; [left; reflexivity | reflexivity].
    + split; [discriminate|]. intros [H|H]; [discriminate|].
      apply sum_terms_none in H. congruence.
  - split; [|reflexivity]. intros _. right. apply sum_terms_none. exact Hs.
Qed.

(** X5. Whenever the report is produced, [average_hypocrisy_score] is NaN
    exactly when the database has no landlord or some landlord's score is
    NaN, and otherwise lies between any two bounds that hold for every
    landlord's score (so within 0..100 when the scores are);
    [average_anti_tenant_votes] is NaN exactly when there is no landlord. *)
Theorem report_averages :
  forall (db : TDDatabase) (w : World),
    Forall reportable (landlords_of db) ->
    exists report w',
      generateTargetingReport db w = (Returned report, w')
      /\ (average_hypocrisy_score (summary_stats report) = None
          <-> landlords_of db = []
              \/ Exists (fun td => score_of td = None) (landlords_of db))
      /\ (forall lo hi,
             landlords_of db <> [] ->
             Forall (fun td => exists s, score_of td = Some s /\ lo <= s <= hi)
                    (landlords_of db) ->
             exists q,
               average_hypocrisy_score (summary_stats report) = Some q
               /\ (inject_Z lo <= q)%Q /\ (q <= inject_Z hi)%Q)
      /\ (average_anti_tenant_votes (summary_stats report) = None
          <-> landlords_of db = []).
Proof.
  intros db w Hs. eexists; eexists.
  split; [apply generateTargetingReport_reportable; exact Hs|].
  cbn [report_at summary_stats average_hypocrisy_score average_anti_tenant_votes].
  rewrite !map_map.
  replace (length (landlords_of db))
    with (length (map (fun td => hypocrisy_score (record_of td)) (landlords_of db)))
    by apply length_map.
  split; [|split].
  - rewrite average_none. split; intros [H|H].
    + left. destruct (landlords_of db); [reflexivity | discriminate H].
    + right. apply List.Exists_exists in H. destruct H as (t & Hin & ->).
      apply in_map_iff in Hin. destruct Hin as (td & Htd & Hin).
      apply List.Exists_exists. exists td. split; [exact Hin | exact Htd].
    + left. rewrite H. reflexivity.
    + right. apply List.Exists_exists in H. destruct H as (td & Hin & Htd).
      apply List.Exists_exists. exists (score_of td). split; [|exact Htd].
      apply in_map_iff. exists td. split; [reflexivity | exact Hin].
  - intros lo hi Hne Hall. apply average_bounds.
    + destruct (landlords_of db); [congruence | discriminate].
    + apply List.Forall_forall. intros t Hin. apply in_map_iff in Hin.
      destruct Hin as (td & <- & Hin). rewrite List.Forall_forall in Hall.
      apply (Hall td Hin).
  - rewrite length_map.
    replace (length (landlords_of db))
      with (length (map (fun td => Some (anti_tenant_votes (housing_votes (record_of td))))
                        (landlords_of db)))
      by apply length_map.
    rewrite average_none. split.
    + intros [H|H].
      * destruct (landlords_of db); [reflexivity | discriminate H].
      * apply List.Exists_exists in H. destruct H as (t & Hin & ->).
        apply in_map_iff in Hin. destruct Hin as (td & Htd & _). discriminate Htd.
    + intros ->. left. reflexivity.
Qed.

Lemma report_averages_witness :
  exists report w',
    generateTargetingReport tied_database (world_at noon) = (Returned report, w')
    /\ exists q,
         average_hypocrisy_score (summary_stats report) = Some q
         /\ (inject_Z 0 <= q)%Q /\ (q <= inject_Z 100)%Q.
Proof.
  destruct (report_averages tied_database (world_at noon))
    as (report & w' & Hret & _ & Hb & _).
  - repeat constructor; discriminate.
  - exists report, w'. split; [exact Hret|].
    apply Hb.
    + discriminate.
    + repeat constructor; eexists; (split; [reflexivity | lia]).
Defined.

(** ** Strategy, tier and priority read the same margin *)

Lemma Qltb_mono (a b c : Q) : (b <= c)%Q -> Qltb a b = true -> Qltb a c = true.
Proof. intros Hbc H. apply Qltb_lt in H. apply Qltb_lt. lra. Qed.

Ltac break_hyps :=
  repeat match goal with
         | H : _ /\ _ |- _ => destruct H
         | H : _ \/ _ |- _ => destruct H
         end.

Ltac settle_strategy :=
  let Hs := fresh "Hs" in
  split; intros Hs;
  [ first [ discriminate Hs
          | reflexivity
          | split; [reflexivity | lia]
          | left; split; [reflexivity | lia]
          | right; split; [reflexivity | lia]
          | left; split; [left; reflexivity | lia]
          | left; split; [right; reflexivity | lia]
          | right; reflexivity ]
  | first [ reflexivity
          | exfalso; break_hyps;
            first [ match goal with
                    | H : @eq string _ _ |- _ => discriminate H
                    end
                  | lia ] ] ].

(** X6. The campaign strategy and the tier attached to an entity always
    agree: AGGRESSIVE_IMMEDIATE_CAMPAIGN goes with the critical tier and
    at least 5 holdings; FOCUSED_PRESSURE_CAMPAIGN with the critical tier
    and 3 or 4 holdings or the high tier and at least 3;
    SUSTAINED_AWARENESS_CAMPAIGN with the medium tier, or a higher tier and
    fewer than 3 holdings; LONG_TERM_POSITIONING exactly with TIER_4_LOW,
    and RESEARCH_NEEDED exactly with LOW. *)
Theorem strategy_matches_tier :
  forall (this : Instance) (td : TD),
    let e := addElectoralTargeting this td in
    let count := property_count (properties td) in
    (campaign_strategy e = "AGGRESSIVE_IMMEDIATE_CAMPAIGN"
     <-> targeting_priority e = "TIER_1_CRITICAL" /\ 5 <= count)
    /\ (campaign_strategy e = "FOCUSED_PRESSURE_CAMPAIGN"
        <-> (targeting_priority e = "TIER_1_CRITICAL" /\ 3 <= count < 5)
            \/ (targeting_priority e = "TIER_2_HIGH" /\ 3 <= count))
    /\ (campaign_strategy e = "SUSTAINED_AWARENESS_CAMPAIGN"
        <-> ((targeting_priority e = "TIER_1_CRITICAL"
              \/ targeting_priority e = "TIER_2_HIGH") /\ count < 3)
            \/ targeting_priority e = "TIER_3_MEDIUM")
    /\ (campaign_strategy e = "LONG_TERM_POSITIONING"
        <-> targeting_priority e = "TIER_4_LOW")
    /\ (campaign_strategy e = "RESEARCH_NEEDED" <-> targeting_priority e = "LOW").
Proof.
  intros this td e count. subst e count. unfold addElectoralTargeting.
  destruct (electoral_entry this (constituency td)) as [entry|];
    cbn [campaign_strategy targeting_priority].
  2:{ (split; [settle_strategy|]); (split; [settle_strategy|]);
      (split; [settle_strategy|]); (split; [settle_strategy|]); settle_strategy. }
  unfold getCampaignStrategy, getTargetingPriority.
  pose proof (Qltb_mono (margin_percentage entry) 1 2.5 ltac:(lra)) as M12.
  pose proof (Qltb_mono (margin_percentage entry) 2.5 5 ltac:(lra)) as M23.
  destruct (Qltb (margin_percentage entry) 1) eqn:E1;
    destruct (Qltb (margin_percentage entry) 2.5) eqn:E2;
    try (specialize (M12 eq_refl); discriminate M12);
    destruct (Qltb (margin_percentage entry) 5) eqn:E3;
    try (specialize (M23 eq_refl); discriminate M23);
    clear M12 M23;
    destruct (Z.leb_spec 5 (property_count (properties td)));
    destruct (Z.leb_spec 3 (property_count (properties td)));
    try lia; cbn [andb];
    (split; [settle_strategy|]); (split; [settle_strategy|]);
    (split; [settle_strategy|]); (split; [settle_strategy|]); settle_strategy.
Qed.

Lemma or_default_zero (x : option Z) :
  or_default x 0 = match x with Some v => v | None => 0 end.
Proof.
  unfold or_default. destruct x as [v|]; [|reflexivity].
  destruct (Z.eqb_spec v 0); [subst; reflexivity | reflexivity].
Qed.

(** X7. The priority is always 1 plus the holdings term (3, 2, 1 or 0),
    plus the anti-tenant tally capped at 3, plus 3, 2, 1 or 0 according to
    the tier the entity is given; the final [Math.min(priority, 10)] never
    changes it, and the priority is 10 exactly for an entity of the
    critical tier with at least 10 holdings and at least 3 anti-tenant
    votes. *)
Theorem priority_is_sum_of_terms :
  forall (this : Instance) (votingData : VotingData) (tdInfo : TD),
    let tally := or_default (vd_anti_tenant_votes votingData) 0 in
    calculatePressurePriority this votingData tdInfo
    = 1 + holdings_bonus (property_count (properties tdInfo))
      + Z.min tally 3 + tier_bonus (tier_of this tdInfo)
    /\ calculatePressurePriority this votingData tdInfo <= 10
    /\ (calculatePressurePriority this votingData tdInfo = 10
        <-> 10 <= property_count (properties tdInfo)
            /\ 3 <= tally
            /\ tier_of this tdInfo = "TIER_1_CRITICAL").
Proof.
  intros this votingData tdInfo tally.
  unfold calculatePressurePriority, holdings_bonus, tier_of, addElectoralTargeting,
    getTargetingPriority.
  subst tally. set (tally := or_default (vd_anti_tenant_votes votingData) 0).
  destruct (electoral_entry this (constituency tdInfo)) as [entry|];
    cbn [targeting_priority];
    [destruct (Qltb (margin_percentage entry) 1);
     [|destruct (Qltb (margin_percentage entry) 2.5);
       [|destruct (Qltb (margin_percentage entry) 5)]]|];
    match goal with
    | |- context [tier_bonus ?s] =>
        let v := eval vm_compute in (tier_bonus s) in
        change (tier_bonus s) with v
    end;
    destruct (Z.leb_spec 10 (property_count (properties tdInfo)));
    destruct (Z.leb_spec 5 (property_count (properties tdInfo)));
    destruct (Z.leb_spec 1 (property_count (properties tdInfo)));
    try lia;
    (split; [lia|]); (split; [lia|]);
    (split; [intros Hp; repeat split; first [lia | reflexivity | exfalso; lia]
            | intros (Hc & Ht & Htier); first [discriminate Htier | lia]]).
Qed.

(** X8. Neither score ever falls when an entity of the same party and
    constituency has more holdings, more anti-tenant votes or more
    hypocritical votes. *)
Theorem scores_are_monotone :
  forall (this : Instance) (votingData votingData' : VotingData) (tdInfo tdInfo' : TD)
         (anti anti' : Z),
    party tdInfo = party tdInfo' ->
    constituency tdInfo = constituency tdInfo' ->
    property_count (properties tdInfo) <= property_count (properties tdInfo') ->
    vd_anti_tenant_votes votingData = Some anti ->
    vd_anti_tenant_votes votingData' = Some anti' ->
    anti <= anti' ->
    or_default (vd_hypocritical_votes votingData) 0
    <= or_default (vd_hypocritical_votes votingData') 0 ->
    calculatePressurePriority this votingData tdInfo
    <= calculatePressurePriority this votingData' tdInfo'
    /\ exists score score',
         calculateEnhancedHypocrisyScore this votingData tdInfo = Some score
         /\ calculateEnhancedHypocrisyScore this votingData' tdInfo' = Some score'
         /\ score <= score'.
Proof.
  intros this vd vd' td td' anti anti' Hparty Hcons Hcount Ha Ha' Hanti Hhyp.
  unfold calculatePressurePriority, calculateEnhancedHypocrisyScore.
  rewrite Ha, Ha', <- Hparty, <- Hcons.
  rewrite (or_default_zero (Some anti)), (or_default_zero (Some anti')).
  set (hyp := or_default (vd_hypocritical_votes vd) 0) in *.
  set (hyp' := or_default (vd_hypocritical_votes vd') 0) in *.
  split.
  - destruct (electoral_entry this (constituency td)) as [entry|];
      [destruct (Qltb (margin_percentage entry) 1);
       [|destruct (Qltb (margin_percentage entry) 2.5);
         [|destruct (Qltb (margin_percentage entry) 5)]]|];
      destruct (Z.leb_spec 10 (property_count (properties td)));
      destruct (Z.leb_spec 5 (property_count (properties td)));
      destruct (Z.leb_spec 1 (property_count (properties td)));
      destruct (Z.leb_spec 10 (property_count (properties td')));
      destruct (Z.leb_spec 5 (property_count (properties td')));
      destruct (Z.leb_spec 1 (property_count (properties td')));
      lia.
  - eexists; eexists. split; [reflexivity|]. split; [reflexivity|].
    destruct (_ || _ || _);
      (destruct (electoral_entry this (constituency td)) as [entry|];
       [destruct (Qltb (margin_percentage entry) 5)|]); lia.
Qed.

Lemma scores_are_monotone_witness :
  calculatePressurePriority (sample_instance []) burke_votes td_burke
  <= calculatePressurePriority (sample_instance [])
       (mkVotingData (Some 5) (Some 1) (Some 4) None None (Some 2))
       (mkTD "Colm" "Burke" party_Fianna_Fail "Cork North-Central"
          (mkProperties true 6) None None).
Proof.
  refine (proj1 (scores_are_monotone (sample_instance []) burke_votes
                   (mkVotingData (Some 5) (Some 1) (Some 4) None None (Some 2))
                   td_burke
                   (mkTD "Colm" "Burke" party_Fianna_Fail "Cork North-Central"
                      (mkProperties true 6) None None)
                   3 4 _ _ _ _ _ _ _)); try reflexivity; vm_compute; discriminate.
Defined.

(** ** The vote loop *)

Lemma voteChoice_cases (L r : Q) :
  voteChoice L r = "Against" \/ voteChoice L r = "Abstain" \/ voteChoice L r = "For".
Proof.
  unfold voteChoice, decide_vote.
  destruct (Qltb r L); [left; reflexivity|].
  destruct (Qltb r (fadd L (number 0.1))); [right; left | right; right]; reflexivity.
Qed.

Lemma decide_vote_counters (L r : Q) (anti pro : Z) :
  snd (fst (decide_vote L r anti pro))
  = anti + (if String.eqb (voteChoice L r) "Against" then 1 else 0)
  /\ snd (decide_vote L r anti pro)
     = pro + (if String.eqb (voteChoice L r) "For" then 1 else 0).
Proof.
  unfold voteChoice, decide_vote.
  destruct (Qltb r L); [cbn; lia|].
  destruct (Qltb r (fadd L (number 0.1))); cbn; lia.
Qed.

Lemma cast_count_cons choice v vs :
  cast_count choice (v :: vs)
  = (if String.eqb (vote_cast v) choice then 1 else 0) + cast_count choice vs.
Proof.
  unfold cast_count. cbn [List.filter].
  destruct (String.eqb (vote_cast v) choice); cbn [length]; lia.
Qed.

Lemma vote_loop_closed adjusted slate :
  forall t w,
    vote_loop adjusted slate t w
    = (Returned
         (mkTally
            (votes t ++ synthesized adjusted (random_draws w) (draws_taken w) slate)%list
            (antiTenantVotes t
             + cast_count "Against"
                 (synthesized adjusted (random_draws w) (draws_taken w) slate))
            (proTenantVotes t
             + cast_count "For"
                 (synthesized adjusted (random_draws w) (draws_taken w) slate))),
       after_draws (length slate) w).
Proof.
  induction slate as [|vote rest IH]; intros t w; cbn [vote_loop synthesized length].
  - unfold ret, after_draws, cast_count. cbn. rewrite app_nil_r, !Z.add_0_r.
    destruct t, w; reflexivity.
  - rewrite (bind_returned _ _ _ _ _ (cast_vote_returns adjusted vote t w)).
    rewrite IH. cbn [votes antiTenantVotes proTenantVotes random_draws draws_taken].
    destruct (decide_vote_counters adjusted (random_draws w (draws_taken w))
                (antiTenantVotes t) (proTenantVotes t)) as [-> ->].
    rewrite !cast_count_cons. cbn [vote_cast].
    rewrite <- app_assoc. cbn [app].
    unfold after_draws. cbn [random_draws draws_taken clock_shows clock_reads].
    rewrite Nat.add_succ_r, !Z.add_assoc. reflexivity.
Qed.

Lemma synthesized_length adjusted draw k slate :
  length (synthesized adjusted draw k slate) = length slate.
Proof.
  revert k. induction slate as [|vote rest IH]; intros k; cbn [synthesized length];
    [reflexivity | rewrite IH; reflexivity].
Qed.

Lemma synthesized_counts adjusted draw k slate :
  cast_count "Against" (synthesized adjusted draw k slate)
  + cast_count "Abstain" (synthesized adjusted draw k slate)
  + cast_count "For" (synthesized adjusted draw k slate)
  = Z.of_nat (length slate)
  /\ 0 <= cast_count "Against" (synthesized adjusted draw k slate)
  /\ 0 <= cast_count "Abstain" (synthesized adjusted draw k slate)
  /\ 0 <= cast_count "For" (synthesized adjusted draw k slate).
Proof.
  revert k. induction slate as [|vote rest IH]; intros k; cbn [synthesized length].
  - unfold cast_count. cbn. lia.
  - rewrite !cast_count_cons. cbn [vote_cast]. specialize (IH (S k)).
    destruct (voteChoice_cases adjusted (draw k)) as [-> | [-> | ->]]; cbn; lia.
Qed.

Lemma synthesized_fields adjusted draw k slate :
  map vote_id (synthesized adjusted draw k slate) = map target_id slate
  /\ map vote_weight (synthesized adjusted draw k slate) = map weight slate
  /\ map vote_title (synthesized adjusted draw k slate) = map title slate
  /\ map vote_date (synthesized adjusted draw k slate) = map date slate.
Proof.
  revert k. induction slate as [|vote rest IH]; intros k; cbn [synthesized map].
  - repeat split.
  - destruct (IH (S k)) as (-> & -> & -> & ->). repeat split.
Qed.

(** X9. The vote loop, started from the empty tally, never throws and
    returns one vote per slate entry, in slate order, with the entry's id,
    title, date and weight; [antiTenantVotes] and [proTenantVotes] are the
    numbers of Against and For votes, and the abstentions computed from
    them, slate length minus both, are the number of Abstain votes, hence
    never negative. *)
Theorem vote_loop_tallies :
  forall (adjusted : Q) (slate : list VoteTarget) (w : World),
    exists t w',
      vote_loop adjusted slate (mkTally [] 0 0) w = (Returned t, w')
      /\ length (votes t) = length slate
      /\ map vote_id (votes t) = map target_id slate
      /\ map vote_weight (votes t) = map weight slate
      /\ map vote_title (votes t) = map title slate
      /\ map vote_date (votes t) = map date slate
      /\ antiTenantVotes t = cast_count "Against" (votes t)
      /\ proTenantVotes t = cast_count "For" (votes t)
      /\ Z.of_nat (length slate) - proTenantVotes t - antiTenantVotes t
         = cast_count "Abstain" (votes t)
      /\ 0 <= antiTenantVotes t
      /\ 0 <= proTenantVotes t
      /\ antiTenantVotes t + proTenantVotes t <= Z.of_nat (length slate).
Proof.
  intros adjusted slate w. eexists; eexists.
  split; [apply vote_loop_closed|].
  cbn [votes antiTenantVotes proTenantVotes app].
  set (vs := synthesized adjusted (random_draws w) (draws_taken w) slate).
  destruct (synthesized_counts adjusted (random_draws w) (draws_taken w) slate)
    as (Hsum & Ha & Hb & Hf).
  destruct (synthesized_fields adjusted (random_draws w) (draws_taken w) slate)
    as (Hid & Hw & Ht & Hd).
  fold vs in Hsum, Ha, Hb, Hf, Hid, Hw, Ht, Hd.
  split; [apply synthesized_length|].
  repeat split; try assumption; lia.
Qed.

Lemma vote_loop_app adjusted slate1 slate2 :
  forall t w,
    vote_loop adjusted (slate1 ++ slate2) t w
    = bind (vote_loop adjusted slate1 t) (vote_loop adjusted slate2) w.
Proof.
  induction slate1 as [|vote rest IH]; intros t w; cbn [app vote_loop].
  - reflexivity.
  - rewrite (bind_returned _ _ _ _ _ (cast_vote_returns adjusted vote t w)).
    rewrite IH. unfold bind at 2.
    rewrite (bind_returned _ _ _ _ _ (cast_vote_returns adjusted vote t w)).
    reflexivity.
Qed.

Lemma synthesized_nth adjusted draw slate :
  forall k i, (i < length slate)%nat ->
    nth_error (map vote_cast (synthesized adjusted draw k slate)) i
    = Some (voteChoice adjusted (draw (k + i)%nat)).
Proof.
  induction slate as [|vote rest IH]; intros k i Hi; cbn [length] in Hi; [lia|].
  cbn [synthesized map vote_cast]. destruct i as [|i]; cbn [nth_error].
  - rewrite Nat.add_0_r. reflexivity.
  - rewrite IH by lia. rewrite Nat.add_succ_r. reflexivity.
Qed.

(** X10. The vote loop takes exactly one random draw per slate entry and
    never reads the clock; the [k]-th vote it adds is the choice made on
    the [k]-th draw after the ones already taken; and running it on two
    slates in a row is the same as running it on their concatenation. *)
Theorem vote_loop_draws :
  forall (adjusted : Q) (slate : list VoteTarget) (t : Tally) (w : World),
    (exists t',
        vote_loop adjusted slate t w = (Returned t', after_draws (length slate) w)
        /\ forall k, (k < length slate)%nat ->
             nth_error (map vote_cast (votes t')) (length (votes t) + k)
             = Some (voteChoice adjusted (random_draws w (draws_taken w + k)%nat)))
    /\ forall slate', 
         vote_loop adjusted (slate ++ slate') t w
         = bind (vote_loop adjusted slate t) (vote_loop adjusted slate') w.
Proof.
  intros adjusted slate t w. split.
  - eexists. split; [apply vote_loop_closed|].
    intros k Hk. cbn [votes]. rewrite map_app, nth_error_app2; rewrite length_map; [|lia].
    replace (length (votes t) + k - length (votes t))%nat with k by lia.
    apply synthesized_nth. exact Hk.
  - intros slate'. apply vote_loop_app.
Qed.

Lemma vote_loop_draws_witness :
  exists t',
    vote_loop 0.85 constructor_housingVoteTargets (mkTally [] 0 0) (world_at noon)
    = (Returned t', after_draws 5 (world_at noon))
    /\ nth_error (map vote_cast (votes t')) 0 = Some "For".
Proof.
  destruct (proj1 (vote_loop_draws 0.85 constructor_housingVoteTargets (mkTally [] 0 0)
                     (world_at noon))) as (t' & Hret & Hnth).
  exists t'. split; [exact Hret|].
  exact (Hnth 0%nat ltac:(cbn; lia)).
Defined.

(** ** C7: the bands of the vote loop *)

(** C7. For every entity, slate and sequence of draws the vote loop
    returns one vote per event, and the [k]-th vote is Against iff the
    [k]-th draw [r] is below [L], Abstain iff [L <= r < L (+) 0.1] and For
    iff [L (+) 0.1 <= r], where every operation rounds to a double:
    [L = min(base(party) (+) min(holdings (x) 0.1, 0.3), 0.95)] with [base]
    the five-party table and 0.6 for any other affiliation. [L] never
    exceeds 0.95 and the band above it is never empty of width: its upper
    edge is at least [L]. For non-negative holdings [L] is within 2^-52 of
    the value exact arithmetic gives, and the upper edge of the band within
    2^-52 of [L + 0.1], whatever the affiliation. *)
Theorem vote_selection_bands :
  forall (tdInfo : TD) (slate : list VoteTarget) (w : World),
    let L := adjustedAntiTenantLikelihood tdInfo in
    let edge := fadd L (number 0.1) in
    (exists t w',
        vote_loop L slate (mkTally [] 0 0) w = (Returned t, w')
        /\ length (votes t) = length slate
        /\ forall k, (k < length slate)%nat ->
             let r := random_draws w (draws_taken w + k)%nat in
             exists choice,
               nth_error (map vote_cast (votes t)) k = Some choice
               /\ (choice = "Against" <-> (r < L)%Q)
               /\ (choice = "Abstain" <-> (L <= r)%Q /\ (r < edge)%Q)
               /\ (choice = "For" <-> (edge <= r)%Q))
    /\ L = Qmin (fadd (number (base_likelihood (party tdInfo)))
                      (Qmin (fmul (inject_Z (property_count (properties tdInfo)))
                                  (number 0.1))
                            (number 0.3)))
                (number 0.95)
    /\ (L <= 0.95)%Q
    /\ (L <= edge)%Q
    /\ (0 <= property_count (properties tdInfo) ->
        (likelihood_as_specified tdInfo - (1 # 4503599627370496) <= L)%Q
        /\ (L <= likelihood_as_specified tdInfo + (1 # 4503599627370496))%Q
        /\ (L + 0.1 - (1 # 4503599627370496) <= edge)%Q
        /\ (edge <= L + 0.1 + (1 # 4503599627370496))%Q).
Proof.
  intros tdInfo slate w L edge.
  pose proof (band_edge_above L (adjusted_is_double tdInfo)) as Hedge.
  split; [|split; [|split; [|split]]].
  - eexists; eexists. split; [apply vote_loop_closed|].
    cbn [votes app]. split; [apply synthesized_length|].
    intros k Hk. set (r := random_draws w (draws_taken w + k)%nat).
    eexists. split; [apply synthesized_nth; exact Hk|].
    fold r. destruct (voteChoice_bands L r) as (H1 & H2 & H3).
    split; [exact H1|]. split; [exact H2|].
    rewrite H3. fold edge. split; [intros [_ H]; exact H|].
    intros H. split; [unfold edge in H; lra|exact H].
  - unfold L, adjustedAntiTenantLikelihood, propertyInfluence.
    rewrite tendency_base_likelihood. reflexivity.
  - apply adjusted_le_cap.
  - exact Hedge.
  - intros Hc. destruct (adjusted_near_specified tdInfo Hc) as (Hl & Hu & H02).
    fold L in Hl, Hu, H02.
    split; [exact Hl|]. split; [exact Hu|].
    apply band_edge_near; [lra|apply adjusted_le_cap].
Qed.

Lemma vote_selection_bands_witness :
  exists t w',
    vote_loop (adjustedAntiTenantLikelihood td_burke) constructor_housingVoteTargets
      (mkTally [] 0 0) (world_at noon)
    = (Returned t, w')
    /\ nth_error (map vote_cast (votes t)) 0 = Some "For".
Proof.
  destruct (proj1 (vote_selection_bands td_burke constructor_housingVoteTargets
                     (world_at noon))) as (t & w' & Hloop & _ & Hbands).
  destruct (Hbands 0%nat ltac:(cbn; lia)) as (choice & Hnth & _ & _ & Hfor).
  exists t, w'. split; [exact Hloop|]. rewrite Hnth. f_equal.
  apply Hfor. apply Qle_bool_iff. vm_compute. reflexivity.
Defined.

(** The claim read in exact arithmetic fails on the code: for Colm Burke
    (base 0.7, one holding) exact arithmetic gives [L = 0.8] and the
    abstain band [0.8 <= r < 0.9]; the draw 0.8999999999999999 lies in it,
    yet the loop casts For, since [0.7 + 0.1] is the double
    0.7999999999999999 and adding 0.1 to it gives 0.8999999999999999. *)
Lemma edge_draw_votes_for :
  (likelihood_as_specified td_burke == 0.8)%Q
  /\ (likelihood_as_specified td_burke <= edge_draw)%Q
  /\ (edge_draw < likelihood_as_specified td_burke + 0.1)%Q
  /\ (0 <= edge_draw)%Q /\ (edge_draw < 1)%Q
  /\ exists t w',
       vote_loop (adjustedAntiTenantLikelihood td_burke) constructor_housingVoteTargets
         (mkTally [] 0 0) (world_drawing edge_draw)
       = (Returned t, w')
       /\ map vote_cast (votes t) = ["For"; "For"; "For"; "For"; "For"].
Proof.
  repeat split; try (vm_compute; reflexivity); try (vm_compute; discriminate).
  eexists; eexists. split; [vm_compute; reflexivity|reflexivity].
Qed.

Lemma synthesized_hypocritical adjusted draw k slate :
  hypocritical_count (synthesized adjusted draw k slate)
  <= cast_count "Against" (synthesized adjusted draw k slate)
  /\ (Forall (fun v => pro_tenant_stance v = "FOR") slate ->
      hypocritical_count (synthesized adjusted draw k slate)
      = cast_count "Against" (synthesized adjusted draw k slate))
  /\ (Forall (fun v => pro_tenant_stance v <> "FOR") slate ->
      hypocritical_count (synthesized adjusted draw k slate) = 0).
Proof.
  revert k. induction slate as [|vote rest IH]; intros k; cbn [synthesized].
  - unfold hypocritical_count, cast_count. cbn. repeat split; lia.
  - destruct (IH (S k)) as (Hle & Hfor & Hnot).
    rewrite cast_count_cons. cbn [vote_cast].
    unfold hypocritical_count in *. cbn [List.filter is_hypocritical].
    destruct (String.eqb (voteChoice adjusted (draw k)) "Against") eqn:E; cbn [andb].
    + destruct (String.eqb_spec (pro_tenant_stance vote) "FOR") as [Hs|Hs]; cbn [length].
      * split; [lia|]. split.
        -- intros Hall. apply Forall_cons_iff in Hall. destruct Hall as [_ Hall].
           specialize (Hfor Hall). lia.
        -- intros Hall. apply Forall_cons_iff in Hall. destruct Hall as [Hv _].
           contradiction.
      * split; [lia|]. split.
        -- intros Hall. apply Forall_cons_iff in Hall. destruct Hall as [Hv _].
           contradiction.
        -- intros Hall. apply Forall_cons_iff in Hall. destruct Hall as [_ Hall].
           apply Hnot. exact Hall.
    + split; [lia|]. split.
      * intros Hall. apply Forall_cons_iff in Hall. destruct Hall as [_ Hall].
        specialize (Hfor Hall). lia.
      * intros Hall. apply Forall_cons_iff in Hall. destruct Hall as [_ Hall].
        apply Hnot. exact Hall.
Qed.

(** X11. After the vote loop the number of votes flagged [is_hypocritical]
    never exceeds [antiTenantVotes]; the two are equal when every slate
    entry has the stance FOR (as on the constructor's slate), and no vote
    is flagged when no entry has it. *)
Theorem hypocritical_votes_are_anti_tenant_votes :
  forall (adjusted : Q) (slate : list VoteTarget) (w : World),
    exists t w',
      vote_loop adjusted slate (mkTally [] 0 0) w = (Returned t, w')
      /\ hypocritical_count (votes t) <= antiTenantVotes t
      /\ (Forall (fun v => pro_tenant_stance v = "FOR") slate ->
          hypocritical_count (votes t) = antiTenantVotes t)
      /\ (Forall (fun v => pro_tenant_stance v <> "FOR") slate ->
          hypocritical_count (votes t) = 0).
Proof.
  intros adjusted slate w. eexists; eexists. split; [apply vote_loop_closed|].
  cbn [votes antiTenantVotes app].
  destruct (synthesized_hypocritical adjusted (random_draws w) (draws_taken w) slate)
    as (Hle & Hfor & Hnot).
  split; [lia|]. split.
  - intros H. rewrite (Hfor H). lia.
  - exact Hnot.
Qed.

Lemma hypocritical_votes_are_anti_tenant_votes_witness :
  exists t w',
    vote_loop 0.7 constructor_housingVoteTargets (mkTally [] 0 0) (world_at noon)
    = (Returned t, w')
    /\ hypocritical_count (votes t) = antiTenantVotes t.
Proof.
  destruct (hypocritical_votes_are_anti_tenant_votes 0.7 constructor_housingVoteTargets
              (world_at noon)) as (t & w' & Hret & _ & Hfor & _).
  exists t, w'. split; [exact Hret|]. apply Hfor. repeat constructor.
Defined.

Lemma synthesized_never_for adjusted draw k slate :
  (0.9 < adjusted)%Q ->
  (forall i, (draw i < 1)%Q) ->
  Forall (fun v => vote_cast v <> "For") (synthesized adjusted draw k slate)
  /\ cast_count "For" (synthesized adjusted draw k slate) = 0.
Proof.
  intros HL Hdraw. revert k.
  induction slate as [|vote rest IH]; intros k; cbn [synthesized].
  - split; [constructor | reflexivity].
  - destruct (IH (S k)) as [Hall Hcount].
    assert (Hne : voteChoice adjusted (draw k) <> "For").
    { intros Hfor. apply (voteChoice_bands adjusted (draw k)) in Hfor.
      destruct Hfor as [_ Hedge]. specialize (Hdraw k).
      assert (Hone : (1 <= fadd adjusted (number 0.1))%Q).
      { change 1%Q with (binary64 1). unfold fadd. apply binary64_mono.
        assert (Htenth : (0.1 <= number 0.1)%Q)
          by (apply Qle_bool_iff; vm_compute; reflexivity).
        lra. }
      lra. }
    split.
    + constructor; [exact Hne | exact Hall].
    + rewrite cast_count_cons. cbn [vote_cast].
      destruct (String.eqb_spec (voteChoice adjusted (draw k)) "For"); [contradiction|].
      rewrite Hcount. reflexivity.
Qed.

(** X12. For an entity whose adjusted likelihood exceeds 0.9 (it is then
    the cap 0.95), no draw of [Math.random()] yields a For vote: the loop
    returns a tally with [proTenantVotes = 0], every vote being Against or
    Abstain. *)
Theorem capped_likelihood_never_votes_for :
  forall (tdInfo : TD) (slate : list VoteTarget) (w : World),
    (0.9 < adjustedAntiTenantLikelihood tdInfo)%Q ->
    unit_draws w ->
    exists t w',
      vote_loop (adjustedAntiTenantLikelihood tdInfo) slate (mkTally [] 0 0) w
      = (Returned t, w')
      /\ proTenantVotes t = 0
      /\ Forall (fun v => vote_cast v = "Against" \/ vote_cast v = "Abstain") (votes t).
Proof.
  intros tdInfo slate w HL Hdraws. eexists; eexists. split; [apply vote_loop_closed|].
  cbn [votes proTenantVotes app].
  destruct (synthesized_never_for (adjustedAntiTenantLikelihood tdInfo)
              (random_draws w) (draws_taken w) slate HL (fun i => proj2 (Hdraws i)))
    as [Hall Hcount].
  split; [lia|].
  clear Hcount. revert Hall.
  generalize (draws_taken w). induction slate as [|vote rest IH]; intros k Hall;
    cbn [synthesized] in *; constructor.
  - apply Forall_cons_iff in Hall. destruct Hall as [Hne _]. cbn [vote_cast] in *.
    destruct (voteChoice_cases (adjustedAntiTenantLikelihood tdInfo) (random_draws w k))
      as [H | [H | H]]; [left; exact H | right; exact H | contradiction].
  - apply IH. apply Forall_cons_iff in Hall. apply Hall.
Qed.

Lemma capped_likelihood_never_votes_for_witness :
  exists t w',
    vote_loop (adjustedAntiTenantLikelihood td_grealish) constructor_housingVoteTargets
      (mkTally [] 0 0) (world_at noon)
    = (Returned t, w')
    /\ proTenantVotes t = 0
    /\ Forall (fun v => vote_cast v = "Against" \/ vote_cast v = "Abstain") (votes t).
Proof.
  apply (capped_likelihood_never_votes_for td_grealish constructor_housingVoteTargets
           (world_at noon)).
  - vm_compute. reflexivity.
  - intros k. split; vm_compute; [discriminate | reflexivity].
Defined.

(** ** The adjusted likelihood *)

Lemma base_likelihood_range (p : string) :
  (0.2 <= base_likelihood p)%Q /\ (base_likelihood p <= 0.8)%Q.
Proof.
  unfold base_likelihood.
  repeat match goal with
         | |- context [String.eqb p ?k] => destruct (String.eqb p k)
         end; split; lra.
Qed.

Lemma propertyInfluence_mono (td td' : TD) :
  property_count (properties td) <= property_count (properties td') ->
  (propertyInfluence td <= propertyInfluence td')%Q.
Proof.
  intros Hc. unfold propertyInfluence.
  apply Q.min_le_compat_r. unfold fmul. apply binary64_mono.
  apply Qmult_le_compat_r; [|apply Qlt_le_weak, number_tenth_positive].
  rewrite <- Zle_Qle. exact Hc.
Qed.

Lemma likelihood_below_base_plus_cap (p : string) (influence : Q) :
  (influence <= number 0.3)%Q ->
  (Qmin (fadd (number (base_likelihood p)) influence) (number 0.95)
   <= base_likelihood p + 0.3)%Q.
Proof.
  intros Hi.
  apply (Qle_trans _ (Qmin (fadd (number (base_likelihood p)) (number 0.3)) (number 0.95))).
  - apply Q.min_le_compat_r. unfold fadd. apply binary64_mono. lra.
  - destruct (base_likelihood_cases p) as [-> | [-> | [-> | [-> | [-> | -> ]]]]];
      apply Qle_bool_iff; vm_compute; reflexivity.
Qed.

(** X13. For entities of one party with non-negative holdings, the
    adjusted likelihood, computed in doubles, is at least the double of
    the party's base value (hence at least 0.2), at most the base plus 0.3
    and at most 0.95; it never falls when holdings grow, and from 3
    holdings on it no longer changes. *)
Theorem likelihood_grows_then_plateaus :
  forall (tdInfo tdInfo' : TD),
    party tdInfo = party tdInfo' ->
    0 <= property_count (properties tdInfo) ->
    property_count (properties tdInfo) <= property_count (properties tdInfo') ->
    (number (base_likelihood (party tdInfo)) <= adjustedAntiTenantLikelihood tdInfo)%Q
    /\ (0.2 <= adjustedAntiTenantLikelihood tdInfo)%Q
    /\ (adjustedAntiTenantLikelihood tdInfo <= base_likelihood (party tdInfo) + 0.3)%Q
    /\ (adjustedAntiTenantLikelihood tdInfo <= 0.95)%Q
    /\ (adjustedAntiTenantLikelihood tdInfo <= adjustedAntiTenantLikelihood tdInfo')%Q
    /\ (3 <= property_count (properties tdInfo) ->
        adjustedAntiTenantLikelihood tdInfo = adjustedAntiTenantLikelihood tdInfo').
Proof.
  intros td td' Hparty Hc Hcc.
  split; [|split; [|split; [|split; [|split]]]].
  - unfold adjustedAntiTenantLikelihood. rewrite tendency_base_likelihood.
    pose proof (propertyInfluence_nonneg td Hc) as Hi.
    destruct (base_likelihood_range (party td)) as [_ Hb].
    apply Q.min_glb.
    + unfold number at 1. rewrite <- (binary64_idem (base_likelihood (party td))).
      fold (number (base_likelihood (party td))). unfold fadd.
      apply binary64_mono. lra.
    + apply (Qle_trans _ (number 0.8)); [apply binary64_mono; exact Hb|].
      apply Qle_bool_iff. vm_compute. reflexivity.
  - apply (adjusted_near_specified td Hc).
  - unfold adjustedAntiTenantLikelihood. rewrite tendency_base_likelihood.
    apply likelihood_below_base_plus_cap. unfold propertyInfluence. apply Q.le_min_r.
  - apply adjusted_le_cap.
  - unfold adjustedAntiTenantLikelihood.
    rewrite !tendency_base_likelihood, <- Hparty.
    apply Q.min_le_compat_r. unfold fadd. apply binary64_mono.
    pose proof (propertyInfluence_mono td td' Hcc). lra.
  - intros H3. unfold adjustedAntiTenantLikelihood.
    rewrite !tendency_base_likelihood, <- Hparty.
    rewrite (propertyInfluence_capped td H3), (propertyInfluence_capped td' ltac:(lia)).
    reflexivity.
Qed.

Lemma likelihood_grows_then_plateaus_witness :
  (adjustedAntiTenantLikelihood td_burke <= adjustedAntiTenantLikelihood td_burke_large)%Q.
Proof.
  refine (proj1 (proj2 (proj2 (proj2 (proj2
            (likelihood_grows_then_plateaus td_burke td_burke_large _ _ _)))))).
  - reflexivity.
  - vm_compute. discriminate.
  - vm_compute. discriminate.
Defined.

(** ** Loading the data sources *)

Lemma loadDataSources_true env this this' :
  Loading.loadDataSources env this = (this', true) ->
  exists fs db voting electoral,
    env = Some fs
    /\ Loading.td_database_file fs = Returned db
    /\ Loading.voting_records_file fs = Returned voting
    /\ Loading.electoral_margins_file fs = Returned electoral
    /\ this' = mkInstance db voting electoral (landlordTDs this) (housingVoteTargets this).
Proof.
  unfold Loading.loadDataSources, Loading.loadJSON.
  destruct env as [fs|]; [|discriminate].
  destruct (Loading.td_database_file fs) as [db|e1] eqn:E1; [|discriminate].
  destruct (Loading.voting_records_file fs) as [v|e2] eqn:E2; [|discriminate].
  destruct (Loading.electoral_margins_file fs) as [el|e3] eqn:E3; [|discriminate].
  cbn. intros H. injection H as <-.
  exists fs, db, v, el. repeat split; first [assumption | reflexivity].
Qed.

Lemma loadDataSources_all fs this db voting electoral :
  Loading.td_database_file fs = Returned db ->
  Loading.voting_records_file fs = Returned voting ->
  Loading.electoral_margins_file fs = Returned electoral ->
  Loading.loadDataSources (Some fs) this
  = (mkInstance db voting electoral (landlordTDs this) (housingVoteTargets this), true).
Proof.
  intros H1 H2 H3. unfold Loading.loadDataSources, Loading.loadJSON.
  rewrite H1, H2, H3. reflexivity.
Qed.

(** X14. [executeIntegration] returns exactly when [window.fs] is there,
    all three files (database, voting records, electoral margins) are read
    and parsed, the database is not [null] and holds no landlord. When a
    read fails, any of the three, or there is no [window.fs], it throws
    "Failed to load required data sources": a missing voting or electoral
    file is not tolerated, although integration itself would accept it. *)
Theorem run_needs_all_three_files :
  forall (env : Loading.Environment) (this : Instance) (w : World),
    ((exists out w', Loading.executeIntegration env this w = (Returned out, w'))
     <-> exists db, Loading.loaded env db /\ no_landlord (tds db))
    /\ (snd (Loading.loadDataSources env this) = false ->
        Loading.executeIntegration env this w
        = (Thrown (Error "Failed to load required data sources"), w))
    /\ (snd (Loading.loadDataSources env this) = false
        <-> env = None
            \/ exists fs,
                 env = Some fs
                 /\ ((exists e, Loading.td_database_file fs = Thrown e)
                     \/ (exists e, Loading.voting_records_file fs = Thrown e)
                     \/ (exists e, Loading.electoral_margins_file fs = Thrown e))).
Proof.
  intros env this w. split; [|split].
  - split.
    + intros (out & w' & Hret). unfold Loading.executeIntegration in Hret.
      destruct (Loading.loadDataSources env this) as [this' [|]] eqn:Hload;
        cbn [negb] in Hret; [|discriminate Hret].
      destruct (loadDataSources_true env this this' Hload)
        as (fs & db & voting & electoral & -> & H1 & H2 & H3 & ->).
      destruct db as [db|].
      * exists db. split; [exists fs, voting, electoral; repeat split; assumption|].
        apply (integrateVotingRecords_needs_no_landlord
                 (mkInstance (Some db) voting electoral (landlordTDs this)
                    (housingVoteTargets this)) db w eq_refl).
        unfold bind in Hret.
        destruct (integrateVotingRecords _ w) as [[db'|e] w0] eqn:E; [|discriminate Hret].
        exists db', w0. reflexivity.
      * discriminate Hret.
    + intros (db & (fs & voting & electoral & -> & H1 & H2 & H3) & Hno).
      unfold Loading.executeIntegration.
      rewrite (loadDataSources_all fs this _ _ _ H1 H2 H3). cbn [negb].
      rewrite (bind_returned _ _ _ _ _
                 (integrateVotingRecords_clean
                    (mkInstance (Some db) voting electoral (landlordTDs this)
                       (housingVoteTargets this)) db w eq_refl Hno)).
      cbn [landlordTDs].
      rewrite (bind_returned _ _ _ _ _
                 (report_without_landlords
                    (mkTDDatabase _ (cleaned (clock_shows w) (S (clock_reads w)) (tds db))) _
                    (cleaned_landlords _ _ _ Hno))).
      eexists; eexists. reflexivity.
  - intros Hfalse. unfold Loading.executeIntegration.
    destruct (Loading.loadDataSources env this) as [this' loaded].
    cbn [snd] in Hfalse. subst loaded. reflexivity.
  - unfold Loading.loadDataSources, Loading.loadJSON. destruct env as [fs|].
    + destruct (Loading.td_database_file fs) as [db|e1] eqn:E1.
      2:{ cbn [snd]. split; [|reflexivity]. intros _. right. exists fs.
          split; [reflexivity|]. left. exists e1. exact E1. }
      destruct (Loading.voting_records_file fs) as [v|e2] eqn:E2.
      2:{ cbn [snd]. split; [|reflexivity]. intros _. right. exists fs.
          split; [reflexivity|]. right; left. exists e2. exact E2. }
      destruct (Loading.electoral_margins_file fs) as [el|e3] eqn:E3.
      2:{ cbn [snd]. split; [|reflexivity]. intros _. right. exists fs.
          split; [reflexivity|]. right; right. exists e3. exact E3. }
      cbn [snd]. split; [discriminate|].
      intros [H | (fs' & Hfs & Hbad)]; [discriminate H|].
      injection Hfs as Hfs. subst fs'.
      destruct Hbad as [[e H] | [[e H] | [e H]]]; congruence.
    + cbn [snd]. split; [|reflexivity]. intros _. left. reflexivity.
Qed.

Lemma run_needs_all_three_files_witness :
  Loading.executeIntegration (Some no_margins_file_system) new_EnhancedVotingIntegration
    (world_at noon)
  = (Thrown (Error "Failed to load required data sources"), world_at noon).
Proof.
  apply (proj1 (proj2 (run_needs_all_three_files (Some no_margins_file_system)
                         new_EnhancedVotingIntegration (world_at noon)))).
  reflexivity.
Defined.

(** ** The extractor: from fetched votes to summaries *)

Section ExtractionProofs.

Variable toLowerCase : string -> string.

Lemma landlord_vote_from_target this voteInfo tdVote :
  Forall (fun lv =>
            vote_from_target this voteInfo lv
            /\ VotingExtractor.vote_cast lv = VotingExtractor.vote tdVote
            /\ VotingExtractor.lv_party lv = VotingExtractor.party tdVote
            /\ VotingExtractor.lv_constituency lv = VotingExtractor.constituency tdVote)
         (VotingExtractor.landlord_vote toLowerCase this voteInfo tdVote).
Proof.
  unfold VotingExtractor.landlord_vote.
  destruct (find _ (VotingExtractor.priorityLandlordTDs this)) as [target|] eqn:Hfind;
    constructor; [|constructor].
  apply find_some in Hfind. destruct Hfind as [Hin _].
  split; [|repeat split].
  unfold vote_from_target. cbn.
  split; [exists target; repeat split; exact Hin|].
  split; [reflexivity|].
  destruct (Extractor.analyzeVoteHypocrisy _ _); split; intros H;
    first [discriminate H | reflexivity].
Qed.

Lemma processHousingVote_votes this voteInfo fetched :
  Forall (fun lv =>
            vote_from_target this voteInfo lv
            /\ exists tdVote,
                 In tdVote (concat fetched)
                 /\ VotingExtractor.vote_cast lv = VotingExtractor.vote tdVote
                 /\ VotingExtractor.lv_party lv = VotingExtractor.party tdVote
                 /\ VotingExtractor.lv_constituency lv = VotingExtractor.constituency tdVote)
         (flat_map (fun tdVotes =>
                      flat_map (VotingExtractor.landlord_vote toLowerCase this voteInfo) tdVotes)
                   fetched).
Proof.
  apply List.Forall_forall. intros lv Hin.
  apply in_flat_map in Hin. destruct Hin as (tdVotes & Hdeb & Hin).
  apply in_flat_map in Hin. destruct Hin as (tdVote & Hvote & Hin).
  pose proof (landlord_vote_from_target this voteInfo tdVote) as H.
  rewrite List.Forall_forall in H. destruct (H lv Hin) as (Hok & Hc & Hp & Hco).
  split; [exact Hok|]. exists tdVote. repeat split; try assumption.
  apply in_concat. exists tdVotes. split; assumption.
Qed.

Lemma flat_map_length_le {A B} (f : A -> list B) l :
  (forall x, length (f x) <= 1)%nat -> (length (flat_map f l) <= length l)%nat.
Proof.
  intros Hf. induction l as [|x l IH]; cbn [flat_map length]; [lia|].
  rewrite length_app. specialize (Hf x). lia.
Qed.

Lemma landlord_vote_length this voteInfo tdVote :
  (length (VotingExtractor.landlord_vote toLowerCase this voteInfo tdVote) <= 1)%nat.
Proof.
  unfold VotingExtractor.landlord_vote. destruct (find _ _); cbn; lia.
Qed.

Lemma processHousingVote_length this voteInfo fetched :
  (length (flat_map (fun tdVotes =>
                       flat_map (VotingExtractor.landlord_vote toLowerCase this voteInfo) tdVotes)
                    fetched)
   <= length (concat fetched))%nat.
Proof.
  induction fetched as [|tdVotes rest IH]; cbn [flat_map concat length]; [lia|].
  rewrite !length_app.
  pose proof (flat_map_length_le (VotingExtractor.landlord_vote toLowerCase this voteInfo)
                tdVotes (landlord_vote_length this voteInfo)).
  lia.
Qed.

Lemma flat_map_concat {A B} (f : A -> list B) (ls : list (list A)) :
  flat_map (fun l => flat_map f l) ls = flat_map f (concat ls).
Proof.
  induction ls as [|l ls IH]; cbn [flat_map concat]; [reflexivity|].
  rewrite flat_map_app, IH. reflexivity.
Qed.

(** The entries stand for the matching fetched votes, one for one and in
    the order fetched. *)
Lemma landlord_votes_in_order this voteInfo tdVotes :
  Forall2 (fun tdVote lv =>
             vote_from_target this voteInfo lv
             /\ VotingExtractor.vote_cast lv = VotingExtractor.vote tdVote
             /\ VotingExtractor.lv_party lv = VotingExtractor.party tdVote
             /\ VotingExtractor.lv_constituency lv = VotingExtractor.constituency tdVote)
          (List.filter (matches_a_landlord toLowerCase this) tdVotes)
          (flat_map (VotingExtractor.landlord_vote toLowerCase this voteInfo) tdVotes).
Proof.
  induction tdVotes as [|tdVote rest IH]; cbn [List.filter flat_map]; [constructor|].
  pose proof (landlord_vote_from_target this voteInfo tdVote) as Hentry.
  unfold matches_a_landlord at 1.
  unfold VotingExtractor.landlord_vote in Hentry.
  unfold VotingExtractor.landlord_vote at 1.
  destruct (find _ (VotingExtractor.priorityLandlordTDs this)) as [target|] eqn:Hfind.
  - assert (Hex : existsb (VotingExtractor.names_match toLowerCase tdVote)
                    (VotingExtractor.priorityLandlordTDs this) = true).
    { apply find_some in Hfind. apply existsb_exists. exists target. exact Hfind. }
    rewrite Hex. cbn [app]. constructor; [|exact IH].
    inversion Hentry as [|? ? Hhd _]. exact Hhd.
  - assert (Hex : existsb (VotingExtractor.names_match toLowerCase tdVote)
                    (VotingExtractor.priorityLandlordTDs this) = false).
    { destruct (existsb _ _) eqn:E; [|reflexivity].
      apply existsb_exists in E. destruct E as (target & Hin & Hmatch).
      rewrite (find_none _ _ Hfind target Hin) in Hmatch. discriminate Hmatch. }
    rewrite Hex. cbn [app]. exact IH.
Qed.

(** X15. [processHousingVote] gives [null] exactly when no debate was
    found. Otherwise its entries stand, one for one and in the order
    fetched, for the fetched TD votes whose name matches a priority
    landlord; the other votes are dropped. Each entry carries the name and
    the holdings of a priority landlord (not those the API sent), the vote,
    party and constituency of its fetched vote, the verdict of
    [analyzeVoteHypocrisy] as its flag, and an explanation exactly when
    that flag is set. *)
Theorem processHousingVote_entries :
  forall (this : VotingExtractor.Instance) (voteInfo : VotingExtractor.VoteInfo)
         (debates : option (list (list VotingExtractor.TDVote))),
    (VotingExtractor.processHousingVote toLowerCase this voteInfo debates = None
     <-> debates = None)
    /\ forall fetched,
         debates = Some fetched ->
         exists result,
           VotingExtractor.processHousingVote toLowerCase this voteInfo debates = Some result
           /\ VotingExtractor.vr_date result = VotingExtractor.date voteInfo
           /\ VotingExtractor.vr_pro_tenant_position result
              = VotingExtractor.pro_tenant_position voteInfo
           /\ (length (VotingExtractor.landlord_td_votes result)
               <= length (concat fetched))%nat
           /\ Forall2 (fun tdVote lv =>
                         vote_from_target this voteInfo lv
                         /\ VotingExtractor.vote_cast lv = VotingExtractor.vote tdVote
                         /\ VotingExtractor.lv_party lv = VotingExtractor.party tdVote
                         /\ VotingExtractor.lv_constituency lv
                            = VotingExtractor.constituency tdVote)
                      (List.filter (matches_a_landlord toLowerCase this) (concat fetched))
                      (VotingExtractor.landlord_td_votes result).
Proof.
  intros this voteInfo debates. split.
  - destruct debates; cbn; split; intros H; first [discriminate H | reflexivity].
  - intros fetched ->. eexists. split; [reflexivity|]. cbn.
    split; [reflexivity|]. split; [reflexivity|].
    split; [apply processHousingVote_length|].
    rewrite flat_map_concat. apply landlord_votes_in_order.
Qed.

(** *** Matching a fetched vote to a priority landlord *)

Lemma prefix_append sub s :
  String.prefix sub s = true <-> exists post, s = sub +:+ post.
Proof.
  revert s. induction sub as [|a sub IH]; intros s.
  - split; [intros _; exists s; reflexivity | intros _; destruct s; reflexivity].
  - destruct s as [|b s]; cbn [String.prefix].
    + split; [discriminate|]. intros [post H]. discriminate H.
    + destruct (Ascii.ascii_dec a b) as [->|Hne].
      * rewrite IH. split; intros [post H]; exists post.
        -- cbn. rewrite H. reflexivity.
        -- cbn in H. injection H as H. exact H.
      * split; [discriminate|]. intros [post H]. cbn in H. injection H as Hab _.
        congruence.
Qed.

Lemma includes_append s sub :
  includes s sub = true <-> exists pre post, s = pre +:+ sub +:+ post.
Proof.
  induction s as [|c s IH]; cbn [includes].
  - destruct (String.prefix sub "") eqn:E.
    + apply prefix_append in E. destruct E as [post E].
      split; [|reflexivity]. intros _. exists "", post. exact E.
    + split; [discriminate|]. intros (pre & post & H). exfalso.
      destruct pre; [|discriminate H]. cbn in H.
      assert (String.prefix sub "" = true) by (apply prefix_append; exists post; exact H).
      congruence.
  - destruct (String.prefix sub (String c s)) eqn:E.
    + apply prefix_append in E. destruct E as [post E].
      split; [|reflexivity]. intros _. exists "", post. exact E.
    + rewrite IH. split; intros (pre & post & H).
      * exists (String c pre), post. cbn. rewrite H. reflexivity.
      * destruct pre as [|c' pre].
        -- exfalso. cbn in H.
           assert (String.prefix sub (String c s) = true)
             by (apply prefix_append; exists post; exact H).
           congruence.
        -- cbn in H. injection H as _ H. exists pre, post. exact H.
Qed.

Lemma includes_self s : includes s s = true.
Proof.
  apply includes_append. exists "", "". change (s = s +:+ "").
  induction s as [|c s IH]; [reflexivity|].
  change (String c s = String c (s +:+ "")). f_equal. exact IH.
Qed.

Lemma includes_empty s : includes s "" = true.
Proof. apply includes_append. exists "", s. reflexivity. Qed.

(** X16. A fetched vote is attributed by substring, in either direction:
    the landlord of an entry has a lower-cased name that contains the
    voter's or is contained in it. A voter whose lower-cased name equals a
    priority landlord's is never dropped, and a vote whose lower-cased name
    is empty goes to the first priority landlord. *)
Theorem votes_are_attributed_by_substring :
  forall (this : VotingExtractor.Instance) (voteInfo : VotingExtractor.VoteInfo)
         (tdVote : VotingExtractor.TDVote),
    (forall lv,
        In lv (VotingExtractor.landlord_vote toLowerCase this voteInfo tdVote) ->
        exists target pre post,
          In target (VotingExtractor.priorityLandlordTDs this)
          /\ VotingExtractor.td_name lv = Extractor.ltd_name target
          /\ (toLowerCase (Extractor.ltd_name target)
              = pre +:+ toLowerCase (VotingExtractor.name tdVote) +:+ post
              \/ toLowerCase (VotingExtractor.name tdVote)
                 = pre +:+ toLowerCase (Extractor.ltd_name target) +:+ post))
    /\ ((exists target,
            In target (VotingExtractor.priorityLandlordTDs this)
            /\ toLowerCase (Extractor.ltd_name target)
               = toLowerCase (VotingExtractor.name tdVote)) ->
        length (VotingExtractor.landlord_vote toLowerCase this voteInfo tdVote) = 1%nat)
    /\ (toLowerCase (VotingExtractor.name tdVote) = "" ->
        forall first rest,
          VotingExtractor.priorityLandlordTDs this = first :: rest ->
          map VotingExtractor.td_name
              (VotingExtractor.landlord_vote toLowerCase this voteInfo tdVote)
          = [Extractor.ltd_name first]).
Proof.
  intros this voteInfo tdVote. unfold VotingExtractor.landlord_vote.
  split; [|split].
  - destruct (find _ _) as [target|] eqn:E; [|intros lv []].
    apply find_some in E. destruct E as [Hin Hmatch].
    intros lv [<-|[]]. cbn [VotingExtractor.td_name].
    unfold VotingExtractor.names_match in Hmatch.
    apply Bool.orb_true_iff in Hmatch.
    destruct Hmatch as [H|H]; apply includes_append in H; destruct H as (pre & post & H);
      exists target, pre, post; (split; [exact Hin|]); (split; [reflexivity|]);
      [left|right]; exact H.
  - intros (target & Hin & Hname).
    destruct (find _ _) as [found|] eqn:E; [reflexivity|].
    exfalso. apply (find_none _ _ E) in Hin.
    unfold VotingExtractor.names_match in Hin. rewrite Hname, includes_self in Hin.
    discriminate Hin.
  - intros Hempty first rest ->. cbn [find].
    unfold VotingExtractor.names_match. rewrite Hempty, includes_empty. reflexivity.
Qed.

(** *** Compiling the summaries *)

Lemma count_vote_fields voteInfo lv s :
  Extractor.name (VotingExtractor.count_vote voteInfo lv s) = Extractor.name s
  /\ Extractor.properties (VotingExtractor.count_vote voteInfo lv s) = Extractor.properties s
  /\ Extractor.total_votes (VotingExtractor.count_vote voteInfo lv s)
     = Extractor.total_votes s + 1
  /\ Extractor.hypocrisy_score (VotingExtractor.count_vote voteInfo lv s)
     = Extractor.hypocrisy_score s.
Proof.
  unfold VotingExtractor.count_vote.
  destruct (_ && _); [|destruct (_ && _)]; cbn; repeat split; reflexivity.
Qed.

Ltac split_votes lv voteInfo :=
  destruct (String.eqb_spec (VotingExtractor.vote_cast lv) "For");
  destruct (String.eqb_spec (VotingExtractor.vote_cast lv) "Against");
  try (exfalso; congruence);
  destruct (String.eqb_spec (VotingExtractor.pro_tenant_position voteInfo) "FOR");
  destruct (String.eqb_spec (VotingExtractor.pro_tenant_position voteInfo) "AGAINST");
  try (exfalso; congruence).

Lemma count_vote_counts this voteInfo lv s :
  vote_from_target this voteInfo lv ->
  counts_fit s -> counts_fit (VotingExtractor.count_vote voteInfo lv s).
Proof.
  intros (_ & Hflag & _) (Ha & Hah & Hp & Hsum).
  unfold counts_fit, VotingExtractor.count_vote.
  rewrite Hflag. unfold Extractor.analyzeVoteHypocrisy.
  split_votes lv voteInfo; cbn; lia.
Qed.

Lemma count_vote_flagged this voteInfo lv s :
  vote_from_target this voteInfo lv ->
  VotingExtractor.pro_tenant_position voteInfo <> "AGAINST" ->
  Extractor.hypocritical_votes s = Extractor.anti_tenant_votes s ->
  Extractor.hypocritical_votes (VotingExtractor.count_vote voteInfo lv s)
  = Extractor.anti_tenant_votes (VotingExtractor.count_vote voteInfo lv s).
Proof.
  intros (_ & Hflag & _) Hpos Heq.
  unfold VotingExtractor.count_vote.
  rewrite Hflag. unfold Extractor.analyzeVoteHypocrisy.
  split_votes lv voteInfo; cbn; first [lia | congruence].
Qed.

Lemma record_vote_keys voteInfo lv summaries :
  (In (VotingExtractor.td_name lv) (map fst summaries)
   /\ map fst (VotingExtractor.record_vote voteInfo lv summaries) = map fst summaries)
  \/ (~ In (VotingExtractor.td_name lv) (map fst summaries)
      /\ map fst (VotingExtractor.record_vote voteInfo lv summaries)
         = (map fst summaries ++ [VotingExtractor.td_name lv])%list).
Proof.
  induction summaries as [|[key s] rest IH]; cbn [VotingExtractor.record_vote map fst].
  - right. split; [intros []|reflexivity].
  - destruct (String.eqb_spec key (VotingExtractor.td_name lv)) as [-> | Hne].
    + left. split; [left; reflexivity|reflexivity].
    + cbn [map fst]. destruct IH as [[Hin Hk] | [Hnin Hk]].
      * left. split; [right; exact Hin|]. rewrite Hk. reflexivity.
      * right. split; [intros [H|H]; [exact (Hne H)|exact (Hnin H)]|].
        rewrite Hk. reflexivity.
Qed.

Lemma record_vote_NoDup voteInfo lv summaries :
  List.NoDup (map fst summaries) ->
  List.NoDup (map fst (VotingExtractor.record_vote voteInfo lv summaries)).
Proof.
  intros Hnd. destruct (record_vote_keys voteInfo lv summaries) as [[_ ->] | [Hnin ->]].
  - exact Hnd.
  - apply List.NoDup_app; [exact Hnd| |].
    + constructor; [intros []|constructor].
    + intros x Hx [<-|[]]. exact (Hnin Hx).
Qed.

Lemma record_vote_Forall (P : string * Extractor.TDSummary -> Prop) voteInfo lv summaries :
  P (VotingExtractor.td_name lv,
     VotingExtractor.count_vote voteInfo lv (VotingExtractor.new_summary lv)) ->
  (forall key s, P (key, s) -> P (key, VotingExtractor.count_vote voteInfo lv s)) ->
  Forall P summaries ->
  Forall P (VotingExtractor.record_vote voteInfo lv summaries).
Proof.
  intros Hnew Hupd. induction summaries as [|[key s] rest IH]; intros Hall;
    cbn [VotingExtractor.record_vote].
  - constructor; [exact Hnew|constructor].
  - inversion Hall as [|? ? Hhd Htl]; subst.
    destruct (String.eqb key (VotingExtractor.td_name lv)).
    + constructor; [apply Hupd; exact Hhd|exact Htl].
    + constructor; [exact Hhd|apply IH; exact Htl].
Qed.

Lemma record_votes_Forall this P voteInfo lvs :
  kept_by_votes this P voteInfo ->
  Forall (vote_from_target this voteInfo) lvs ->
  forall summaries,
    Forall P summaries ->
    Forall P (fold_left (fun summaries tdVote =>
                           VotingExtractor.record_vote voteInfo tdVote summaries)
                        lvs summaries).
Proof.
  intros Hkept Hlvs. induction Hlvs as [|lv lvs Hlv _ IH]; intros summaries Hall;
    cbn [fold_left]; [exact Hall|].
  apply IH. destruct (Hkept lv Hlv) as [Hnew Hupd].
  apply record_vote_Forall; assumption.
Qed.

Lemma record_votes_NoDup voteInfo lvs :
  forall summaries,
    List.NoDup (map fst summaries) ->
    List.NoDup (map fst (fold_left (fun summaries tdVote =>
                                 VotingExtractor.record_vote voteInfo tdVote summaries)
                              lvs summaries)).
Proof.
  induction lvs as [|lv lvs IH]; intros summaries Hnd; cbn [fold_left]; [exact Hnd|].
  apply IH, record_vote_NoDup, Hnd.
Qed.

Lemma landlord_votes_from_target this voteInfo fetched :
  Forall (vote_from_target this voteInfo)
         (flat_map (fun tdVotes =>
                      flat_map (VotingExtractor.landlord_vote toLowerCase this voteInfo) tdVotes)
                   fetched).
Proof.
  eapply List.Forall_impl; [|apply processHousingVote_votes].
  intros lv [H _]. exact H.
Qed.

Lemma compile_vote_Forall this api P voteInfo acc :
  kept_by_votes this P voteInfo ->
  Forall P (snd acc) ->
  Forall P (snd (VotingExtractor.compile_vote toLowerCase this api acc voteInfo)).
Proof.
  intros Hkept Hall. unfold VotingExtractor.compile_vote, VotingExtractor.processHousingVote.
  destruct (api (VotingExtractor.date voteInfo)) as [fetched|]; [|exact Hall].
  cbn [VotingExtractor.landlord_td_votes].
  pose proof (landlord_votes_from_target this voteInfo fetched) as Hlvs.
  destruct (flat_map _ fetched) as [|lv lvs] eqn:E; [exact Hall|].
  cbn [snd]. apply (record_votes_Forall this P voteInfo); assumption.
Qed.

Lemma compile_vote_NoDup this api voteInfo acc :
  List.NoDup (map fst (snd acc)) ->
  List.NoDup (map fst (snd (VotingExtractor.compile_vote toLowerCase this api acc voteInfo))).
Proof.
  intros Hnd. unfold VotingExtractor.compile_vote, VotingExtractor.processHousingVote.
  destruct (api (VotingExtractor.date voteInfo)) as [fetched|]; [|exact Hnd].
  cbn [VotingExtractor.landlord_td_votes].
  destruct (flat_map _ fetched) as [|lv lvs] eqn:E; [exact Hnd|].
  cbn [snd]. apply record_votes_NoDup, Hnd.
Qed.

Lemma compile_vote_found this api voteInfo acc :
  Forall (fun r => VotingExtractor.landlord_td_votes r <> []) (fst acc) ->
  Forall (fun r => VotingExtractor.landlord_td_votes r <> [])
         (fst (VotingExtractor.compile_vote toLowerCase this api acc voteInfo))
  /\ (length (fst (VotingExtractor.compile_vote toLowerCase this api acc voteInfo))
      <= S (length (fst acc)))%nat.
Proof.
  intros Hall. unfold VotingExtractor.compile_vote, VotingExtractor.processHousingVote.
  destruct (api (VotingExtractor.date voteInfo)) as [fetched|]; [|split; [exact Hall|lia]].
  cbn [VotingExtractor.landlord_td_votes].
  destruct (flat_map _ fetched) as [|lv lvs] eqn:E; [split; [exact Hall|lia]|].
  cbn [fst]. split.
  - apply Forall_app. split; [exact Hall|].
    constructor; [|constructor]. cbn [VotingExtractor.landlord_td_votes]. discriminate.
  - rewrite length_app. cbn. lia.
Qed.

Lemma compiled_Forall this api P votes :
  Forall (kept_by_votes this P) votes ->
  forall acc,
    Forall P (snd acc) ->
    Forall P (snd (fold_left (VotingExtractor.compile_vote toLowerCase this api) votes acc)).
Proof.
  intros Hvotes. induction Hvotes as [|voteInfo votes Hkept _ IH]; intros acc Hall;
    cbn [fold_left]; [exact Hall|].
  apply IH, compile_vote_Forall; assumption.
Qed.

Lemma compiled_NoDup this api votes :
  forall acc,
    List.NoDup (map fst (snd acc)) ->
    List.NoDup (map fst (snd (fold_left (VotingExtractor.compile_vote toLowerCase this api)
                                   votes acc))).
Proof.
  induction votes as [|voteInfo votes IH]; intros acc Hnd; cbn [fold_left]; [exact Hnd|].
  apply IH, compile_vote_NoDup, Hnd.
Qed.

Lemma compiled_found this api votes :
  forall acc,
    Forall (fun r => VotingExtractor.landlord_td_votes r <> []) (fst acc) ->
    Forall (fun r => VotingExtractor.landlord_td_votes r <> [])
           (fst (fold_left (VotingExtractor.compile_vote toLowerCase this api) votes acc))
    /\ (length (fst (fold_left (VotingExtractor.compile_vote toLowerCase this api) votes acc))
        <= length (fst acc) + length votes)%nat.
Proof.
  induction votes as [|voteInfo votes IH]; intros acc Hall; cbn [fold_left length].
  - split; [exact Hall|lia].
  - destruct (compile_vote_found this api voteInfo acc Hall) as [Hall' Hlen].
    destruct (IH _ Hall') as [Hres Hlen']. split; [exact Hres|lia].
Qed.

Lemma new_summary_counts lv : counts_fit (VotingExtractor.new_summary lv).
Proof. unfold counts_fit. cbn. lia. Qed.

Lemma being_compiled_kept this voteInfo :
  kept_by_votes this (being_compiled this) voteInfo.
Proof.
  intros lv Hlv. split.
  - pose proof (count_vote_fields voteInfo lv (VotingExtractor.new_summary lv))
      as (Hn & Hp & Ht & Hs).
    unfold being_compiled, summary_of_target. cbn [fst snd].
    rewrite Hn, Hp, Ht, Hs. cbn.
    split; [|split; [|split; [lia|reflexivity]]].
    + split; [reflexivity|].
      destruct Hlv as ((target & Hin & Hname & Hprops) & _).
      exists target. repeat split; [exact Hin| |]; symmetry; assumption.
    + apply (count_vote_counts this); [exact Hlv|apply new_summary_counts].
  - intros key s (Htarget & Hfit & Htotal & Hscore).
    pose proof (count_vote_fields voteInfo lv s) as (Hn & Hp & Ht & Hs).
    unfold being_compiled, summary_of_target in *. cbn [fst snd] in *.
    rewrite Hn, Hp, Ht, Hs.
    split; [exact Htarget|].
    split; [apply (count_vote_counts this); assumption|].
    split; [|exact Hscore].
    destruct Hfit as (? & ? & ? & ?). lia.
Qed.

Lemma flagged_kept this voteInfo :
  VotingExtractor.pro_tenant_position voteInfo <> "AGAINST" ->
  kept_by_votes this
    (fun entry => Extractor.hypocritical_votes (snd entry)
                  = Extractor.anti_tenant_votes (snd entry)) voteInfo.
Proof.
  intros Hpos lv Hlv. cbn [snd]. split.
  - apply (count_vote_flagged this); [exact Hlv|exact Hpos|reflexivity].
  - intros _ s Heq. apply (count_vote_flagged this); assumption.
Qed.

Lemma compiled_summaries this api :
  compiling this
    (snd (fold_left (VotingExtractor.compile_vote toLowerCase this api)
                    (VotingExtractor.keyHousingVotes this) ([], []))).
Proof.
  split.
  - apply compiled_NoDup. constructor.
  - apply (compiled_Forall this api (being_compiled this)); [|constructor].
    apply List.Forall_forall. intros voteInfo _. apply being_compiled_kept.
Qed.

Lemma extractAllHousingVotes_returns this api w :
  VotingExtractor.extractAllHousingVotes toLowerCase this api w
  = (Returned
       (let acc := fold_left (VotingExtractor.compile_vote toLowerCase this api)
                             (VotingExtractor.keyHousingVotes this) ([], []) in
        {| VotingExtractor.metadata :=
             {| VotingExtractor.extracted_at := clock_shows w (clock_reads w);
                VotingExtractor.source := "Oireachtas API + Manual Analysis";
                VotingExtractor.vote_count :=
                  Z.of_nat (length (VotingExtractor.keyHousingVotes this));
                VotingExtractor.landlord_td_count :=
                  Z.of_nat (length (VotingExtractor.priorityLandlordTDs this)) |};
           VotingExtractor.votes := fst acc;
           VotingExtractor.td_summaries :=
             map (fun '(key, s) =>
                    (key,
                     Extractor.mkTDSummary (Extractor.name s) (Extractor.party s)
                       (Extractor.constituency s) (Extractor.properties s)
                       (Extractor.total_votes s) (Extractor.hypocritical_votes s)
                       (Extractor.pro_tenant_votes s) (Extractor.anti_tenant_votes s)
                       (Extractor.calculateHypocrisyScore
                          (VotingExtractor.priorityLandlordTDs this) s)))
                 (snd acc) |}),
     after_clock_read w).
Proof.
  unfold VotingExtractor.extractAllHousingVotes, bind, Date_toISOString, after_clock_read.
  cbn zeta.
  destruct (fold_left _ _ _) as [found summaries]. reflexivity.
Qed.

Lemma scored_keys (f : Extractor.TDSummary -> Extractor.TDSummary)
    (summaries : list (string * Extractor.TDSummary)) :
  map fst (map (fun '(key, s) => (key, f s)) summaries) = map fst summaries.
Proof.
  induction summaries as [|[key s] rest IH]; cbn; [reflexivity|].
  rewrite IH. reflexivity.
Qed.

Lemma scored_Forall (P Q : string * Extractor.TDSummary -> Prop)
    (f : Extractor.TDSummary -> Extractor.TDSummary)
    (summaries : list (string * Extractor.TDSummary)) :
  (forall key s, P (key, s) -> Q (key, f s)) ->
  Forall P summaries ->
  Forall Q (map (fun '(key, s) => (key, f s)) summaries).
Proof.
  intros HPQ Hall. induction Hall as [|[key s] rest Hhd _ IH]; cbn; constructor.
  - apply HPQ, Hhd.
  - exact IH.
Qed.

(** X17. [extractAllHousingVotes] reads the clock once and always resolves.
    It keeps at most one result per key vote and none without a landlord
    vote. The summaries have distinct keys; each is filed under its own
    name, which is a priority landlord's, with that landlord's holdings;
    each has counted at least one vote, and its counters fit together:
    [0 <= anti_tenant_votes <= hypocritical_votes], [0 <= pro_tenant_votes]
    and [pro_tenant_votes + hypocritical_votes <= total_votes]. *)
Theorem compiled_summaries_are_consistent :
  forall (this : VotingExtractor.Instance)
         (api : string -> option (list (list VotingExtractor.TDVote))) (w : World),
  exists data,
    VotingExtractor.extractAllHousingVotes toLowerCase this api w
    = (Returned data, after_clock_read w)
    /\ VotingExtractor.extracted_at (VotingExtractor.metadata data)
       = clock_shows w (clock_reads w)
    /\ (length (VotingExtractor.votes data)
        <= length (VotingExtractor.keyHousingVotes this))%nat
    /\ Forall (fun r => VotingExtractor.landlord_td_votes r <> [])
              (VotingExtractor.votes data)
    /\ List.NoDup (map fst (VotingExtractor.td_summaries data))
    /\ Forall (fun entry =>
                 summary_of_target this entry
                 /\ counts_fit (snd entry)
                 /\ 1 <= Extractor.total_votes (snd entry))
              (VotingExtractor.td_summaries data).
Proof.
  intros this api w. eexists. split; [apply extractAllHousingVotes_returns|].
  cbn zeta. cbn [VotingExtractor.metadata VotingExtractor.extracted_at
                 VotingExtractor.votes VotingExtractor.td_summaries].
  destruct (compiled_found this api (VotingExtractor.keyHousingVotes this) ([], []))
    as [Hfound Hlen]; [constructor|].
  destruct (compiled_summaries this api) as [Hnd Hall].
  split; [reflexivity|]. split; [exact Hlen|]. split; [exact Hfound|].
  split; [rewrite scored_keys; exact Hnd|].
  eapply scored_Forall; [|exact Hall].
  intros key s (Htarget & Hfit & Htotal & _). cbn [fst snd] in *.
  split; [exact Htarget|]. split; [exact Hfit|exact Htotal].
Qed.

(** X18. When no priority landlord has a negative holding count, every
    score [extractAllHousingVotes] stores is [calculateHypocrisyScore] of
    the summary's own counters, lies in [0,100], is at least
    [min(100, 35 * anti_tenant_votes)], and is exactly 100 for a TD with
    three or more anti-tenant votes. *)
Theorem compiled_scores_are_capped :
  forall (this : VotingExtractor.Instance)
         (api : string -> option (list (list VotingExtractor.TDVote))) (w : World),
    Forall (fun target => 0 <= Extractor.ltd_properties target)
           (VotingExtractor.priorityLandlordTDs this) ->
    exists data w',
      VotingExtractor.extractAllHousingVotes toLowerCase this api w = (Returned data, w')
      /\ Forall (fun entry =>
                   let s := snd entry in
                   Extractor.hypocrisy_score s
                   = Extractor.calculateHypocrisyScore
                       (VotingExtractor.priorityLandlordTDs this) s
                   /\ 0 <= Extractor.hypocrisy_score s <= 100
                   /\ Z.min 100 (35 * Extractor.anti_tenant_votes s)
                      <= Extractor.hypocrisy_score s
                   /\ (3 <= Extractor.anti_tenant_votes s ->
                       Extractor.hypocrisy_score s = 100))
                (VotingExtractor.td_summaries data).
Proof.
  intros this api w Hprops. eexists. eexists.
  split; [apply extractAllHousingVotes_returns|].
  cbn zeta. cbn [VotingExtractor.td_summaries].
  destruct (compiled_summaries this api) as [_ Hall].
  eapply scored_Forall; [|exact Hall].
  intros key s ((_ & target & Hin & _ & Hp) & (Ha & Hah & _ & _) & _ & _).
  cbn [fst snd] in *.
  rewrite List.Forall_forall in Hprops. specialize (Hprops target Hin).
  rewrite Hp in Hprops.
  split; [reflexivity|].
  unfold Extractor.calculateHypocrisyScore. cbn.
  destruct (find _ (VotingExtractor.priorityLandlordTDs this)) as [info|]; [|lia].
  destruct (Extractor.electoral_margin info) as [[m|t]|];
    try destruct (Qltb m 5);
    destruct (Extractor.minister info) as [[|]|]; lia.
Qed.

(** X19. When no key vote has the pro-tenant position ['AGAINST'] (the
    constructor's five are all ['FOR']), the votes flagged hypocritical
    are exactly the anti-tenant votes: every compiled summary has
    [hypocritical_votes = anti_tenant_votes]. *)
Theorem flagged_votes_are_anti_tenant_votes :
  forall (this : VotingExtractor.Instance)
         (api : string -> option (list (list VotingExtractor.TDVote))) (w : World),
    Forall (fun voteInfo => VotingExtractor.pro_tenant_position voteInfo <> "AGAINST")
           (VotingExtractor.keyHousingVotes this) ->
    exists data w',
      VotingExtractor.extractAllHousingVotes toLowerCase this api w = (Returned data, w')
      /\ Forall (fun entry =>
                   Extractor.hypocritical_votes (snd entry)
                   = Extractor.anti_tenant_votes (snd entry))
                (VotingExtractor.td_summaries data).
Proof.
  intros this api w Hpos. eexists. eexists.
  split; [apply extractAllHousingVotes_returns|].
  cbn zeta. cbn [VotingExtractor.td_summaries].
  eapply scored_Forall;
    [|apply (compiled_Forall this api
               (fun entry => Extractor.hypocritical_votes (snd entry)
                             = Extractor.anti_tenant_votes (snd entry)));
      [|constructor]].
  - intros key s H. exact H.
  - eapply List.Forall_impl; [|exact Hpos].
    intros voteInfo H. apply flagged_kept, H.
Qed.


(** *** The media report *)

Lemma by_hypocrisy_score_keeps x y :
  sort_keeps_first VotingExtractor.by_hypocrisy_score x y = true <-> score_order x y.
Proof.
  unfold sort_keeps_first, VotingExtractor.by_hypocrisy_score, score_order.
  rewrite Qle_bool_iff. unfold Qle. cbn. lia.
Qed.

Lemma sort_insert_score_order x l :
  StronglySorted score_order l ->
  StronglySorted score_order (sort_insert VotingExtractor.by_hypocrisy_score x l).
Proof.
  induction l as [|y l IH]; intros Hs; cbn [sort_insert].
  - constructor; constructor.
  - apply StronglySorted_inv in Hs. destruct Hs as [Hs Hall].
    destruct (sort_keeps_first VotingExtractor.by_hypocrisy_score x y) eqn:E.
    + apply by_hypocrisy_score_keeps in E. constructor.
      * constructor; assumption.
      * constructor; [exact E|].
        eapply List.Forall_impl; [|exact Hall].
        intros z Hz. unfold score_order in *. lia.
    + assert (Hyx : score_order y x).
      { destruct (Z_le_gt_dec (Extractor.hypocrisy_score y) (Extractor.hypocrisy_score x))
          as [Hle|Hgt].
        - apply by_hypocrisy_score_keeps in Hle. congruence.
        - unfold score_order. lia. }
      constructor; [apply IH; exact Hs|].
      apply (Permutation_Forall
               (Permutation_sym (sort_insert_Permutation
                                   VotingExtractor.by_hypocrisy_score x l))).
      constructor; assumption.
Qed.

Lemma sorted_by_hypocrisy_score l :
  StronglySorted score_order (Array_sort VotingExtractor.by_hypocrisy_score l).
Proof.
  induction l as [|x l IH]; cbn [Array_sort fold_right]; [constructor|].
  apply sort_insert_score_order. exact IH.
Qed.

Lemma StronglySorted_map {A B} (R : B -> B -> Prop) (f : A -> B) l :
  StronglySorted (fun a b => R (f a) (f b)) l -> StronglySorted R (map f l).
Proof.
  induction 1 as [|x l Hs IH Hall]; cbn [map]; constructor; [exact IH|].
  apply Forall_map. exact Hall.
Qed.

Lemma StronglySorted_app_inv {A} (R : A -> A -> Prop) l1 l2 :
  StronglySorted R (l1 ++ l2)%list ->
  forall a b, In a l1 -> In b l2 -> R a b.
Proof.
  induction l1 as [|x l1 IH]; intros Hs a b Ha Hb; [destruct Ha|].
  cbn in Hs. apply StronglySorted_inv in Hs. destruct Hs as [Hs Hall].
  destruct Ha as [<-|Ha]; [|exact (IH Hs a b Ha Hb)].
  rewrite List.Forall_forall in Hall. apply Hall. apply in_or_app. right. exact Hb.
Qed.

Lemma sorted_summaries_members votingData td :
  In td (Array_sort VotingExtractor.by_hypocrisy_score
           (map snd (VotingExtractor.td_summaries votingData)))
  <-> exists key, In (key, td) (VotingExtractor.td_summaries votingData).
Proof.
  split.
  - intros H.
    apply (Permutation_in _ (Array_sort_Permutation VotingExtractor.by_hypocrisy_score _)) in H.
    apply in_map_iff in H. destruct H as ([key s] & <- & Hin). exists key. exact Hin.
  - intros [key Hin].
    apply (Permutation_in _ (Permutation_sym
                               (Array_sort_Permutation VotingExtractor.by_hypocrisy_score _))).
    apply in_map_iff. exists (key, td). split; [reflexivity|exact Hin].
Qed.

(** X20. [generateHypocrisyReport] lists [min(5, n)] top hypocrites out of
    [n] summaries, in order of falling score; each shows the fields of one
    of the summaries, and a summary is either listed or scores no higher
    than every listed one. *)
Theorem top_hypocrites_are_the_highest_scores :
  forall (this : VotingExtractor.Instance) (votingData : VotingExtractor.CompiledVotingData),
    let report := VotingExtractor.generateHypocrisyReport this votingData in
    length (VotingExtractor.top_hypocrites report)
    = Nat.min 5 (length (VotingExtractor.td_summaries votingData))
    /\ StronglySorted (fun a b => VotingExtractor.h_hypocrisy_score b
                                  <= VotingExtractor.h_hypocrisy_score a)
                      (VotingExtractor.top_hypocrites report)
    /\ (forall h, In h (VotingExtractor.top_hypocrites report) ->
                  exists entry, In entry (VotingExtractor.td_summaries votingData)
                                /\ listed_as (snd entry) h)
    /\ (forall entry,
          In entry (VotingExtractor.td_summaries votingData) ->
          (exists h, In h (VotingExtractor.top_hypocrites report)
                     /\ listed_as (snd entry) h)
          \/ (forall h, In h (VotingExtractor.top_hypocrites report) ->
                        Extractor.hypocrisy_score (snd entry)
                        <= VotingExtractor.h_hypocrisy_score h)).
Proof.
  intros this votingData report. subst report.
  unfold VotingExtractor.generateHypocrisyReport. cbn [VotingExtractor.top_hypocrites].
  set (sortedTDs := Array_sort VotingExtractor.by_hypocrisy_score
                      (map snd (VotingExtractor.td_summaries votingData))).
  pose proof (sorted_by_hypocrisy_score
                (map snd (VotingExtractor.td_summaries votingData))) as Hsorted.
  fold sortedTDs in Hsorted.
  split; [|split; [|split]].
  - rewrite length_map, length_firstn. f_equal. unfold sortedTDs.
    rewrite (Permutation_length (Array_sort_Permutation _ _)). apply length_map.
  - apply StronglySorted_map. cbn. apply StronglySorted_firstn. exact Hsorted.
  - intros h Hin. apply in_map_iff in Hin. destruct Hin as (td & <- & Hin).
    apply In_firstn in Hin. apply sorted_summaries_members in Hin.
    destruct Hin as [key Hin]. exists (key, td). split; [exact Hin|].
    repeat split.
  - intros [key td] Hin. cbn [snd].
    assert (Hs : In td sortedTDs) by (apply sorted_summaries_members; exists key; exact Hin).
    rewrite <- (firstn_skipn 5 sortedTDs) in Hs, Hsorted.
    apply in_app_or in Hs. destruct Hs as [Htop|Hrest].
    + left. eexists. split; [apply in_map; exact Htop|]. repeat split.
    + right. intros h Hh. apply in_map_iff in Hh. destruct Hh as (a & <- & Ha). cbn.
      exact (StronglySorted_app_inv _ _ _ Hsorted a td Ha Hrest).
Qed.

Lemma find_by_name targets info n :
  List.NoDup (map Extractor.ltd_name targets) ->
  In info targets ->
  Extractor.ltd_name info = n ->
  find (fun i => String.eqb (Extractor.ltd_name i) n) targets = Some info.
Proof.
  intros Hnd Hin Hn. induction targets as [|t targets IH]; [destruct Hin|].
  cbn [map] in Hnd. apply List.NoDup_cons_iff in Hnd. destruct Hnd as [Hnotin Hnd].
  cbn [find]. destruct (String.eqb_spec (Extractor.ltd_name t) n) as [Ht|Ht].
  - destruct Hin as [->|Hin]; [reflexivity|].
    exfalso. apply Hnotin. rewrite Ht, <- Hn. apply in_map. exact Hin.
  - destruct Hin as [->|Hin]; [contradiction|]. exact (IH Hnd Hin).
Qed.

Lemma find_named targets n info :
  find (fun i => String.eqb (Extractor.ltd_name i) n) targets = Some info ->
  In info targets /\ Extractor.ltd_name info = n.
Proof.
  intros H. apply find_some in H. destruct H as [Hin Heq].
  split; [exact Hin|]. apply String.eqb_eq. exact Heq.
Qed.

Lemma is_vulnerable_spec this td :
  List.NoDup (map Extractor.ltd_name (VotingExtractor.priorityLandlordTDs this)) ->
  VotingExtractor.is_vulnerable this td = true <-> vulnerable_landlord this td.
Proof.
  intros Hnd. unfold VotingExtractor.is_vulnerable, vulnerable_landlord. split.
  - destruct (find _ _) as [info|] eqn:E; [|discriminate].
    apply find_named in E. destruct E as [Hin Hname].
    destruct (Extractor.electoral_margin info) as [[m|t]|] eqn:Em; try discriminate.
    intros H. apply Qltb_lt in H. exists info, m. repeat split; assumption.
  - intros (info & m & Hin & Hname & Hm & Hlt).
    rewrite (find_by_name _ info _ Hnd Hin Hname), Hm.
    apply Qltb_lt. exact Hlt.
Qed.

Lemma is_minister_spec this td :
  List.NoDup (map Extractor.ltd_name (VotingExtractor.priorityLandlordTDs this)) ->
  VotingExtractor.is_minister this td = true <-> minister_landlord this td.
Proof.
  intros Hnd. unfold VotingExtractor.is_minister, minister_landlord. split.
  - destruct (find _ _) as [info|] eqn:E; [|discriminate].
    apply find_named in E. destruct E as [Hin Hname].
    destruct (Extractor.minister info) as [[|]|] eqn:Em; try discriminate.
    intros _. exists info. repeat split; assumption.
  - intros (info & Hin & Hname & Hm).
    rewrite (find_by_name _ info _ Hnd Hin Hname), Hm. reflexivity.
Qed.

(** X21. With priority landlords of distinct names, a summary is among the
    report's [vulnerable_targets] exactly when the landlord of its name has
    a numeric margin below 5 (so never for ['SAFE'] or a missing margin),
    and among its [government_conflicts] exactly when that landlord is
    marked minister; both lists are in order of falling score. *)
Theorem report_targets_and_conflicts :
  forall (this : VotingExtractor.Instance) (votingData : VotingExtractor.CompiledVotingData),
    List.NoDup (map Extractor.ltd_name (VotingExtractor.priorityLandlordTDs this)) ->
    let report := VotingExtractor.generateHypocrisyReport this votingData in
    (forall td,
        In td (VotingExtractor.vulnerable_targets report)
        <-> (exists key, In (key, td) (VotingExtractor.td_summaries votingData))
            /\ vulnerable_landlord this td)
    /\ (forall td,
          In td (VotingExtractor.government_conflicts report)
          <-> (exists key, In (key, td) (VotingExtractor.td_summaries votingData))
              /\ minister_landlord this td)
    /\ StronglySorted score_order (VotingExtractor.vulnerable_targets report)
    /\ StronglySorted score_order (VotingExtractor.government_conflicts report).
Proof.
  intros this votingData Hnd report. subst report.
  unfold VotingExtractor.generateHypocrisyReport.
  cbn [VotingExtractor.vulnerable_targets VotingExtractor.government_conflicts].
  split; [|split; [|split]].
  - intros td. rewrite filter_In, sorted_summaries_members, (is_vulnerable_spec _ _ Hnd).
    reflexivity.
  - intros td. rewrite filter_In, sorted_summaries_members, (is_minister_spec _ _ Hnd).
    reflexivity.
  - apply StronglySorted_filter, sorted_by_hypocrisy_score.
  - apply StronglySorted_filter, sorted_by_hypocrisy_score.
Qed.


(** *** Extraction followed by the report *)

Lemma NoDup_firstn {A} n (l : list A) : List.NoDup l -> List.NoDup (firstn n l).
Proof.
  intros H. rewrite <- (firstn_skipn n l) in H.
  exact (NoDup_app_remove_r _ _ H).
Qed.

Lemma names_are_keys (summaries : list (string * Extractor.TDSummary)) :
  Forall (fun entry => fst entry = Extractor.name (snd entry)) summaries ->
  map Extractor.name (map snd summaries) = map fst summaries.
Proof.
  induction 1 as [|[key s] rest Hhd _ IH]; cbn [map fst snd]; [reflexivity|].
  cbn in Hhd. rewrite IH, Hhd. reflexivity.
Qed.

Lemma compiled_entries_reportable this api :
  Forall (fun target => 0 <= Extractor.ltd_properties target)
         (VotingExtractor.priorityLandlordTDs this) ->
  Forall (reportable_entry this)
    (map (fun '(key, s) =>
            (key,
             Extractor.mkTDSummary (Extractor.name s) (Extractor.party s)
               (Extractor.constituency s) (Extractor.properties s)
               (Extractor.total_votes s) (Extractor.hypocritical_votes s)
               (Extractor.pro_tenant_votes s) (Extractor.anti_tenant_votes s)
               (Extractor.calculateHypocrisyScore
                  (VotingExtractor.priorityLandlordTDs this) s)))
         (snd (fold_left (VotingExtractor.compile_vote toLowerCase this api)
                         (VotingExtractor.keyHousingVotes this) ([], [])))).
Proof.
  intros Hprops. destruct (compiled_summaries this api) as [_ Hall].
  eapply scored_Forall; [|exact Hall].
  intros key s ((Hkey & target & Hin & _ & Hp) & (Ha & Hah & _ & _) & _ & _).
  cbn [fst snd] in *.
  rewrite List.Forall_forall in Hprops. specialize (Hprops target Hin).
  rewrite Hp in Hprops.
  unfold reportable_entry, VotingExtractor.is_vulnerable, VotingExtractor.is_minister,
    Extractor.calculateHypocrisyScore.
  cbn.
  split; [exact Hkey|].
  destruct (find _ (VotingExtractor.priorityLandlordTDs this)) as [info|];
    [|repeat split; first [lia | discriminate]].
  destruct (Extractor.electoral_margin info) as [[m|t]|];
    try destruct (Qltb m 5);
    destruct (Extractor.minister info) as [[|]|];
    repeat split; first [lia | discriminate | intros _; lia].
Qed.

(** X22. Extraction followed by the report, when no priority landlord has
    a negative holding count: whatever the API answers, the top hypocrites
    have distinct names and scores in [0,100], every vulnerable target
    listed scores at least 10 and every government conflict at least 15. *)
Theorem extracted_report_is_consistent :
  forall (this : VotingExtractor.Instance)
         (api : string -> option (list (list VotingExtractor.TDVote))) (w : World),
    Forall (fun target => 0 <= Extractor.ltd_properties target)
           (VotingExtractor.priorityLandlordTDs this) ->
    exists data w',
      VotingExtractor.extractAllHousingVotes toLowerCase this api w = (Returned data, w')
      /\ let report := VotingExtractor.generateHypocrisyReport this data in
         List.NoDup (map VotingExtractor.h_name (VotingExtractor.top_hypocrites report))
         /\ Forall (fun h => 0 <= VotingExtractor.h_hypocrisy_score h <= 100
                             /\ 0 <= VotingExtractor.h_anti_tenant_votes h)
                   (VotingExtractor.top_hypocrites report)
         /\ Forall (fun td => 10 <= Extractor.hypocrisy_score td)
                   (VotingExtractor.vulnerable_targets report)
         /\ Forall (fun td => 15 <= Extractor.hypocrisy_score td)
                   (VotingExtractor.government_conflicts report).
Proof.
  intros this api w Hprops. eexists. eexists.
  split; [apply extractAllHousingVotes_returns|].
  cbn zeta.
  pose proof (compiled_entries_reportable this api Hprops) as Hall.
  destruct (compiled_summaries this api) as [Hnd _].
  set (acc := fold_left (VotingExtractor.compile_vote toLowerCase this api)
                        (VotingExtractor.keyHousingVotes this) ([], [])) in *.
  match goal with
  | |- context [VotingExtractor.generateHypocrisyReport this ?d] => set (data := d)
  end.
  assert (Hsum : Forall (reportable_entry this) (VotingExtractor.td_summaries data))
    by exact Hall.
  assert (Hkeys : List.NoDup (map fst (VotingExtractor.td_summaries data))).
  { unfold data. cbn [VotingExtractor.td_summaries]. rewrite scored_keys. exact Hnd. }
  clearbody data. clear Hall Hnd.
  assert (Hmem : forall td,
             In td (Array_sort VotingExtractor.by_hypocrisy_score
                      (map snd (VotingExtractor.td_summaries data))) ->
             exists key, reportable_entry this (key, td)).
  { intros td Hin. apply sorted_summaries_members in Hin. destruct Hin as [key Hin].
    exists key. rewrite List.Forall_forall in Hsum. exact (Hsum _ Hin). }
  unfold VotingExtractor.generateHypocrisyReport.
  cbn [VotingExtractor.top_hypocrites VotingExtractor.vulnerable_targets
       VotingExtractor.government_conflicts].
  split; [|split; [|split]].
  - rewrite map_map. cbn [VotingExtractor.h_name].
    change (fun x : Extractor.TDSummary => Extractor.name x) with Extractor.name.
    rewrite <- firstn_map. apply NoDup_firstn.
    apply (Permutation_NoDup
             (Permutation_sym
                (Permutation_map Extractor.name
                   (Array_sort_Permutation VotingExtractor.by_hypocrisy_score _)))).
    rewrite names_are_keys; [exact Hkeys|].
    eapply List.Forall_impl; [|exact Hsum]. intros entry H. apply H.
  - apply Forall_map. apply Forall_firstn. apply List.Forall_forall.
    intros td Hin. destruct (Hmem td Hin) as (key & _ & Hs & Ha & _). cbn in *.
    split; assumption.
  - apply List.Forall_forall. intros td Hin. apply filter_In in Hin.
    destruct Hin as [Hin Hv]. destruct (Hmem td Hin) as (key & _ & _ & _ & H & _).
    exact (H Hv).
  - apply List.Forall_forall. intros td Hin. apply filter_In in Hin.
    destruct Hin as [Hin Hv]. destruct (Hmem td Hin) as (key & _ & _ & _ & _ & H).
    exact (H Hv).
Qed.

End ExtractionProofs.

Lemma processHousingVote_entries_witness :
  exists result,
    VotingExtractor.processHousingVote same_case VotingExtractor.new_OireachtasVotingExtractor
      rent_bill (sample_api "2024-03-15") = Some result
    /\ (length (VotingExtractor.landlord_td_votes result) <= 3)%nat.
Proof.
  destruct (proj2 (processHousingVote_entries same_case
                     VotingExtractor.new_OireachtasVotingExtractor rent_bill
                     (sample_api "2024-03-15")) _ eq_refl)
    as (result & Hret & _ & _ & Hlen & _).
  exists result. split; [exact Hret|exact Hlen].
Defined.

Lemma compiled_scores_are_capped_witness :
  Forall (fun target => 0 <= Extractor.ltd_properties target)
         (VotingExtractor.priorityLandlordTDs VotingExtractor.new_OireachtasVotingExtractor)
  /\ exists data w',
       VotingExtractor.extractAllHousingVotes same_case
         VotingExtractor.new_OireachtasVotingExtractor sample_api (world_at noon)
       = (Returned data, w')
       /\ Forall (fun entry => 0 <= Extractor.hypocrisy_score (snd entry) <= 100)
                 (VotingExtractor.td_summaries data).
Proof.
  assert (H : Forall (fun target => 0 <= Extractor.ltd_properties target)
                (VotingExtractor.priorityLandlordTDs
                   VotingExtractor.new_OireachtasVotingExtractor)).
  { repeat (apply List.Forall_cons; [cbn; lia|]). apply List.Forall_nil. }
  split; [exact H|].
  destruct (compiled_scores_are_capped same_case VotingExtractor.new_OireachtasVotingExtractor
              sample_api (world_at noon) H) as (data & w' & Hret & Hall).
  exists data, w'. split; [exact Hret|].
  eapply List.Forall_impl; [|exact Hall]. intros entry (_ & Hrange & _). exact Hrange.
Defined.

Lemma flagged_votes_are_anti_tenant_votes_witness :
  Forall (fun voteInfo => VotingExtractor.pro_tenant_position voteInfo <> "AGAINST")
         (VotingExtractor.keyHousingVotes VotingExtractor.new_OireachtasVotingExtractor)
  /\ exists data w',
       VotingExtractor.extractAllHousingVotes same_case
         VotingExtractor.new_OireachtasVotingExtractor sample_api (world_at noon)
       = (Returned data, w')
       /\ Forall (fun entry =>
                    Extractor.hypocritical_votes (snd entry)
                    = Extractor.anti_tenant_votes (snd entry))
                 (VotingExtractor.td_summaries data).
Proof.
  assert (H : Forall (fun voteInfo =>
                        VotingExtractor.pro_tenant_position voteInfo <> "AGAINST")
                (VotingExtractor.keyHousingVotes
                   VotingExtractor.new_OireachtasVotingExtractor)).
  { repeat (apply List.Forall_cons; [cbn; discriminate|]). apply List.Forall_nil. }
  split; [exact H|].
  exact (flagged_votes_are_anti_tenant_votes same_case
           VotingExtractor.new_OireachtasVotingExtractor sample_api (world_at noon) H).
Defined.

Lemma top_hypocrites_are_the_highest_scores_witness :
  let report :=
    VotingExtractor.generateHypocrisyReport VotingExtractor.new_OireachtasVotingExtractor
      sample_votingData in
  map VotingExtractor.h_name (VotingExtractor.top_hypocrites report)
  = ["Thomas Byrne"; "Noel Grealish"; "Colm Burke"]
  /\ forall h, In h (VotingExtractor.top_hypocrites report) ->
                exists entry, In entry (VotingExtractor.td_summaries sample_votingData)
                              /\ listed_as (snd entry) h.
Proof.
  split; [reflexivity|].
  exact (proj1 (proj2 (proj2 (top_hypocrites_are_the_highest_scores
                                VotingExtractor.new_OireachtasVotingExtractor
                                sample_votingData)))).
Defined.

Lemma priority_landlord_names_distinct :
  List.NoDup (map Extractor.ltd_name
                (VotingExtractor.priorityLandlordTDs
                   VotingExtractor.new_OireachtasVotingExtractor)).
Proof.
  repeat (apply List.NoDup_cons;
          [cbn; intros H; repeat (destruct H as [H|H]; [discriminate H|]); exact H|]).
  apply List.NoDup_nil.
Defined.

Lemma report_targets_and_conflicts_witness :
  let this := VotingExtractor.new_OireachtasVotingExtractor in
  let report := VotingExtractor.generateHypocrisyReport this sample_votingData in
  List.NoDup (map Extractor.ltd_name (VotingExtractor.priorityLandlordTDs this))
  /\ In byrne_summary (VotingExtractor.government_conflicts report)
  /\ In grealish_summary (VotingExtractor.vulnerable_targets report).
Proof.
  intros this report. split; [exact priority_landlord_names_distinct|].
  destruct (report_targets_and_conflicts this sample_votingData
              priority_landlord_names_distinct) as (Hv & Hg & _ & _).
  split.
  - apply Hg. split.
    + exists "Thomas Byrne". cbn. right. left. reflexivity.
    + exists (Extractor.mkLandlordTD "Thomas Byrne" "Meath East" 1 None (Some true)).
      cbn. repeat split. do 5 right. left. reflexivity.
  - apply Hv. split.
    + exists "Noel Grealish". cbn. left. reflexivity.
    + exists (Extractor.mkLandlordTD "Noel Grealish" "Galway West" 2
                (Some (Extractor.MarginNumber (number 4.1))) None), (number 4.1).
      split; [do 2 right; left; reflexivity|].
      split; [reflexivity|]. split; [reflexivity|].
      apply Qltb_lt. vm_compute. reflexivity.
Defined.

Lemma extracted_report_is_consistent_witness :
  Forall (fun target => 0 <= Extractor.ltd_properties target)
         (VotingExtractor.priorityLandlordTDs VotingExtractor.new_OireachtasVotingExtractor)
  /\ exists data w',
       VotingExtractor.extractAllHousingVotes same_case
         VotingExtractor.new_OireachtasVotingExtractor sample_api (world_at noon)
       = (Returned data, w')
       /\ Forall (fun td => 10 <= Extractor.hypocrisy_score td)
                 (VotingExtractor.vulnerable_targets
                    (VotingExtractor.generateHypocrisyReport
                       VotingExtractor.new_OireachtasVotingExtractor data)).
Proof.
  assert (H : Forall (fun target => 0 <= Extractor.ltd_properties target)
                (VotingExtractor.priorityLandlordTDs
                   VotingExtractor.new_OireachtasVotingExtractor)).
  { repeat (apply List.Forall_cons; [cbn; lia|]). apply List.Forall_nil. }
  split; [exact H|].
  destruct (extracted_report_is_consistent same_case
              VotingExtractor.new_OireachtasVotingExtractor sample_api (world_at noon) H)
    as (data & w' & Hret & _ & _ & Hv & _).
  exists data, w'. split; [exact Hret|exact Hv].
Defined.

Lemma votes_are_attributed_by_substring_witness :
  map VotingExtractor.td_name
      (VotingExtractor.landlord_vote same_case VotingExtractor.new_OireachtasVotingExtractor
         rent_bill (VotingExtractor.mkTDVote "" "Unknown" "Unknown" "Against" "debate/1"))
  = ["Colm Burke"].
Proof.
  exact (proj2 (proj2 (votes_are_attributed_by_substring same_case
                         VotingExtractor.new_OireachtasVotingExtractor rent_bill
                         (VotingExtractor.mkTDVote "" "Unknown" "Unknown" "Against"
                            "debate/1")))
           eq_refl _ _ eq_refl).
Defined.
